(** * SuperElite: the processing ledger of [backend/manifest_manager.py]

    A shallow embedding of [ManifestManager] and [quick_rerate]:
    - Python values as loaded by [json.load] (dicts are insertion ordered
      association lists, floats are IEEE 754 binary64, ints are [Z]);
    - exceptions as a [result] type;
    - the file system, the clock and the codecs ([hashlib.md5], [json]) as
      explicit parameters of the world the methods run in;
    - [restore_files] over a two-level directory tree. *)

From Stdlib Require Import ZArith Ascii Floats.SpecFloat.
From stdpp Require Import gmap strings list pretty.

Open Scope Z_scope.

(* ===================================================================== *)
(** ** Python floats: IEEE 754 binary64, on the Standard Library's
       executable specification of floats *)
(* ===================================================================== *)

Module PyFloat.

Definition float := spec_float.
Definition prec : Z := 53.
Definition emax : Z := 1024.

(** [x * y], [x + y], [x >= y] and [x == y] on floats. *)
Definition mul (x y : float) : float := SFmul prec emax x y.
Definition add (x y : float) : float := SFadd prec emax x y.
Definition ge (x y : float) : bool := SFleb y x.
Definition eqb (x y : float) : bool := SFeqb x y.

(** [float(z)] for an int, rounded to nearest even. *)
Definition of_Z (z : Z) : float := binary_normalize prec emax z 0 false.

(** The float literal [n * 10^-k], correctly rounded as the parser does:
    [dec 4 1] is [0.4]. *)
Definition dec (n : Z) (k : Z) : float :=
  match n with
  | Z0 => S754_zero false
  | Zpos p =>
      SFdiv prec emax (S754_finite false p 0)
                      (S754_finite false (Z.to_pos (10 ^ k)) 0)
  | Zneg p =>
      SFdiv prec emax (S754_finite true p 0)
                      (S754_finite false (Z.to_pos (10 ^ k)) 0)
  end.

(** Nearest integer to [num / den], ties to even ([0 <= num], [0 < den]). *)
Definition div_half_even (num den : Z) : Z :=
  let q := num / den in
  let r := num mod den in
  match 2 * r ?= den with
  | Lt => q
  | Gt => q + 1
  | Eq => if Z.even q then q else q + 1
  end.

(** [round(x, 2)]: the exact value of [x] is rounded to the nearest
    multiple of 1/100 (ties to even), and that decimal is converted back
    to the nearest float; infinities and NaN round to themselves. *)
Definition round2 (x : float) : float :=
  match x with
  | S754_finite s m e =>
      let n := if 0 <=? e then Zpos m * 2 ^ e * 100
               else div_half_even (Zpos m * 100) (2 ^ (- e)) in
      match n with
      | Zpos p => SFdiv prec emax (S754_finite s p 0) (S754_finite false 100 0)
      | _ => S754_zero s
      end
  | _ => x
  end.

Definition is_zero (x : float) : bool :=
  match x with S754_zero _ => true | _ => false end.

Definition is_inf (x : float) : bool :=
  match x with S754_infinity _ => true | _ => false end.

Definition is_nan (x : float) : bool :=
  match x with S754_nan => true | _ => false end.

End PyFloat.

Abbreviation float := PyFloat.float.

(* ===================================================================== *)
(** ** Python values, dicts and exceptions *)
(* ===================================================================== *)

(** The values [json.load] produces, and the ones the ledger stores. *)
#[warnings="-register-all"]
Inductive value : Type :=
| VNone
| VBool (b : bool)
| VInt (n : Z)
| VFloat (x : float)
| VStr (s : string)
| VList (l : list value)
| VDict (d : list (string * value)).

(** A Python dict with string keys, in insertion order. *)
Abbreviation dict := (list (string * value)).

Inductive exn : Type :=
| AttributeError
| TypeError
| KeyError
| OverflowError
| ValueError (msg : string)
| UnicodeDecodeError
| RecursionError
| NonStringKey.

(** [NonStringKey] marks the one place where the embedding stops following
    Python: a dict keyed by something that is not a string. *)

Inductive result (A : Type) : Type :=
| Ok (a : A)
| Raise (e : exn).

Arguments Ok {A} a.
Arguments Raise {A} e.

#[global] Instance result_ret : MRet result := fun _ a => Ok a.
#[global] Instance result_bind : MBind result :=
  fun _ _ f m => match m with Ok a => f a | Raise e => Raise e end.

Module Py.

(** *** dict operations *)

(** [d.get(k)] *)
Fixpoint dict_get (d : dict) (k : string) : option value :=
  match d with
  | [] => None
  | (k', v) :: d' => if String.eqb k k' then Some v else dict_get d' k
  end.

(** [k in d] *)
Definition dict_mem (k : string) (d : dict) : bool :=
  match dict_get d k with Some _ => true | None => false end.

(** [d.get(k, dflt)] *)
Definition dict_get_default (d : dict) (k : string) (dflt : value) : value :=
  match dict_get d k with Some v => v | None => dflt end.

(** [d[k] = v]: an existing key keeps its position, a new key goes last. *)
Fixpoint dict_set (d : dict) (k : string) (v : value) : dict :=
  match d with
  | [] => [(k, v)]
  | (k', v') :: d' =>
      if String.eqb k k' then (k', v) :: d' else (k', v') :: dict_set d' k v
  end.

Definition dict_keys (d : dict) : list string := map fst d.

(** [len(d)] *)
Definition len (d : dict) : Z := Z.of_nat (length d).

(** *** operations on untyped values *)

(** [bool(v)] *)
Definition truthy (v : value) : bool :=
  match v with
  | VNone => false
  | VBool b => b
  | VInt n => negb (n =? 0)
  | VFloat x => negb (PyFloat.is_zero x)
  | VStr s => negb (String.eqb s "")
  | VList l => match l with [] => false | _ => true end
  | VDict d => match d with [] => false | _ => true end
  end.

(** [v == s] for a str [s] *)
Definition eq_str (v : value) (s : string) : bool :=
  match v with
  | VStr s' => String.eqb s' s
  | _ => false
  end.

(** [v == n] for a small int [n] (here a rating, exactly a float) *)
Definition eq_int (v : value) (n : Z) : bool :=
  match v with
  | VInt m => m =? n
  | VBool b => (if b then 1 else 0) =? n
  | VFloat x => PyFloat.eqb x (PyFloat.of_Z n)
  | _ => false
  end.

(** [sub in s] on strings *)
Fixpoint is_substring (sub s : string) : bool :=
  String.prefix sub s ||
  match s with
  | EmptyString => false
  | String _ s' => is_substring sub s'
  end.

(** [k in v] for a str [k] *)
Definition contains (k : string) (v : value) : result bool :=
  match v with
  | VDict d => Ok (dict_mem k d)
  | VList l => Ok (existsb (fun x => eq_str x k) l)
  | VStr s => Ok (is_substring k s)
  | _ => Raise TypeError
  end.

(** [v.get(k, dflt)] *)
Definition get (v : value) (k : string) (dflt : value) : result value :=
  match v with
  | VDict d => Ok (dict_get_default d k dflt)
  | _ => Raise AttributeError
  end.

(** [v[k]] for a str [k] *)
Definition subscript (v : value) (k : string) : result value :=
  match v with
  | VDict d =>
      match dict_get d k with Some x => Ok x | None => Raise KeyError end
  | _ => Raise TypeError
  end.

(** [v[k] = x] for a str [k] *)
Definition setitem (v : value) (k : string) (x : value) : result value :=
  match v with
  | VDict d => Ok (VDict (dict_set d k x))
  | _ => Raise TypeError
  end.

(** [v * w] for a float [w] *)
Definition mul_float (v : value) (w : float) : result float :=
  match v with
  | VFloat x => Ok (PyFloat.mul x w)
  | VInt n =>
      let x := PyFloat.of_Z n in
      if PyFloat.is_inf x then Raise OverflowError else Ok (PyFloat.mul x w)
  | VBool b => Ok (PyFloat.mul (PyFloat.of_Z (if b then 1 else 0)) w)
  | _ => Raise TypeError
  end.

(** [os.path.basename(p)] (POSIX): what follows the last slash. *)
Fixpoint has_slash (p : string) : bool :=
  match p with
  | EmptyString => false
  | String c r => Ascii.eqb c "/"%char || has_slash r
  end.

Fixpoint basename (p : string) : string :=
  match p with
  | EmptyString => EmptyString
  | String c r =>
      if has_slash r then basename r
      else if Ascii.eqb c "/"%char then r else p
  end.

End Py.

(* ===================================================================== *)
(** ** The world the ledger runs in *)
(* ===================================================================== *)

Abbreviation bytes := (list Byte.byte).

(** [hashlib.md5(...).hexdigest()] over the bytes fed to the hasher. *)
Class Hashlib := { md5_hexdigest : bytes -> string }.

(** [json.dump(data, f, ensure_ascii=False, indent=2)] and [json.load(f)].
    [json_loads b] is the value [json.load] returns on a file that holds
    [b], and [None] where it raises; [json_raises b] then tells what it
    raises when that is not [JSONDecodeError]: [UnicodeDecodeError] on bytes
    that are not UTF-8, [RecursionError] on a nesting too deep, [ValueError]
    on an integer of too many digits.

    Strings are UTF-8 text here, so every document has an encoding and
    [json.dump] writes it: a [str] that holds a lone surrogate, which
    [json.load] accepts and on which [json.dump] raises
    [UnicodeEncodeError], is not a value of this embedding. *)
Class Json := {
  json_dumps : dict -> bytes;
  json_loads : bytes -> option value;
  json_raises : bytes -> option exn
}.

(** Regular files by path, the paths the operating system refuses to open
    ([IOError]), and the clock: [clock w i] is what the [i]-th call of
    [datetime.now().isoformat()] returns. *)
Record world : Type := {
  files : gmap string bytes;
  read_denied : string -> bool;
  write_denied : string -> bool;
  clock : nat -> string;
  ticks : nat
}.

Definition with_files (w : world) (fs : gmap string bytes) : world :=
  {| files := fs; read_denied := read_denied w; write_denied := write_denied w;
     clock := clock w; ticks := ticks w |}.

(** [datetime.now().isoformat()] *)
Definition now (w : world) : string * world :=
  (clock w (ticks w),
   {| files := files w; read_denied := read_denied w;
      write_denied := write_denied w; clock := clock w;
      ticks := S (ticks w) |}).

(** [open(p, "rb").read()]: [None] is [IOError]. *)
Definition open_read (w : world) (p : string) : option bytes :=
  if read_denied w p then None else files w !! p.

(** [Path(p).exists()] *)
Definition path_exists (w : world) (p : string) : bool :=
  match files w !! p with Some _ => true | None => false end.

(** Disk operations, one at a time: [open(p, "w")] truncates (or creates)
    the file, each write appends to it, and [os.replace(src, dst)] renames a
    file over another. *)
Inductive fs_op : Type :=
| OpOpenW (p : string)
| OpWrite (p : string) (b : bytes)
| OpReplace (src dst : string).

Definition apply_op (w : world) (op : fs_op) : world :=
  match op with
  | OpOpenW p => with_files w (<[p := []]> (files w))
  | OpWrite p b => with_files w (alter (fun c => c ++ b) p (files w))
  | OpReplace src dst =>
      match files w !! src with
      | Some c => with_files w (<[dst := c]> (delete src (files w)))
      | None => w
      end
  end.

Definition run_ops (w : world) (ops : list fs_op) : world :=
  foldl apply_op w ops.

(** A [for] loop whose body may raise. *)
Fixpoint for_each {S A : Type} (body : S -> A -> result S) (s : S)
    (l : list A) : result S :=
  match l with
  | [] => Ok s
  | x :: l' =>
      match body s x with
      | Ok s' => for_each body s' l'
      | Raise e => Raise e
      end
  end.

(* ===================================================================== *)
(** ** [ManifestManager] *)
(* ===================================================================== *)

Definition MANIFEST_FILENAME : string := ".superelite_manifest.json".
Definition MANIFEST_VERSION : string := "1.0".

Record ManifestManager : Type := {
  directory : string;
  data : dict
}.

Definition with_data (self : ManifestManager) (d : dict) : ManifestManager :=
  {| directory := directory self; data := d |}.

(** [self.directory / MANIFEST_FILENAME] *)
Definition manifest_path (self : ManifestManager) : string :=
  directory self +:+ "/" +:+ MANIFEST_FILENAME.

(** The bytes one [read(65536)] returns at position [pos]. *)
Definition CHUNK : nat := Z.to_nat 65536.

Definition read_at (content : bytes) (pos n : nat) : bytes :=
  take n (drop pos content).

(** What [calculate_file_hash] feeds to the hasher: [read(65536)] from the
    start, then [seek(-min(65536, size), 2)] and [read(65536)] again. *)
Definition hash_input (content : bytes) : bytes :=
  let size := length content in
  let chunk1 := read_at content 0 CHUNK in
  let pos := (size - Nat.min CHUNK size)%nat in
  let chunk2 := read_at content pos CHUNK in
  chunk1 ++ chunk2.

Section Ledger.
Context `{Hashlib} `{Json}.

Definition _init_new_manifest (self : ManifestManager) (w : world)
  : ManifestManager * world :=
  let '(created, w1) := now w in
  let '(updated, w2) := now w1 in
  (with_data self
     [ ("version", VStr MANIFEST_VERSION);
       ("created_at", VStr created);
       ("updated_at", VStr updated);
       ("config", VDict
          [ ("thresholds", VList [ VFloat (PyFloat.dec 780 1);
                                   VFloat (PyFloat.dec 720 1);
                                   VFloat (PyFloat.dec 660 1);
                                   VFloat (PyFloat.dec 580 1) ]);
            ("quality_weight", VFloat (PyFloat.dec 4 1));
            ("aesthetic_weight", VFloat (PyFloat.dec 6 1)) ]);
       ("status", VStr "new");
       ("total_files", VInt 0);
       ("processed_files", VInt 0);
       ("files", VDict []) ],
   w2).

(** The disk operations of [save], in order. *)
Definition save_ops (self : ManifestManager) : list fs_op :=
  [ OpOpenW (manifest_path self);
    OpWrite (manifest_path self) (json_dumps (data self)) ].

(** [save]: a refused opening is the [IOError] the handler catches and
    prints; after the opening [json.dump] writes the whole document, as it
    can for every document of this embedding (see [Json]). *)
Definition save (self : ManifestManager) (w : world)
  : ManifestManager * world :=
  let '(t, w1) := now w in
  let self1 := with_data self (Py.dict_set (data self) "updated_at" (VStr t)) in
  if write_denied w1 (manifest_path self1) then (self1, w1)
  else (self1, run_ops w1 (save_ops self1)).

(** [save] interrupted after its first [k] disk operations. *)
Definition save_interrupted (k : nat) (self : ManifestManager) (w : world)
  : ManifestManager * world :=
  let '(t, w1) := now w in
  let self1 := with_data self (Py.dict_set (data self) "updated_at" (VStr t)) in
  if write_denied w1 (manifest_path self1) then (self1, w1)
  else (self1, run_ops w1 (take k (save_ops self1))).

(** The body of the loop of [_migrate_old_format]. *)
Definition migrate_entry (created : value) (new_files : dict)
    (file_info : value) : result dict :=
  filename ← Py.get file_info "filename" (VStr "");
  if Py.truthy filename then
    scores ← Py.get file_info "scores" (VDict []);
    quality ← Py.get scores "quality" (VInt 0);
    aesthetic ← Py.get scores "aesthetic" (VInt 0);
    total ← Py.get scores "total" (VInt 0);
    rating ← Py.get file_info "rating" (VInt 0);
    let record := VDict [ ("hash", VStr "");
                          ("quality", quality);
                          ("aesthetic", aesthetic);
                          ("total", total);
                          ("rating", rating);
                          ("processed_at", created) ] in
    match filename with
    | VStr s => Ok (Py.dict_set new_files s record)
    | VList _ | VDict _ => Raise TypeError
    | _ => Raise NonStringKey
    end
  else Ok new_files.

(** [if k not in d: d[k] = v] *)
Definition set_if_absent (d : dict) (k : string) (v : value) : dict :=
  if Py.dict_mem k d then d else Py.dict_set d k v.

(** The [config] and [total_files] that [_migrate_old_format] fills in
    from the legacy [settings] and [statistics]. *)
Definition migrate_config (d : dict) : result dict :=
  if Py.dict_mem "config" d then Ok d
  else
    let settings := Py.dict_get_default d "settings" (VDict []) in
    thresholds ← Py.get settings "thresholds"
                   (VList [VInt 78; VInt 72; VInt 66; VInt 58]);
    qw ← Py.get settings "quality_weight" (VFloat (PyFloat.dec 4 1));
    aw ← Py.get settings "aesthetic_weight" (VFloat (PyFloat.dec 6 1));
    Ok (Py.dict_set d "config"
          (VDict [ ("thresholds", thresholds);
                   ("quality_weight", qw);
                   ("aesthetic_weight", aw) ])).

Definition migrate_total_files (d : dict) (new_files : dict) : result dict :=
  if Py.dict_mem "total_files" d then Ok d
  else
    let stats := Py.dict_get_default d "statistics" (VDict []) in
    total ← Py.get stats "total" (VInt (Py.len new_files));
    Ok (Py.dict_set d "total_files" total).

(** The fields [_migrate_old_format] fills in after the loop. *)
Definition migrate_fields (d : dict) (new_files : dict) : result dict :=
  let d := Py.dict_set d "files" (VDict new_files) in
  let d := Py.dict_set d "processed_files" (VInt (Py.len new_files)) in
  let d := set_if_absent d "version" (VStr MANIFEST_VERSION) in
  let d := set_if_absent d "status" (VStr "completed") in
  let d := set_if_absent d "created_at"
             (Py.dict_get_default d "created" (VStr "")) in
  let d := set_if_absent d "updated_at"
             (Py.dict_get_default d "created" (VStr "")) in
  d ← migrate_config d;
  migrate_total_files d new_files.

Definition _migrate_old_format (self : ManifestManager) (w : world)
  : result ManifestManager * world :=
  match Py.dict_get_default (data self) "files" (VDict []) with
  | VList files_data =>
      let created := Py.dict_get_default (data self) "created" (VStr "") in
      match for_each (migrate_entry created) [] files_data with
      | Raise e => (Raise e, w)
      | Ok new_files =>
          match migrate_fields (data self) new_files with
          | Raise e => (Raise e, w)
          | Ok d =>
              let '(self', w') := save (with_data self d) w in
              (Ok self', w')
          end
      end
  | _ => (Ok self, w)
  end.

(** [load]: the handler catches [IOError] and [JSONDecodeError], and
    nothing else. *)
Definition load (self : ManifestManager) (w : world)
  : result (bool * ManifestManager) * world :=
  match open_read w (manifest_path self) with
  | None =>
      let '(self', w') := _init_new_manifest self w in (Ok (false, self'), w')
  | Some content =>
      match json_loads content with
      | None =>
          match json_raises content with
          | Some e => (Raise e, w)
          | None =>
              let '(self', w') := _init_new_manifest self w in
              (Ok (false, self'), w')
          end
      | Some (VDict d) =>
          match _migrate_old_format (with_data self d) w with
          | (Ok self', w') => (Ok (true, self'), w')
          | (Raise e, w') => (Raise e, w')
          end
      | Some _ => (Raise AttributeError, w)
      end
  end.

(** [ManifestManager(directory)] *)
Definition __init__ (dir : string) (w : world)
  : result ManifestManager * world :=
  let self := {| directory := dir; data := [] |} in
  if path_exists w (manifest_path self) then
    match load self w with
    | (Ok (_, self'), w') => (Ok self', w')
    | (Raise e, w') => (Raise e, w')
    end
  else
    let '(self', w') := _init_new_manifest self w in (Ok self', w').

(** [self.status] and [self.is_completed] *)
Definition status (self : ManifestManager) : value :=
  Py.dict_get_default (data self) "status" (VStr "new").

Definition is_completed (self : ManifestManager) : bool :=
  Py.eq_str (status self) "completed".

Definition calculate_file_hash (file_path : string) (w : world) : string :=
  match open_read w file_path with
  | None => ""
  | Some content => md5_hexdigest (hash_input content)
  end.

Definition is_file_processed (self : ManifestManager)
    (filename file_path : string) (w : world) : result bool :=
  isin ← Py.contains filename
            (Py.dict_get_default (data self) "files" (VDict []));
  if negb isin then Ok false
  else
    files ← Py.subscript (VDict (data self)) "files";
    file_info ← Py.subscript files filename;
    stored_hash ← Py.get file_info "hash" (VStr "");
    if negb (Py.truthy stored_hash) then Ok false
    else
      let current_hash := calculate_file_hash file_path w in
      Ok (Py.eq_str stored_hash current_hash).

Definition add_file_result (self : ManifestManager)
    (filename file_path : string) (quality aesthetic total : float)
    (rating : Z) (w : world) : result ManifestManager * world :=
  let file_hash := calculate_file_hash file_path w in
  let '(t, w') := now w in
  let record := VDict [ ("hash", VStr file_hash);
                        ("original_path", VStr file_path);
                        ("quality", VFloat (PyFloat.round2 quality));
                        ("aesthetic", VFloat (PyFloat.round2 aesthetic));
                        ("total", VFloat (PyFloat.round2 total));
                        ("rating", VInt rating);
                        ("processed_at", VStr t) ] in
  match Py.subscript (VDict (data self)) "files" with
  | Raise e => (Raise e, w')
  | Ok (VDict fs) =>
      let fs := Py.dict_set fs filename record in
      let d := Py.dict_set (data self) "files" (VDict fs) in
      (Ok (with_data self
             (Py.dict_set d "processed_files" (VInt (Py.len fs)))), w')
  | Ok _ => (Raise TypeError, w')
  end.

Definition update_file_rating (self : ManifestManager) (filename : string)
    (new_rating : Z) (w : world) : result ManifestManager * world :=
  match Py.contains filename
          (Py.dict_get_default (data self) "files" (VDict [])) with
  | Raise e => (Raise e, w)
  | Ok false => (Ok self, w)
  | Ok true =>
      match
        files ← Py.subscript (VDict (data self)) "files";
        file_info ← Py.subscript files filename;
        file_info ← Py.setitem file_info "rating" (VInt new_rating);
        Ok (files, file_info)
      with
      | Raise e => (Raise e, w)
      | Ok (files, file_info) =>
          let '(t, w') := now w in
          match
            file_info ← Py.setitem file_info "processed_at" (VStr t);
            Py.setitem files filename file_info
          with
          | Raise e => (Raise e, w')
          | Ok files =>
              (Ok (with_data self (Py.dict_set (data self) "files" files)),
               w')
          end
      end
  end.

Definition set_config (self : ManifestManager)
    (thresholds : list float) (quality_weight aesthetic_weight : float)
  : ManifestManager :=
  with_data self
    (Py.dict_set (data self) "config"
       (VDict [ ("thresholds", VList (map VFloat thresholds));
                ("quality_weight", VFloat quality_weight);
                ("aesthetic_weight", VFloat aesthetic_weight) ])).

Definition get_pending_files (self : ManifestManager)
    (all_files : list string) (w : world) : result (list string) :=
  for_each
    (fun pending file_path =>
       let filename := Py.basename file_path in
       processed ← is_file_processed self filename file_path w;
       Ok (if negb processed then pending ++ [file_path] else pending))
    [] all_files.

Definition get_all_cached_scores (self : ManifestManager) : result dict :=
  match Py.dict_get_default (data self) "files" (VDict []) with
  | VDict fs =>
      for_each
        (fun acc '(filename, info) =>
           quality ← Py.get info "quality" (VInt 0);
           aesthetic ← Py.get info "aesthetic" (VInt 0);
           total ← Py.get info "total" (VInt 0);
           rating ← Py.get info "rating" (VInt 0);
           Ok (Py.dict_set acc filename
                 (VDict [ ("quality", quality);
                          ("aesthetic", aesthetic);
                          ("total", total);
                          ("rating", rating) ])))
        [] fs
  | _ => Raise AttributeError
  end.

(** The [if]/[elif] chain of [quick_rerate]. *)
Definition new_rating_of (total t4 t3 t2 t1 : float) : Z :=
  if PyFloat.ge total t4 then 4
  else if PyFloat.ge total t3 then 3
  else if PyFloat.ge total t2 then 2
  else if PyFloat.ge total t1 then 1
  else 0.

(** The total [quick_rerate] recomputes from one entry of the cached
    scores. *)
Definition rerate_total (scores : value)
    (quality_weight aesthetic_weight : float) : result float :=
  quality ← Py.subscript scores "quality";
  x ← Py.mul_float quality quality_weight;
  aesthetic ← Py.subscript scores "aesthetic";
  y ← Py.mul_float aesthetic aesthetic_weight;
  Ok (PyFloat.add x y).

(** The body of the loop of [quick_rerate], and the loop. *)
Definition rerate_entry (quality_weight aesthetic_weight : float)
    (t4 t3 t2 t1 : float) (manager : ManifestManager)
    (results : list value) (w : world) (filename : string) (scores : value)
  : result (ManifestManager * list value) * world :=
  match
    old_rating ← Py.subscript scores "rating";
    total ← rerate_total scores quality_weight aesthetic_weight;
    Ok (old_rating, total)
  with
  | Raise e => (Raise e, w)
  | Ok (old_rating, total) =>
      let new_rating := new_rating_of total t4 t3 t2 t1 in
      match update_file_rating manager filename new_rating w with
      | (Raise e, w') => (Raise e, w')
      | (Ok manager', w') =>
          (Ok (manager',
               results ++
               [ VDict [ ("filename", VStr filename);
                         ("old_rating", old_rating);
                         ("new_rating", VInt new_rating);
                         ("total", VFloat (PyFloat.round2 total));
                         ("changed",
                          VBool (negb (Py.eq_int old_rating new_rating))) ] ]),
           w')
      end
  end.

Fixpoint rerate_loop (quality_weight aesthetic_weight : float)
    (t4 t3 t2 t1 : float) (manager : ManifestManager)
    (results : list value) (w : world) (cached : dict)
  : result (ManifestManager * list value) * world :=
  match cached with
  | [] => (Ok (manager, results), w)
  | (filename, scores) :: cached' =>
      match rerate_entry quality_weight aesthetic_weight t4 t3 t2 t1
              manager results w filename scores with
      | (Raise e, w') => (Raise e, w')
      | (Ok (manager', results'), w') =>
          rerate_loop quality_weight aesthetic_weight t4 t3 t2 t1
            manager' results' w' cached'
      end
  end.

(** [quick_rerate], together with the manager it has built and saved (a
    local variable of the source). *)
Definition quick_rerate_run (dir : string)
    (new_thresholds : float * float * float * float)
    (quality_weight aesthetic_weight : float) (w : world)
  : result (ManifestManager * list value) * world :=
  match __init__ dir w with
  | (Raise e, w1) => (Raise e, w1)
  | (Ok manager, w1) =>
      if negb (is_completed manager) then
        (Raise (ValueError "目录未完成处理，无法快速重评星"),
         w1)
      else
        let '(t4, t3, t2, t1) := new_thresholds in
        match get_all_cached_scores manager with
        | Raise e => (Raise e, w1)
        | Ok cached =>
            match rerate_loop quality_weight aesthetic_weight t4 t3 t2 t1
                    manager [] w1 cached with
            | (Raise e, w2) => (Raise e, w2)
            | (Ok (manager', results), w2) =>
                let manager' :=
                  set_config manager' [t4; t3; t2; t1]
                    quality_weight aesthetic_weight in
                let '(manager', w3) := save manager' w2 in
                (Ok (manager', results), w3)
            end
        end
  end.

Definition quick_rerate (dir : string)
    (new_thresholds : float * float * float * float)
    (quality_weight aesthetic_weight : float) (w : world)
  : result (list value) * world :=
  match quick_rerate_run dir new_thresholds quality_weight aesthetic_weight
          w with
  | (Ok (_, results), w') => (Ok results, w')
  | (Raise e, w') => (Raise e, w')
  end.

End Ledger.

(* ===================================================================== *)
(** ** Well-formed ledgers and the words of the specification *)
(* ===================================================================== *)

Definition is_dict (v : value) : bool :=
  match v with VDict _ => true | _ => false end.

(** The [files] field, when present, is a mapping from filenames to
    records. *)
Definition ledger_ok (d : dict) : bool :=
  match Py.dict_get d "files" with
  | None => true
  | Some (VDict fs) => forallb (fun kv => is_dict kv.2) fs
  | Some _ => false
  end.

(** The [files] mapping of a ledger. *)
Definition files_of (d : dict) : dict :=
  match Py.dict_get d "files" with
  | Some (VDict fs) => fs
  | _ => []
  end.

(** The record stored for a filename and its fingerprint. *)
Definition record_of (d : dict) (filename : string) : option value :=
  Py.dict_get (files_of d) filename.

Definition fingerprint_of (record : value) : value :=
  match record with
  | VDict r => Py.dict_get_default r "hash" (VStr "")
  | _ => VStr ""
  end.

(** The specification's sampling rule: the whole content up to 128 KiB,
    the first and the last 64 KiB beyond. *)
Definition fingerprint_input_spec (content : bytes) : bytes :=
  if Z.of_nat (length content) <=? 131072 then content
  else take CHUNK content ++ drop (length content - CHUNK)%nat content.

(** *** List-shaped ledgers *)

Definition is_str (v : value) : bool :=
  match v with VStr _ => true | _ => false end.

(** An entry of a list-shaped ledger that the migration can read: a dict
    whose filename, when it has one, is a string, and whose scores are then
    a dict. *)
Definition legacy_entry_ok (file_info : value) : bool :=
  match file_info with
  | VDict fi =>
      let filename := Py.dict_get_default fi "filename" (VStr "") in
      if Py.truthy filename then
        is_str filename
        && is_dict (Py.dict_get_default fi "scores" (VDict []))
      else true
  | _ => false
  end.

(** A list-shaped ledger that the migration can read. *)
Definition legacy_ok (d : dict) : bool :=
  match Py.dict_get d "files" with
  | Some (VList l) => forallb legacy_entry_ok l
  | _ => false
  end
  && (Py.dict_mem "config" d
      || is_dict (Py.dict_get_default d "settings" (VDict [])))
  && (Py.dict_mem "total_files" d
      || is_dict (Py.dict_get_default d "statistics" (VDict []))).

(** The filename under which an entry is migrated, if it is. *)
Definition entry_name (file_info : value) : option string :=
  match file_info with
  | VDict fi =>
      match Py.dict_get_default fi "filename" (VStr "") with
      | VStr s => if String.eqb s "" then None else Some s
      | _ => None
      end
  | _ => None
  end.

Definition migrated_names (l : list value) : list string :=
  omap entry_name l.

(** A record as the migration writes it: with the empty fingerprint. *)
Definition migrated_record (record : value) : Prop :=
  exists r, record = VDict r /\ Py.dict_get r "hash" = Some (VStr "").

(** What the migration makes of a legacy entry [fi] whose scores are
    [scores]: a record without fingerprint that holds the entry's scores and
    rating (0 for a missing one), processed at the time the legacy ledger
    was created. *)
Definition converted_record (created : value) (fi scores : dict) : dict :=
  [ ("hash", VStr "");
    ("quality", Py.dict_get_default scores "quality" (VInt 0));
    ("aesthetic", Py.dict_get_default scores "aesthetic" (VInt 0));
    ("total", Py.dict_get_default scores "total" (VInt 0));
    ("rating", Py.dict_get_default fi "rating" (VInt 0));
    ("processed_at", created) ].

(** A field of the record stored for a filename. *)
Definition field_of (d : dict) (filename field : string) : option value :=
  match record_of d filename with
  | Some (VDict r) => Py.dict_get r field
  | _ => None
  end.

(** A weight of the ledger's current configuration. *)
Definition config_weight (d : dict) (k : string) : option float :=
  match Py.dict_get d "config" with
  | Some (VDict c) =>
      match Py.dict_get c k with
      | Some (VFloat x) => Some x
      | _ => None
      end
  | _ => None
  end.

(** The threshold of a bucket, among [(t4, t3, t2, t1)]. *)
Definition threshold_of (t4 t3 t2 t1 : float) (k : Z) : float :=
  if k =? 4 then t4 else if k =? 3 then t3 else if k =? 2 then t2 else t1.

(** The specification's invariant on cached totals: every stored total is
    [quality * quality_weight + aesthetic * aesthetic_weight], recomputed
    from the stored scores and the weights of the current configuration. *)
Definition total_rederivable (d : dict) : bool :=
  match config_weight d "quality_weight",
        config_weight d "aesthetic_weight" with
  | Some qw, Some aw =>
      forallb
        (fun kv =>
           match rerate_total kv.2 qw aw, Py.subscript kv.2 "total" with
           | Ok t, Ok (VFloat s) => PyFloat.eqb s t
           | _, _ => false
           end)
        (files_of d)
  | _, _ => false
  end.

Section Pending.
Context `{Hashlib}.

(** The specification's definition of a pending file: the filename is
    absent from the ledger, or the fresh fingerprint differs from the stored
    one, or the stored fingerprint is empty. *)
Definition pending_as (self : ManifestManager) (w : world)
    (filename file_path : string) : bool :=
  match record_of (data self) filename with
  | None => true
  | Some record =>
      negb (Py.eq_str (fingerprint_of record)
              (calculate_file_hash file_path w))
      || Py.eq_str (fingerprint_of record) ""
  end.

Definition pending_spec (self : ManifestManager) (w : world)
    (file_path : string) : bool :=
  pending_as self w (Py.basename file_path) file_path.

(** The record [add_file_result] stores. *)
Definition stored_record (file_path : string)
    (quality aesthetic total : float) (rating : Z) (w : world)
    (processed_at : string) : dict :=
  [ ("hash", VStr (calculate_file_hash file_path w));
    ("original_path", VStr file_path);
    ("quality", VFloat (PyFloat.round2 quality));
    ("aesthetic", VFloat (PyFloat.round2 aesthetic));
    ("total", VFloat (PyFloat.round2 total));
    ("rating", VInt rating);
    ("processed_at", VStr processed_at) ].

End Pending.

(* ===================================================================== *)
(** ** The rest of [manifest_manager.py] *)
(* ===================================================================== *)

Section LedgerRest.
Context `{Json}.

(** [self.status = value] *)
Definition set_status (self : ManifestManager) (value : string)
  : ManifestManager :=
  with_data self (Py.dict_set (data self) "status" (VStr value)).

(** [self.is_in_progress] *)
Definition is_in_progress (self : ManifestManager) : bool :=
  Py.eq_str (status self) "in_progress".

(** [self.processed_count], [self.total_count] and [self.config] *)
Definition processed_count (self : ManifestManager) : value :=
  Py.dict_get_default (data self) "processed_files" (VInt 0).

Definition total_count (self : ManifestManager) : value :=
  Py.dict_get_default (data self) "total_files" (VInt 0).

Definition config (self : ManifestManager) : value :=
  Py.dict_get_default (data self) "config" (VDict []).

(** [self.created_at] and [self.updated_at] *)
Definition created_at (self : ManifestManager) : value :=
  Py.dict_get_default (data self) "created_at" (VStr "").

Definition updated_at (self : ManifestManager) : value :=
  Py.dict_get_default (data self) "updated_at" (VStr "").

Definition set_total_files (self : ManifestManager) (count : Z)
  : ManifestManager :=
  with_data self (Py.dict_set (data self) "total_files" (VInt count)).

Definition start_processing (self : ManifestManager) (w : world)
  : ManifestManager * world :=
  save (set_status self "in_progress") w.

Definition complete_processing (self : ManifestManager) (w : world)
  : ManifestManager * world :=
  save (set_status self "completed") w.

(** [delete]: [os.remove] takes the ledger file away; [refused] says that
    the operating system refuses it, and [None] is the [OSError] that then
    reaches the caller. *)
Definition ManifestManager_delete (refused : bool) (self : ManifestManager)
    (w : world) : option (ManifestManager * world) :=
  if path_exists w (manifest_path self) then
    if refused then None
    else
      Some (_init_new_manifest self
              (with_files w (delete (manifest_path self) (files w))))
  else Some (self, w).

(** [get_file_scores]: [Ok None] is the [None] it returns. *)
Definition get_file_scores (self : ManifestManager) (filename : string)
  : result (option dict) :=
  isin ← Py.contains filename
            (Py.dict_get_default (data self) "files" (VDict []));
  if negb isin then Ok None
  else
    files ← Py.subscript (VDict (data self)) "files";
    file_info ← Py.subscript files filename;
    quality ← Py.get file_info "quality" (VInt 0);
    aesthetic ← Py.get file_info "aesthetic" (VInt 0);
    total ← Py.get file_info "total" (VInt 0);
    rating ← Py.get file_info "rating" (VInt 0);
    Ok (Some [ ("quality", quality);
               ("aesthetic", aesthetic);
               ("total", total);
               ("rating", rating) ]).

(** [get_manifest(directory)] and [has_manifest(directory)] *)
Definition get_manifest (dir : string) (w : world)
  : result ManifestManager * world :=
  __init__ dir w.

Definition has_manifest (dir : string) (w : world) : bool :=
  path_exists w (dir +:+ "/" +:+ MANIFEST_FILENAME).

End LedgerRest.

(** *** Records as the readers see them *)

(** The four scores [get_file_scores] and [get_all_cached_scores] read off
    a record, each with its default. *)
Definition scores_of (file_info : value) : dict :=
  match file_info with
  | VDict r =>
      [ ("quality", Py.dict_get_default r "quality" (VInt 0));
        ("aesthetic", Py.dict_get_default r "aesthetic" (VInt 0));
        ("total", Py.dict_get_default r "total" (VInt 0));
        ("rating", Py.dict_get_default r "rating" (VInt 0)) ]
  | _ => []
  end.

(** The quality and the aesthetic of a record that holds them as floats,
    as [add_file_result] writes them. *)
Definition float_scores (file_info : value) : option (float * float) :=
  match file_info with
  | VDict r =>
      match Py.dict_get r "quality", Py.dict_get r "aesthetic" with
      | Some (VFloat q), Some (VFloat a) => Some (q, a)
      | _, _ => None
      end
  | _ => None
  end.

(** The rating of a record that holds it as an int, 0 when the record has
    none. *)
Definition int_rating (file_info : value) : option Z :=
  match file_info with
  | VDict r =>
      match Py.dict_get_default r "rating" (VInt 0) with
      | VInt n => Some n
      | _ => None
      end
  | _ => None
  end.

(** *** [get_summary] *)

(** The integer a float is equal to, if it is one. *)
Definition float_as_int (x : float) : option Z :=
  match x with
  | S754_zero _ => Some 0
  | S754_finite s m e =>
      let sign := if s then -1 else 1 in
      if 0 <=? e then Some (sign * (Zpos m * 2 ^ e))
      else if (Zpos m) mod (2 ^ (- e)) =? 0
           then Some (sign * (Zpos m / 2 ^ (- e)))
           else None
  | _ => None
  end.

(** Whether two values that can be hashed are the same key of a dict:
    numbers compare by value whatever their type. A dict finds a key by
    identity before it compares, and the only NaN a ledger can hold is the
    one object [json.load] hands out for every [NaN] of a file: NaN is
    equal to no number, but NaN ratings are one key. *)
Definition key_eqb (a b : value) : bool :=
  match a, b with
  | VNone, VNone => true
  | VStr s, VStr s' => String.eqb s s'
  | VFloat x, VFloat y =>
      PyFloat.eqb x y || (PyFloat.is_nan x && PyFloat.is_nan y)
  | VInt m, VInt n => m =? n
  | VInt m, VBool c | VBool c, VInt m => m =? (if c then 1 else 0)
  | VBool c, VBool c' => Bool.eqb c c'
  | VFloat x, VInt n | VInt n, VFloat x =>
      match float_as_int x with Some m => m =? n | None => false end
  | VFloat x, VBool c | VBool c, VFloat x =>
      match float_as_int x with
      | Some m => m =? (if c then 1 else 0)
      | None => false
      end
  | _, _ => false
  end.

Definition hashable (v : value) : bool :=
  match v with VList _ | VDict _ => false | _ => true end.

(** A dict keyed by ratings, as [by_rating] is: [h.get(k, 0)] and
    [h[k] = c]. *)
Abbreviation histogram := (list (value * Z)).

Fixpoint hist_get (h : histogram) (k : value) : Z :=
  match h with
  | [] => 0
  | (k', c) :: h' => if key_eqb k' k then c else hist_get h' k
  end.

Fixpoint hist_set (h : histogram) (k : value) (c : Z) : histogram :=
  match h with
  | [] => [(k, c)]
  | (k', c') :: h' =>
      if key_eqb k' k then (k', c) :: h' else (k', c') :: hist_set h' k c
  end.

(** The body of the loop of [get_summary]. *)
Definition count_rating (by_rating : histogram) (file_info : value)
  : result histogram :=
  rating ← Py.get file_info "rating" (VInt 0);
  if hashable rating then
    Ok (hist_set by_rating rating (hist_get by_rating rating + 1))
  else Raise TypeError.

(** The sum of the counts of a histogram. *)
Definition hist_total (h : histogram) : Z :=
  foldr (fun kc acc => kc.2 + acc) 0 h.

(** A histogram keyed by ints only. *)
Definition int_keys (h : histogram) : Prop :=
  Forall (fun kc => exists n : Z, kc.1 = VInt n) h.

(** The dict [get_summary] returns. *)
Record summary : Type := {
  summary_status : value;
  summary_created_at : value;
  summary_updated_at : value;
  summary_total_files : value;
  summary_processed_files : value;
  summary_thresholds : value;
  summary_by_rating : histogram
}.

Definition get_summary (self : ManifestManager) : result summary :=
  match Py.dict_get_default (data self) "files" (VDict []) with
  | VDict fs =>
      by_rating ← for_each count_rating
                    [ (VInt 0, 0); (VInt 1, 0); (VInt 2, 0);
                      (VInt 3, 0); (VInt 4, 0); (VInt 5, 0) ]
                    (map snd fs);
      thresholds ← Py.get (config self) "thresholds" (VList []);
      Ok {| summary_status := status self;
            summary_created_at := created_at self;
            summary_updated_at := updated_at self;
            summary_total_files := total_count self;
            summary_processed_files := processed_count self;
            summary_thresholds := thresholds;
            summary_by_rating := by_rating |}
  | _ => Raise AttributeError
  end.

(* ===================================================================== *)
(** ** Where the thresholds come from: the scorer and the dialog *)
(* ===================================================================== *)

(** [one_align_scorer.py]: the module-level [_thresholds], its setter, and
    the rating, pick flag and color label of a total score. *)
Module Scorer.

Definition thresholds : Type := float * float * float * float.

Definition _thresholds : thresholds :=
  (PyFloat.dec 780 1, PyFloat.dec 720 1, PyFloat.dec 660 1,
   PyFloat.dec 580 1).

(** [set_thresholds(t4, t3, t2, t1)]: the new value of the global. *)
Definition set_thresholds (t4 t3 t2 t1 : float) (_ : thresholds)
  : thresholds :=
  (t4, t3, t2, t1).

Definition _map_to_rating (globals : thresholds) (total_score : float)
  : Z * string * string :=
  let '(t4, t3, t2, t1) := globals in
  if PyFloat.ge total_score t4 then (4, "", "")
  else if PyFloat.ge total_score t3 then (3, "", "")
  else if PyFloat.ge total_score t2 then (2, "", "")
  else if PyFloat.ge total_score t1 then (1, "", "")
  else (0, "", "").

End Scorer.

(** [manifest_action_dialog.py]: the thresholds the dialog hands over.
    [preset_combo] is the current index of the combo box, when the dialog
    has one. *)
Module Dialog.

Definition get_selected_thresholds (current_thresholds : Scorer.thresholds)
    (preset_combo : option Z) : Scorer.thresholds :=
  match preset_combo with
  | Some index =>
      if index =? 0 then current_thresholds
      else if index =? 1 then
        (PyFloat.dec 780 1, PyFloat.dec 720 1, PyFloat.dec 660 1,
         PyFloat.dec 580 1)
      else if index =? 2 then
        (PyFloat.dec 850 1, PyFloat.dec 800 1, PyFloat.dec 750 1,
         PyFloat.dec 700 1)
      else if index =? 3 then
        (PyFloat.dec 700 1, PyFloat.dec 600 1, PyFloat.dec 500 1,
         PyFloat.dec 400 1)
      else current_thresholds
  | None => current_thresholds
  end.

End Dialog.

(* ===================================================================== *)
(** ** [ManifestManager.restore_files] *)
(* ===================================================================== *)

Module Restore.

(** An entry of a rating folder: a regular file, or anything that is not
    one (a sub-directory, ...). *)
Inductive child : Type :=
| CFile (content : bytes)
| COther.

(** An entry of the managed directory: a regular file, or a directory
    with its entries. *)
Inductive entry : Type :=
| TFile (content : bytes)
| TDir (children : gmap string child).

(** The managed directory, by entry name. *)
Abbreviation tree := (gmap string entry).

(** The operations the operating system may refuse: [shutil.move] of a
    file of a rating folder, and [rmdir] of a rating folder. A refused
    operation leaves the directory as it was. *)
Record os : Type := {
  move_fails : string -> string -> bool;
  rmdir_fails : string -> bool
}.

Definition star_dirs : list string :=
  ["0星"; "1星"; "2星"; "3星"; "4星"; "5星"].

(** The returned dict [{"moved", "failed", "already_in_place"}]. *)
Record counts : Type := {
  moved : nat;
  failed : nat;
  already_in_place : nat
}.

Definition remove_child (name : string) (e : entry) : entry :=
  match e with
  | TDir children => TDir (delete name children)
  | TFile c => TFile c
  end.

(** [shutil.move(star_dir / name, directory / name)] *)
Definition move_up (star_dir_name name : string) (content : bytes)
    (t : tree) : tree :=
  <[name := TFile content]> (alter (remove_child name) star_dir_name t).

(** The body of the inner loop: one entry of a rating folder. *)
Definition restore_file (o : os) (star_dir_name : string)
    (st : counts * tree) (f : string * child) : counts * tree :=
  let '(res, t) := st in
  match f.2 with
  | COther => st
  | CFile content =>
      match t !! f.1 with
      | Some _ =>
          ({| moved := moved res; failed := failed res;
              already_in_place := S (already_in_place res) |}, t)
      | None =>
          if move_fails o star_dir_name f.1 then
            ({| moved := moved res; failed := S (failed res);
                already_in_place := already_in_place res |}, t)
          else
            ({| moved := S (moved res); failed := failed res;
                already_in_place := already_in_place res |},
             move_up star_dir_name f.1 content t)
      end
  end.

(** The body of the first outer loop: one rating folder, its entries in
    the order [iterdir] lists them. *)
Definition restore_dir (o : os) (st : counts * tree)
    (star_dir_name : string) : counts * tree :=
  match st.2 !! star_dir_name with
  | Some (TDir children) =>
      foldl (restore_file o star_dir_name) st (map_to_list children)
  | _ => st
  end.

(** The body of the second outer loop: remove the folder when empty. *)
Definition remove_if_empty (o : os) (t : tree) (star_dir_name : string)
  : tree :=
  match t !! star_dir_name with
  | Some (TDir children) =>
      match map_to_list children with
      | [] => if rmdir_fails o star_dir_name then t
              else delete star_dir_name t
      | _ :: _ => t
      end
  | _ => t
  end.

Definition move_phase (o : os) (t : tree) : counts * tree :=
  foldl (restore_dir o)
    ({| moved := 0; failed := 0; already_in_place := 0 |}, t) star_dirs.

Definition restore_files (o : os) (t : tree) : counts * tree :=
  let '(res, t1) := move_phase o t in
  (res, foldl (remove_if_empty o) t1 star_dirs).

(** The entries [iterdir] lists in a rating folder, when it is one. *)
Definition dir_of (t : tree) (name : string) : option (gmap string child) :=
  match t !! name with
  | Some (TDir children) => Some children
  | _ => None
  end.

Definition listing (t : tree) (star_dir_name : string)
  : list (string * child) :=
  match dir_of t star_dir_name with
  | Some children => map_to_list children
  | None => []
  end.

(** Every entry of every rating folder, with its folder, in the order the
    two loops visit them. *)
Definition work (t : tree) : list (string * (string * child)) :=
  concat (map (fun b => map (pair b) (listing t b)) star_dirs).

Definition is_file (c : child) : bool :=
  match c with CFile _ => true | COther => false end.

(** The regular files among a list of entries, as (folder, name). *)
Definition found_in (l : list (string * (string * child)))
  : list (string * string) :=
  map (fun bf => (bf.1, bf.2.1)) (List.filter (fun bf => is_file bf.2.2) l).

Definition files_found (t : tree) : list (string * string) :=
  found_in (work t).

(** The two loops as one: a single pass over [work]. *)
Definition step (o : os) (st : counts * tree)
    (bf : string * (string * child)) : counts * tree :=
  restore_file o bf.1 st bf.2.

Arguments step : simpl never.

Definition total (res : counts) : nat :=
  (moved res + failed res + already_in_place res)%nat.

(** [Path(directory / name).exists()] *)
Definition exists_at (t : tree) (name : string) : bool :=
  match t !! name with Some _ => true | None => false end.




(** A file is still there: in its folder under its name, or at the top
    level under that name, with the same content. *)
Definition kept (t : tree) (b name : string) (content : bytes) : Prop :=
  (exists children,
      dir_of t b = Some children /\ children !! name = Some (CFile content))
  \/ t !! name = Some (TFile content).

Definition zero : counts :=
  {| moved := 0; failed := 0; already_in_place := 0 |}.

End Restore.

(** A directory to restore: [a.jpg] at the top level and again under three
    stars, [b.jpg] under three stars, [c.jpg] without stars, and an operating
    system that refuses nothing. *)
Module RestoreDemo.
Import Restore.

Definition jpeg (s : string) : bytes := String.list_byte_of_string s.

Definition photos : tree :=
  {[ "a.jpg" := TFile (jpeg "A");
     "3星" := TDir {[ "a.jpg" := CFile (jpeg "A");
                      "b.jpg" := CFile (jpeg "B") ]};
     "0星" := TDir {[ "c.jpg" := CFile (jpeg "C") ]} ]}.

Definition kind_os : os :=
  {| move_fails := fun _ _ => false; rmdir_fails := fun _ => false |}.

End RestoreDemo.

(* ===================================================================== *)
(** ** A small concrete world, for the examples *)
(* ===================================================================== *)

Module Demo.

(** Stand-ins for the two codecs: the digest spells out the bytes it was
    fed, the JSON writer emits a fixed document, and the JSON reader
    knows three documents, finds the one byte [0xff] not to be UTF-8, and
    anything else not to be JSON. *)
Definition demo_hashlib : Hashlib :=
  {| md5_hexdigest := fun b => "md5:" +:+ String.string_of_list_byte b |}.

Definition doc_bytes : bytes := String.list_byte_of_string "{}".
Definition legacy_bytes : bytes := String.list_byte_of_string "legacy".

(** A list-shaped ledger of three entries, without status. *)
Definition legacy_entry (name : string) (q a t : Z) (r : Z) : value :=
  VDict [ ("filename", VStr name);
          ("scores", VDict [ ("quality", VInt q); ("aesthetic", VInt a);
                             ("total", VInt t) ]);
          ("rating", VInt r) ].

Definition legacy_entries : list value :=
  [ legacy_entry "a.jpg" 80 70 74 3;
    legacy_entry "b.jpg" 60 50 54 0;
    legacy_entry "c.jpg" 90 85 87 4 ].

Definition legacy_doc : dict :=
  [ ("created", VStr "2023-05-01T10:00:00");
    ("files", VList legacy_entries) ].

(** A completed ledger with one record, scored 80 and 70 under the
    weights 0.4 and 0.6, hence the total 74 and three stars. *)
Definition completed_bytes : bytes := String.list_byte_of_string "completed".

Definition completed_doc : dict :=
  [ ("version", VStr "1.0");
    ("config", VDict
       [ ("thresholds", VList [ VFloat (PyFloat.dec 780 1);
                                VFloat (PyFloat.dec 720 1);
                                VFloat (PyFloat.dec 660 1);
                                VFloat (PyFloat.dec 580 1) ]);
         ("quality_weight", VFloat (PyFloat.dec 4 1));
         ("aesthetic_weight", VFloat (PyFloat.dec 6 1)) ]);
    ("status", VStr "completed");
    ("total_files", VInt 1);
    ("processed_files", VInt 1);
    ("files", VDict
       [ ("a.jpg", VDict
            [ ("hash", VStr "md5:JPEGJPEG");
              ("original_path", VStr "/photos/a.jpg");
              ("quality", VFloat (PyFloat.dec 800 1));
              ("aesthetic", VFloat (PyFloat.dec 700 1));
              ("total", VFloat (PyFloat.dec 740 1));
              ("rating", VInt 3);
              ("processed_at", VStr "2023-12-31T23:59:59") ]) ]) ].

Definition demo_json : Json :=
  {| json_dumps := fun _ => doc_bytes;
     json_loads := fun b =>
       let text := String.string_of_list_byte b in
       if String.eqb text "legacy" then Some (VDict legacy_doc)
       else if String.eqb text "completed" then Some (VDict completed_doc)
       else if String.eqb text "{}" then Some (VDict [])
       else None;
     json_raises := fun b =>
       match b with
       | [Byte.xff] => Some UnicodeDecodeError
       | _ => None
       end |}.

Definition demo_clock (i : nat) : string :=
  "2024-01-01T00:00:0" +:+ pretty i.

Definition photo : bytes := String.list_byte_of_string "JPEG".

Definition demo_world : world :=
  {| files := {[ "/photos/a.jpg" := photo ]};
     read_denied := fun _ => false;
     write_denied := fun _ => false;
     clock := demo_clock;
     ticks := 0 |}.

(** A fresh ledger in [/photos], and the world once it is created. *)
Definition fresh : ManifestManager :=
  (_init_new_manifest {| directory := "/photos"; data := [] |}
     demo_world).1.

Definition world0 : world :=
  (_init_new_manifest {| directory := "/photos"; data := [] |}
     demo_world).2.

(** 80.02 and 70.0, and the total the default weights give them:
    80.02 * 0.4 + 70.0 * 0.6. *)
Definition q80_02 : float := PyFloat.dec 8002 2.
Definition a70 : float := PyFloat.dec 700 1.
Definition total_80_02_70 : float :=
  PyFloat.add (PyFloat.mul q80_02 (PyFloat.dec 4 1))
              (PyFloat.mul a70 (PyFloat.dec 6 1)).

(** The world in which the fresh ledger has been persisted. *)
Definition persisted : world :=
  with_files world0 (<[manifest_path fresh := doc_bytes]> (files world0)).

(** The worlds in which the list-shaped ledger, and the completed one, are
    what is persisted in [/photos]. *)
Definition legacy_world : world :=
  with_files demo_world
    (<[manifest_path fresh := legacy_bytes]> (files demo_world)).

Definition completed_world : world :=
  with_files demo_world
    (<[manifest_path fresh := completed_bytes]> (files demo_world)).

(** The worlds in which the ledger file of [/photos] is not JSON, and is
    not even UTF-8. *)
Definition garbled_world : world :=
  with_files demo_world
    (<[manifest_path fresh := String.list_byte_of_string "{{"]>
       (files demo_world)).

Definition binary_world : world :=
  with_files demo_world
    (<[manifest_path fresh := [Byte.xff]]> (files demo_world)).

(** A quick re-rate of [/photos] under the thresholds (85, 80, 75, 70) and
    the weights 0.5 and 0.5. *)
Definition rerate_halves (w : world)
  : result (ManifestManager * list value) * world :=
  @quick_rerate_run demo_json "/photos"
    (PyFloat.dec 850 1, PyFloat.dec 800 1, PyFloat.dec 750 1,
     PyFloat.dec 700 1)
    (PyFloat.dec 5 1) (PyFloat.dec 5 1) w.

Definition rerated : ManifestManager * list value :=
  match (rerate_halves completed_world).1 with
  | Ok x => x
  | Raise _ => (fresh, [])
  end.

(** The upsert of [a.jpg] with these scores and three stars, and the
    ledger after one such call. *)
Definition upsert_a (self : ManifestManager) (w : world)
  : result ManifestManager * world :=
  @add_file_result demo_hashlib self "a.jpg" "/photos/a.jpg"
    q80_02 a70 total_80_02_70 3 w.

Definition after (r : result ManifestManager * world)
  : ManifestManager * world :=
  match r with
  | (Ok self, w) => (self, w)
  | (Raise _, w) => (fresh, w)
  end.

Definition once : ManifestManager * world := after (upsert_a fresh world0).
Definition twice : ManifestManager * world := after (upsert_a once.1 once.2).

End Demo.

(** A JSON codec that remembers one document: whatever it writes, it reads
    back as that document. *)
Module Memo.

Definition memo_json (remembered : dict) : Json :=
  {| json_dumps := fun _ => Demo.doc_bytes;
     json_loads := fun b =>
       if String.eqb (String.string_of_list_byte b) "{}"
       then Some (VDict remembered) else None;
     json_raises := fun _ => None |}.

(** A JSON reader for which every file holds the empty array. *)
Definition array_json : Json :=
  {| json_dumps := fun _ => Demo.doc_bytes;
     json_loads := fun _ => Some (VList []);
     json_raises := fun _ => None |}.

(** A list-shaped ledger whose second entry is a bare filename. *)
Definition broken_legacy_doc : dict :=
  [ ("created", VStr "2023-05-01T10:00:00");
    ("files", VList [ Demo.legacy_entry "a.jpg" 80 70 74 3;
                      VStr "b.jpg" ]) ].

(** The fresh ledger of [/photos] as [save], [start_processing] and
    [complete_processing] leave it in [Demo.world0]. *)
Definition saved_doc : dict :=
  Py.dict_set (data Demo.fresh) "updated_at" (VStr (Demo.demo_clock 2)).

Definition in_progress_doc : dict :=
  Py.dict_set (Py.dict_set (data Demo.fresh) "status" (VStr "in_progress"))
    "updated_at" (VStr (Demo.demo_clock 2)).

Definition completed_doc : dict :=
  Py.dict_set (Py.dict_set (data Demo.fresh) "status" (VStr "completed"))
    "updated_at" (VStr (Demo.demo_clock 2)).

End Memo.

(** A photo of more than 128 KiB: 64 KiB of one byte, a middle, 64 KiB of
    another byte; and the world where it is [/photos/big.jpg]. *)
Module BigFile.

Definition head : bytes := replicate CHUNK Byte.x48.
Definition tail : bytes := replicate CHUNK Byte.x54.
Definition big (mid : bytes) : bytes := head ++ mid ++ tail.

Definition world_with (mid : bytes) : world :=
  with_files Demo.world0
    (<["/photos/big.jpg" := big mid]> (files Demo.world0)).

Definition upsert_big (mid : bytes) : result ManifestManager * world :=
  @add_file_result Demo.demo_hashlib Demo.fresh "big.jpg" "/photos/big.jpg"
    Demo.q80_02 Demo.a70 Demo.total_80_02_70 3 (world_with mid).

End BigFile.

(* ===================================================================== *)
(** ** Facts about dicts and loops *)
(* ===================================================================== *)

Ltac unfold_bind := unfold mbind, mret, result_bind, result_ret in *.

Lemma dict_get_set_eq (d : dict) k v :
  Py.dict_get (Py.dict_set d k v) k = Some v.
Proof.
  induction d as [|[k' v'] d IH]; simpl.
  - by rewrite String.eqb_refl.
  - destruct (String.eqb k k') eqn:E; simpl; rewrite E; auto.
Qed.

Lemma dict_get_set_ne (d : dict) k k' v :
  k <> k' -> Py.dict_get (Py.dict_set d k v) k' = Py.dict_get d k'.
Proof.
  intros Hne. induction d as [|[k0 v0] d IH]; simpl.
  - destruct (String.eqb k' k) eqn:E; [|done].
    apply String.eqb_eq in E. congruence.
  - destruct (String.eqb k k0) eqn:E; simpl.
    + apply String.eqb_eq in E. subst k0.
      destruct (String.eqb k' k) eqn:E'; [|done].
      apply String.eqb_eq in E'. congruence.
    + destruct (String.eqb k' k0); auto.
Qed.

Lemma dict_get_In (d : dict) k v :
  Py.dict_get d k = Some v -> In (k, v) d.
Proof.
  induction d as [|[k' v'] d IH]; simpl; [done|].
  destruct (String.eqb k k') eqn:E.
  - apply String.eqb_eq in E. intros [= ->]. subst. by left.
  - intros. right. auto.
Qed.

Lemma dict_get_None (d : dict) k :
  Py.dict_get d k = None <-> ~ In k (Py.dict_keys d).
Proof.
  induction d as [|[k' v'] d IH]; simpl; [tauto|].
  destruct (String.eqb k k') eqn:E.
  - apply String.eqb_eq in E. subst. split; [done|]. intros []. by left.
  - apply String.eqb_neq in E. rewrite IH. split.
    + intros Hn [Heq|Hin]; [congruence|tauto].
    + tauto.
Qed.

(* ===================================================================== *)
(** ** C1: the pending computation *)
(* ===================================================================== *)

Section PendingFacts.
Context `{Hashlib}.

Lemma ledger_ok_record d filename record :
  ledger_ok d = true -> record_of d filename = Some record ->
  exists r, record = VDict r.
Proof.
  unfold ledger_ok, record_of, files_of.
  destruct (Py.dict_get d "files") as [[]|]; try done.
  intros Hall Hget. apply dict_get_In in Hget.
  rewrite forallb_forall in Hall. specialize (Hall _ Hget). simpl in Hall.
  destruct record; try done. eauto.
Qed.

(** On a well-formed ledger [is_file_processed] returns, and says
    "processed" exactly when the file is not pending. *)
Lemma is_file_processed_spec self filename file_path w :
  ledger_ok (data self) = true ->
  is_file_processed self filename file_path w =
  Ok (negb (pending_as self w filename file_path)).
Proof.
  intros Hok. unfold is_file_processed, pending_as.
  pose proof (ledger_ok_record (data self) filename) as Hrec.
  specialize (fun r => Hrec r Hok).
  unfold record_of, files_of, ledger_ok, Py.dict_get_default in *.
  destruct (Py.dict_get (data self) "files") as [v|] eqn:Hf; [|done].
  destruct v; try done. unfold_bind. simpl.
  unfold Py.dict_mem. rewrite Hf.
  destruct (Py.dict_get d filename) as [record|] eqn:Hr;
    simpl; [|done].
  destruct (Hrec record eq_refl) as [r ->]. rewrite Hr. simpl.
  unfold Py.dict_get_default.
  destruct (Py.dict_get r "hash") as [stored|]; simpl;
    [|by rewrite orb_true_r].
  destruct stored; simpl; try done.
  - by destruct b.
  - by destruct (n =? 0).
  - by destruct (PyFloat.is_zero x).
  - destruct (String.eqb s "") eqn:E; simpl.
    + by rewrite orb_true_r.
    + by rewrite orb_false_r, negb_involutive.
  - by destruct l.
  - by destruct d0.
Qed.

(** A file that cannot be read has the empty fresh fingerprint, and is
    pending whatever the ledger holds. *)
Lemma unreadable_is_pending self file_path w :
  open_read w file_path = None ->
  calculate_file_hash file_path w = ""
  /\ pending_spec self w file_path = true.
Proof.
  intros Hread. unfold pending_spec, pending_as, calculate_file_hash.
  rewrite Hread. split; [done|].
  destruct (record_of (data self) (Py.basename file_path)) as [record|];
    [|done].
  by destruct (Py.eq_str (fingerprint_of record) "").
Qed.

Lemma get_pending_files_acc self w all acc :
  ledger_ok (data self) = true ->
  for_each
    (fun pending file_path =>
       let filename := Py.basename file_path in
       processed ← is_file_processed self filename file_path w;
       Ok (if negb processed then pending ++ [file_path] else pending))
    acc all
  = Ok (acc ++ List.filter (pending_spec self w) all).
Proof.
  intros Hok. revert acc. induction all as [|p all IH]; intros acc; simpl.
  - by rewrite app_nil_r.
  - rewrite is_file_processed_spec by done. unfold_bind. simpl.
    rewrite negb_involutive. rewrite IH. fold (pending_spec self w p).
    destruct (pending_spec self w p); [|done].
    by rewrite <- app_assoc.
Qed.

(** C1. On every well-formed ledger and every list of paths,
    [get_pending_files] returns exactly the paths that are pending in the
    specification's sense, each as often and in the order it was given:
    a path is returned iff its basename is absent from the ledger's files
    mapping, or its fresh fingerprint differs from the stored one, or the
    stored fingerprint is the empty string. *)
Theorem get_pending_files_exact self all_files w :
  ledger_ok (data self) = true ->
  get_pending_files self all_files w
    = Ok (List.filter (pending_spec self w) all_files)
  /\ forall p,
       In p (List.filter (pending_spec self w) all_files) <->
       In p all_files /\
       (record_of (data self) (Py.basename p) = None
        \/ (exists record,
               record_of (data self) (Py.basename p) = Some record /\
               (fingerprint_of record <> VStr (calculate_file_hash p w)
                \/ fingerprint_of record = VStr ""))).
Proof.
  intros Hok. split.
  - unfold get_pending_files. by rewrite get_pending_files_acc.
  - intros p. rewrite filter_In. unfold pending_spec, pending_as.
    destruct (record_of (data self) (Py.basename p)) as [record|].
    + rewrite orb_true_iff, negb_true_iff.
      assert (Heq : forall s, Py.eq_str (fingerprint_of record) s = true
                          <-> fingerprint_of record = VStr s).
      { intros s. destruct (fingerprint_of record); simpl;
          try (split; [done | by intros [=]]).
        rewrite String.eqb_eq. split; [by intros -> | by intros [= ->]]. }
      split.
      * intros [Hin Hp]. split; [done|]. right. exists record.
        split; [done|]. destruct Hp as [Hp|Hp].
        -- left. intros Hc. apply Heq in Hc. congruence.
        -- right. by apply Heq.
      * intros [Hin [?|(r & [= <-] & Hp)]]; [done|]. split; [done|].
        destruct Hp as [Hp|Hp].
        -- left. destruct (Py.eq_str _ _) eqn:E; [|done].
           apply Heq in E. done.
        -- right. by apply Heq.
    + split; [intros []; auto | intros []; auto].
Qed.

End PendingFacts.

(** C1 on the ledger that tracks [a.jpg], asked about [a.jpg], which has not
    changed, and about [b.jpg], which it has never seen. *)
Lemma get_pending_files_exact_witness :
  ledger_ok (data Demo.once.1) = true
  /\ @get_pending_files Demo.demo_hashlib Demo.once.1
       ["/photos/a.jpg"; "/photos/b.jpg"] Demo.once.2
     = Ok ["/photos/b.jpg"].
Proof.
  assert (Hok : ledger_ok (data Demo.once.1) = true) by reflexivity.
  split; [exact Hok|].
  destruct (@get_pending_files_exact Demo.demo_hashlib Demo.once.1
              ["/photos/a.jpg"; "/photos/b.jpg"] Demo.once.2 Hok)
    as [Hpending _].
  rewrite Hpending. vm_compute. reflexivity.
Defined.

(* ===================================================================== *)
(** ** C2: what the fingerprint digests *)
(* ===================================================================== *)

Lemma head_tail_closed_form (n : nat) (content : bytes) :
  read_at content 0 n
    ++ read_at content (length content - Nat.min n (length content)) n
  = if (length content <=? n)%nat then content ++ content
    else take n content ++ drop (length content - n) content.
Proof.
  unfold read_at. rewrite drop_0.
  destruct (length content <=? n)%nat eqn:E.
  - apply Nat.leb_le in E.
    replace (length content - Nat.min n (length content))%nat with 0%nat
      by lia.
    rewrite drop_0. by rewrite take_ge by lia.
  - apply Nat.leb_gt in E.
    replace (Nat.min n (length content)) with n by lia.
    f_equal. apply take_ge. rewrite length_drop. lia.
Qed.

Lemma hash_input_closed_form (content : bytes) :
  hash_input content =
  if Z.of_nat (length content) <=? 65536 then content ++ content
  else take CHUNK content ++ drop (length content - CHUNK)%nat content.
Proof.
  unfold hash_input. rewrite head_tail_closed_form.
  destruct (Z.of_nat (length content) <=? 65536) eqn:E.
  - apply Z.leb_le in E.
    assert ((length content <=? CHUNK)%nat = true) as ->; [|done].
    apply Nat.leb_le. unfold CHUNK. lia.
  - apply Z.leb_gt in E.
    assert ((length content <=? CHUNK)%nat = false) as ->; [|done].
    apply Nat.leb_gt. unfold CHUNK. lia.
Qed.

(** The part of the specification's rule that the code follows: from
    128 KiB on, the first 64 KiB followed by the last 64 KiB. *)
Lemma hash_input_large (content : bytes) :
  131072 <= Z.of_nat (length content) ->
  hash_input content =
    take CHUNK content ++ drop (length content - CHUNK)%nat content
  /\ length (hash_input content) = (2 * CHUNK)%nat.
Proof.
  intros Hlarge. rewrite hash_input_closed_form.
  destruct (Z.of_nat (length content) <=? 65536) eqn:E.
  { apply Z.leb_le in E. lia. }
  split; [done|].
  rewrite length_app, length_take, length_drop. unfold CHUNK. lia.
Qed.

(** C2, as the specification states it, fails on a file of four bytes: the
    file is at most 128 KiB long, and the hasher is fed its content twice,
    not once. *)
Lemma hash_input_small_file_counterexample :
  Z.of_nat (length Demo.photo) <= 131072
  /\ hash_input Demo.photo = Demo.photo ++ Demo.photo
  /\ hash_input Demo.photo <> fingerprint_input_spec Demo.photo.
Proof.
  split; [vm_compute; discriminate|].
  split; [by vm_compute|]. vm_compute. discriminate.
Qed.

Section Fingerprint.
Context `{Hashlib}.

(** C2, amended. The fingerprint of a file is the digest of its first
    [min(64 KiB, size)] bytes followed by its last [min(64 KiB, size)]
    bytes: a file of at most 64 KiB is digested over its whole content
    twice in a row, a longer one over its first 64 KiB followed by its last
    64 KiB (which overlap below 128 KiB); a file that cannot be read has
    the empty fingerprint. *)
Theorem calculate_file_hash_head_tail file_path w :
  calculate_file_hash file_path w =
  match open_read w file_path with
  | None => ""
  | Some content =>
      md5_hexdigest
        (if Z.of_nat (length content) <=? 65536 then content ++ content
         else take CHUNK content
                ++ drop (length content - CHUNK)%nat content)
  end.
Proof.
  unfold calculate_file_hash.
  destruct (open_read w file_path) as [content|]; [|done].
  by rewrite hash_input_closed_form.
Qed.

End Fingerprint.

(* ===================================================================== *)
(** ** C3: calling the upsert twice *)
(* ===================================================================== *)

Lemma dict_set_set (d : dict) k v v' :
  Py.dict_set (Py.dict_set d k v) k v' = Py.dict_set d k v'.
Proof.
  induction d as [|[k0 v0] d IH]; simpl.
  - by rewrite String.eqb_refl.
  - destruct (String.eqb k k0) eqn:E; simpl; rewrite E; [done|].
    by rewrite IH.
Qed.

Lemma dict_set_same (d : dict) k v :
  Py.dict_get d k = Some v -> Py.dict_set d k v = d.
Proof.
  induction d as [|[k0 v0] d IH]; simpl; [done|].
  destruct (String.eqb k k0) eqn:E.
  - by intros [= ->].
  - intros Hg. by rewrite IH.
Qed.

Lemma dict_set_length_set (d : dict) k v v' :
  length (Py.dict_set (Py.dict_set d k v) k v') = length (Py.dict_set d k v).
Proof.
  induction d as [|[k0 v0] d IH]; simpl.
  - by rewrite String.eqb_refl.
  - destruct (String.eqb k k0) eqn:E; simpl; rewrite E; simpl; [done|].
    by rewrite IH.
Qed.

Section Upsert.
Context `{Hashlib}.

(** [add_file_result] succeeds exactly on a ledger whose [files] field is
    a mapping, and then stores [stored_record] and the new count. *)
Lemma add_file_result_ok self filename file_path quality aesthetic total
    rating w fs :
  Py.dict_get (data self) "files" = Some (VDict fs) ->
  add_file_result self filename file_path quality aesthetic total rating w
  = (Ok (with_data self
           (Py.dict_set
              (Py.dict_set (data self) "files"
                 (VDict (Py.dict_set fs filename
                           (VDict (stored_record file_path quality aesthetic
                                     total rating w (clock w (ticks w)))))))
              "processed_files"
              (VInt (Py.len
                       (Py.dict_set fs filename
                          (VDict (stored_record file_path quality aesthetic
                                    total rating w
                                    (clock w (ticks w))))))))),
     (now w).2).
Proof.
  intros Hf. unfold add_file_result. simpl. by rewrite Hf.
Qed.

(** C3, amended. On a ledger whose [files] field is a mapping, the upsert
    succeeds, and a second call with the same arguments succeeds too; it
    leaves [processed_files] and the number of records as the first call
    left them, and every field of the stored record except [processed_at],
    which it sets to the time of the second call. When the clock reads the
    same at both calls, the second call changes nothing at all. *)
Theorem add_file_result_twice self filename file_path quality aesthetic
    total rating w fs :
  Py.dict_get (data self) "files" = Some (VDict fs) ->
  exists self1 self2 record1,
    add_file_result self filename file_path quality aesthetic total rating w
      = (Ok self1, (now w).2)
    /\ add_file_result self1 filename file_path quality aesthetic total
         rating (now w).2
       = (Ok self2, (now (now w).2).2)
    /\ Py.dict_get (data self2) "processed_files"
       = Py.dict_get (data self1) "processed_files"
    /\ length (files_of (data self2)) = length (files_of (data self1))
    /\ record_of (data self1) filename = Some (VDict record1)
    /\ record_of (data self2) filename
       = Some (VDict (Py.dict_set record1 "processed_at"
                        (VStr (clock w (S (ticks w))))))
    /\ (clock w (S (ticks w)) = clock w (ticks w) ->
        data self2 = data self1).
Proof.
  intros Hf.
  set (rec1 := stored_record file_path quality aesthetic total rating w
                 (clock w (ticks w))).
  set (rec2 := stored_record file_path quality aesthetic total rating
                 (now w).2 (clock w (S (ticks w)))).
  set (fs1 := Py.dict_set fs filename (VDict rec1)).
  set (fs2 := Py.dict_set fs1 filename (VDict rec2)).
  set (d1 := Py.dict_set (Py.dict_set (data self) "files" (VDict fs1))
               "processed_files" (VInt (Py.len fs1))).
  set (d2 := Py.dict_set (Py.dict_set d1 "files" (VDict fs2))
               "processed_files" (VInt (Py.len fs2))).
  assert (Hf1 : Py.dict_get d1 "files" = Some (VDict fs1)).
  { unfold d1. rewrite dict_get_set_ne by done. apply dict_get_set_eq. }
  assert (Hf2 : Py.dict_get d2 "files" = Some (VDict fs2)).
  { unfold d2. rewrite dict_get_set_ne by done. apply dict_get_set_eq. }
  assert (Hlen : length fs2 = length fs1).
  { apply dict_set_length_set. }
  exists (with_data self d1), (with_data self d2), rec1.
  split; [by apply add_file_result_ok|].
  split; [by apply (add_file_result_ok (with_data self d1))|].
  simpl. unfold record_of, files_of. rewrite Hf1, Hf2.
  split.
  { unfold d2, d1. rewrite !dict_get_set_eq. unfold Py.len.
    by rewrite Hlen. }
  split; [done|].
  split; [apply dict_get_set_eq|].
  split; [apply dict_get_set_eq|].
  intros Hclock.
  assert (Hrec : rec2 = rec1).
  { unfold rec2, rec1. by rewrite Hclock. }
  assert (Hfs : fs2 = fs1).
  { unfold fs2. rewrite Hrec. apply dict_set_same, dict_get_set_eq. }
  unfold d2. rewrite Hfs.
  rewrite (dict_set_same d1 "files" (VDict fs1)) by done.
  apply dict_set_same. unfold d1. apply dict_get_set_eq.
Qed.

End Upsert.

(** C3, amended, on the fresh ledger of [/photos]. *)
Lemma add_file_result_twice_witness :
  Py.dict_get (data Demo.fresh) "files" = Some (VDict [])
  /\ exists self1 self2,
       Demo.upsert_a Demo.fresh Demo.world0 = (Ok self1, (now Demo.world0).2)
       /\ Demo.upsert_a self1 (now Demo.world0).2
          = (Ok self2, (now (now Demo.world0).2).2)
       /\ Py.dict_get (data self2) "processed_files"
          = Py.dict_get (data self1) "processed_files".
Proof.
  split; [reflexivity|].
  destruct (@add_file_result_twice Demo.demo_hashlib Demo.fresh "a.jpg"
              "/photos/a.jpg" Demo.q80_02 Demo.a70 Demo.total_80_02_70 3
              Demo.world0 [] eq_refl)
    as (self1 & self2 & record1 & H1 & H2 & Hcount & _).
  exists self1, self2. auto.
Defined.

(** C3, as the specification states it, fails whenever the clock has moved
    between the two calls: the stored record is not the one the first call
    left. *)
Lemma add_file_result_twice_counterexample :
  Demo.upsert_a Demo.fresh Demo.world0 = (Ok Demo.once.1, Demo.once.2)
  /\ Demo.upsert_a Demo.once.1 Demo.once.2 = (Ok Demo.twice.1, Demo.twice.2)
  /\ record_of (data Demo.twice.1) "a.jpg"
     <> record_of (data Demo.once.1) "a.jpg".
Proof.
  split; [reflexivity|]. split; [reflexivity|].
  vm_compute. discriminate.
Qed.

(* ===================================================================== *)
(** ** C4: how [save] writes *)
(* ===================================================================== *)

Section Save.
Context `{Json}.

Lemma manifest_path_with_data self d :
  manifest_path (with_data self d) = manifest_path self.
Proof. done. Qed.

Lemma save_self self w :
  (save self w).1
  = with_data self
      (Py.dict_set (data self) "updated_at" (VStr (clock w (ticks w)))).
Proof. unfold save. simpl. by destruct (write_denied _ _). Qed.

Lemma save_data self w :
  data (save self w).1
  = Py.dict_set (data self) "updated_at" (VStr (clock w (ticks w))).
Proof. by rewrite save_self. Qed.

Lemma save_files self w :
  files (save self w).2
  = (if write_denied w (manifest_path self) then files w
     else <[manifest_path self := json_dumps (data (save self w).1)]>
            (files w)).
Proof.
  rewrite save_data. unfold save, save_ops. simpl.
  rewrite manifest_path_with_data.
  destruct (write_denied w (manifest_path self)); simpl; [done|].
  by rewrite alter_insert_eq.
Qed.

(** C4, amended. [save] refreshes [updated_at] and writes the complete
    document straight over the ledger file: its only disk operations are
    opening the ledger file itself for writing, which empties it, and
    writing the document into it; no other path is touched and nothing is
    replaced. Run to completion it leaves the complete new document in the
    file; interrupted after the opening it leaves an empty file, whatever
    was persisted before; when the operating system refuses the opening the
    disk stays as it was and no error reaches the caller. *)
Theorem save_writes_in_place self w :
  let d := Py.dict_set (data self) "updated_at" (VStr (clock w (ticks w))) in
  let path := manifest_path self in
  (save self w).1 = with_data self d
  /\ save_ops (with_data self d)
     = [OpOpenW path; OpWrite path (json_dumps d)]
  /\ files (save self w).2
     = (if write_denied w path then files w
        else <[path := json_dumps d]> (files w))
  /\ files (save_interrupted 1 self w).2
     = (if write_denied w path then files w
        else <[path := []]> (files w))
  /\ files (save_interrupted 0 self w).2 = files w.
Proof.
  intros d path. unfold save, save_interrupted, save_ops. simpl.
  rewrite !manifest_path_with_data. fold path. fold d.
  destruct (write_denied w path); simpl; [done|].
  repeat split; try done.
  by rewrite alter_insert_eq.
Qed.

End Save.

(** C4, as the specification states it, fails: in a world where a valid
    ledger is persisted, a [save] interrupted right after it has opened the
    file leaves an empty file, which is not a ledger. *)
Lemma save_interrupted_counterexample :
  files Demo.persisted !! manifest_path Demo.fresh = Some Demo.doc_bytes
  /\ @json_loads Demo.demo_json Demo.doc_bytes = Some (VDict [])
  /\ files (@save_interrupted Demo.demo_json 1 Demo.fresh Demo.persisted).2
       !! manifest_path Demo.fresh = Some []
  /\ @json_loads Demo.demo_json [] = None.
Proof.
  split; [by vm_compute|]. split; [reflexivity|].
  split; [by vm_compute|]. reflexivity.
Qed.

(* ===================================================================== *)
(** ** C5: quick re-rate needs a completed ledger *)
(* ===================================================================== *)

Lemma eq_str_false (v : value) (s : string) :
  Py.eq_str v s = false <-> v <> VStr s.
Proof.
  destruct v; simpl; try (split; [done|done]).
  destruct (String.eqb s0 s) eqn:E.
  - apply String.eqb_eq in E. subst. split; [done|]. intros Hn. by destruct Hn.
  - apply String.eqb_neq in E. split; [|done]. intros _ [= ->]. done.
Qed.

Section Precondition.
Context `{Json}.

(** Loading a ledger leaves the disk as it is, unless what is persisted is
    a list-shaped ledger, which is migrated and saved. *)
Lemma init_keeps_files dir w r w1 :
  __init__ dir w = (r, w1) ->
  files w1 = files w
  \/ exists content d l,
       open_read w (manifest_path {| directory := dir; data := [] |})
         = Some content
       /\ json_loads content = Some (VDict d)
       /\ Py.dict_get d "files" = Some (VList l).
Proof.
  unfold __init__, load, _migrate_old_format, _init_new_manifest.
  destruct (path_exists w _); [|intros [= <- <-]; by left].
  destruct (open_read w _) as [content|] eqn:Hread;
    [|intros [= <- <-]; by left].
  destruct (json_loads content) as [v|] eqn:Hload;
    [|destruct (json_raises content); intros [= <- <-]; by left].
  destruct v; try (intros [= <- <-]; by left).
  simpl. unfold Py.dict_get_default.
  destruct (Py.dict_get d "files") as [v|] eqn:Hfiles;
    [|intros [= <- <-]; by left].
  destruct v; try (intros [= <- <-]; by left).
  intros _. right. by exists content, d, l.
Qed.

(** C5. [quick_rerate] first loads the ledger of the directory. When the
    status of that ledger is not [completed], it raises [ValueError] to the
    caller and does nothing else: the world is the one the loading left, and
    the disk is untouched unless the loading itself had a list-shaped ledger
    to migrate. It returns a changelist only when the status is
    [completed]. *)
Theorem quick_rerate_requires_completed dir new_thresholds quality_weight
    aesthetic_weight w :
  (forall manager w1,
      __init__ dir w = (Ok manager, w1) ->
      status manager <> VStr "completed" ->
      quick_rerate dir new_thresholds quality_weight aesthetic_weight w
        = (Raise (ValueError "目录未完成处理，无法快速重评星"), w1)
      /\ (files w1 = files w
          \/ exists content d l,
               open_read w (manifest_path {| directory := dir; data := [] |})
                 = Some content
               /\ json_loads content = Some (VDict d)
               /\ Py.dict_get d "files" = Some (VList l)))
  /\ (forall results w',
         quick_rerate dir new_thresholds quality_weight aesthetic_weight w
           = (Ok results, w') ->
         exists manager w1,
           __init__ dir w = (Ok manager, w1)
           /\ status manager = VStr "completed").
Proof.
  split.
  - intros manager w1 Hinit Hstatus. split; [|by eapply init_keeps_files].
    unfold quick_rerate, quick_rerate_run. rewrite Hinit.
    unfold is_completed. apply eq_str_false in Hstatus. by rewrite Hstatus.
  - intros results w'. unfold quick_rerate, quick_rerate_run.
    destruct (__init__ dir w) as [[manager|e] w1]; [|done].
    unfold is_completed.
    destruct (Py.eq_str (status manager) "completed") eqn:E; simpl; [|done].
    intros _. exists manager, w1. split; [done|].
    destruct (status manager); simpl in E; try done.
    apply String.eqb_eq in E. by subst.
Qed.

End Precondition.

(** C5 in a directory without a ledger: the fresh ledger has the status
    [new], and the quick re-rate is refused. *)
Lemma quick_rerate_requires_completed_witness :
  @__init__ Demo.demo_json "/photos" Demo.demo_world
    = (Ok Demo.fresh, Demo.world0)
  /\ status Demo.fresh <> VStr "completed"
  /\ @quick_rerate Demo.demo_json "/photos"
       (PyFloat.dec 850 1, PyFloat.dec 800 1, PyFloat.dec 750 1,
        PyFloat.dec 700 1)
       (PyFloat.dec 5 1) (PyFloat.dec 5 1) Demo.demo_world
     = (Raise (ValueError "目录未完成处理，无法快速重评星"),
        Demo.world0).
Proof.
  assert (Hinit : @__init__ Demo.demo_json "/photos" Demo.demo_world
                  = (Ok Demo.fresh, Demo.world0)) by reflexivity.
  assert (Hstatus : status Demo.fresh <> VStr "completed")
    by (vm_compute; discriminate).
  split; [exact Hinit|]. split; [exact Hstatus|].
  exact (proj1 (proj1 (@quick_rerate_requires_completed Demo.demo_json
                         "/photos"
                         (PyFloat.dec 850 1, PyFloat.dec 800 1,
                          PyFloat.dec 750 1, PyFloat.dec 700 1)
                         (PyFloat.dec 5 1) (PyFloat.dec 5 1) Demo.demo_world)
                  Demo.fresh Demo.world0 Hinit Hstatus)).
Defined.

(* ===================================================================== *)
(** ** C6: the rating policy *)
(* ===================================================================== *)

Lemma SFcompare_Eq_sym (x y : float) :
  SFcompare x y = Some Eq -> SFcompare y x = Some Eq.
Proof.
  destruct x as [sx|sx| |sx mx ex], y as [sy|sy| |sy my ey]; simpl;
    try done; try (by destruct sx); try (by destruct sy);
    try (by destruct sx, sy).
  destruct sx, sy; try done;
    (destruct (ex ?= ey) eqn:E; try done;
     apply Z.compare_eq in E; subst ey; rewrite Z.compare_refl;
     intros Hc;
     assert (mx = my) as ->
       by (apply Pos.compare_eq; unfold Pos.compare;
           destruct (Pos.compare_cont Eq mx my); simpl in Hc; congruence);
     change (Pos.compare_cont Eq my my) with (Pos.compare my my);
     by rewrite Pos.compare_refl).
Qed.

(** A tie counts: equal floats are [>=]. *)
Lemma ge_of_eqb (x y : float) :
  PyFloat.eqb x y = true -> PyFloat.ge x y = true.
Proof.
  unfold PyFloat.eqb, PyFloat.ge, SFeqb, SFleb.
  destruct (SFcompare x y) as [[]|] eqn:E; try done.
  intros _. by rewrite (SFcompare_Eq_sym _ _ E).
Qed.

(** C6. From the cached quality and aesthetic of a record, the quick
    re-rate computes [total = quality * qw + aesthetic * aw] and assigns the
    highest bucket [k] among 4, 3, 2, 1 with [total >= thresholds[k]], and 0
    when there is none; a total equal to a threshold gets that bucket or a
    higher one; the rating is never 5. This holds for all thresholds,
    strictly descending or not. *)
Theorem rating_policy (quality aesthetic cached_total : float)
    (old_rating : value) (qw aw t4 t3 t2 t1 : float) :
  let scores := VDict [ ("quality", VFloat quality);
                        ("aesthetic", VFloat aesthetic);
                        ("total", VFloat cached_total);
                        ("rating", old_rating) ] in
  let total := PyFloat.add (PyFloat.mul quality qw) (PyFloat.mul aesthetic aw) in
  let rating := new_rating_of total t4 t3 t2 t1 in
  rerate_total scores qw aw = Ok total
  /\ 0 <= rating <= 4
  /\ rating <> 5
  /\ (forall k, 1 <= k <= 4 ->
        PyFloat.ge total (threshold_of t4 t3 t2 t1 k) = true -> k <= rating)
  /\ (1 <= rating ->
        PyFloat.ge total (threshold_of t4 t3 t2 t1 rating) = true)
  /\ (rating = 0 <->
        forall k, 1 <= k <= 4 ->
          PyFloat.ge total (threshold_of t4 t3 t2 t1 k) = false)
  /\ (forall k, 1 <= k <= 4 ->
        PyFloat.eqb total (threshold_of t4 t3 t2 t1 k) = true -> k <= rating).
Proof.
  intros scores total rating.
  assert (Hhigh : forall k, 1 <= k <= 4 ->
            PyFloat.ge total (threshold_of t4 t3 t2 t1 k) = true ->
            k <= rating).
  { intros k Hk. unfold rating, new_rating_of, threshold_of.
    destruct (PyFloat.ge total t4) eqn:E4; [lia|].
    destruct (PyFloat.ge total t3) eqn:E3;
      [destruct (k =? 4) eqn:K4; [congruence|lia]|].
    destruct (PyFloat.ge total t2) eqn:E2;
      [destruct (k =? 4) eqn:K4; [congruence|];
       destruct (k =? 3) eqn:K3; [congruence|lia]|].
    destruct (PyFloat.ge total t1) eqn:E1;
      [destruct (k =? 4) eqn:K4; [congruence|];
       destruct (k =? 3) eqn:K3; [congruence|];
       destruct (k =? 2) eqn:K2; [congruence|lia]|].
    destruct (k =? 4) eqn:K4; [congruence|].
    destruct (k =? 3) eqn:K3; [congruence|].
    destruct (k =? 2) eqn:K2; congruence. }
  split; [done|].
  split.
  { unfold rating, new_rating_of.
    repeat (destruct (PyFloat.ge total _); [lia|]). lia. }
  split.
  { unfold rating, new_rating_of.
    repeat (destruct (PyFloat.ge total _); [lia|]). lia. }
  split; [exact Hhigh|].
  split.
  { unfold rating, new_rating_of, threshold_of.
    destruct (PyFloat.ge total t4) eqn:E4; [done|].
    destruct (PyFloat.ge total t3) eqn:E3; [done|].
    destruct (PyFloat.ge total t2) eqn:E2; [done|].
    destruct (PyFloat.ge total t1) eqn:E1; [done|]. lia. }
  split.
  { split.
    - intros Hzero k Hk.
      destruct (PyFloat.ge total (threshold_of t4 t3 t2 t1 k)) eqn:E; [|done].
      specialize (Hhigh k Hk E). lia.
    - intros Hnone. unfold rating, new_rating_of.
      pose proof (Hnone 4 ltac:(lia)) as H4.
      pose proof (Hnone 3 ltac:(lia)) as H3.
      pose proof (Hnone 2 ltac:(lia)) as H2.
      pose proof (Hnone 1 ltac:(lia)) as H1.
      unfold threshold_of in H4, H3, H2, H1. simpl in H4, H3, H2, H1.
      by rewrite H4, H3, H2, H1. }
  intros k Hk Heq. apply Hhigh; [done|]. by apply ge_of_eqb.
Qed.

(** C6 on the specification's example: 80 and 70 under the weights 0.4 and
    0.6 total 74, which is bucket 3 under (78, 72, 66, 58). *)
Lemma rating_policy_witness :
  1 <= 3 <= 4
  /\ PyFloat.ge
       (PyFloat.add (PyFloat.mul (PyFloat.dec 800 1) (PyFloat.dec 4 1))
                    (PyFloat.mul (PyFloat.dec 700 1) (PyFloat.dec 6 1)))
       (threshold_of (PyFloat.dec 780 1) (PyFloat.dec 720 1)
          (PyFloat.dec 660 1) (PyFloat.dec 580 1) 3) = true
  /\ 3 <= new_rating_of
            (PyFloat.add (PyFloat.mul (PyFloat.dec 800 1) (PyFloat.dec 4 1))
                         (PyFloat.mul (PyFloat.dec 700 1) (PyFloat.dec 6 1)))
            (PyFloat.dec 780 1) (PyFloat.dec 720 1)
            (PyFloat.dec 660 1) (PyFloat.dec 580 1).
Proof.
  assert (Hk : 1 <= 3 <= 4) by lia.
  split; [exact Hk|]. split; [reflexivity|].
  exact (proj1 (proj2 (proj2 (proj2
           (rating_policy (PyFloat.dec 800 1) (PyFloat.dec 700 1)
              (PyFloat.dec 740 1) (VInt 3) (PyFloat.dec 4 1) (PyFloat.dec 6 1)
              (PyFloat.dec 780 1) (PyFloat.dec 720 1) (PyFloat.dec 660 1)
              (PyFloat.dec 580 1))))) 3 Hk eq_refl).
Defined.

(* ===================================================================== *)
(** ** C7: the cached total *)
(* ===================================================================== *)

Lemma files_of_set_files (d : dict) (fs : dict) :
  files_of (Py.dict_set d "files" (VDict fs)) = fs.
Proof. unfold files_of. by rewrite dict_get_set_eq. Qed.

Lemma files_of_set_other (d : dict) k v :
  k <> "files" -> files_of (Py.dict_set d k v) = files_of d.
Proof. intros Hk. unfold files_of. by rewrite dict_get_set_ne. Qed.

(** What [update_file_rating] does when it succeeds: nothing when the file
    is not tracked, and otherwise it rewrites the fields [rating] and
    [processed_at] of the file's record. *)
Lemma update_file_rating_ok self filename new_rating w self' w' :
  update_file_rating self filename new_rating w = (Ok self', w') ->
  (self' = self /\ w' = w)
  \/ exists fs r,
       Py.dict_get (data self) "files" = Some (VDict fs)
       /\ Py.dict_get fs filename = Some (VDict r)
       /\ w' = (now w).2
       /\ self' =
          with_data self
            (Py.dict_set (data self) "files"
               (VDict (Py.dict_set fs filename
                  (VDict (Py.dict_set
                            (Py.dict_set r "rating" (VInt new_rating))
                            "processed_at" (VStr (clock w (ticks w)))))))).
Proof.
  unfold update_file_rating.
  destruct (Py.contains filename _) as [[|]|]; [|intros [= <- <-]; by left|done].
  unfold_bind. simpl.
  destruct (Py.dict_get (data self) "files") as [files|]; [|done].
  destruct files; simpl; try done.
  destruct (Py.dict_get d filename) as [record|] eqn:Hrec; [|done].
  destruct record; simpl; try done.
  intros [= <- <-]. right. by exists d, d0.
Qed.

Lemma update_file_rating_keeps self filename new_rating w self' w'
    filename' field :
  update_file_rating self filename new_rating w = (Ok self', w') ->
  field <> "rating" -> field <> "processed_at" ->
  field_of (data self') filename' field = field_of (data self) filename' field.
Proof.
  intros Hup Hr Hp.
  destruct (update_file_rating_ok _ _ _ _ _ _ Hup)
    as [[-> _]|(fs & r & Hfs & Hrec & _ & ->)]; [done|].
  unfold field_of, record_of. simpl. rewrite files_of_set_files.
  unfold files_of. rewrite Hfs.
  destruct (decide (filename = filename')) as [<-|Hne].
  - rewrite dict_get_set_eq, Hrec.
    by rewrite !dict_get_set_ne by done.
  - by rewrite dict_get_set_ne.
Qed.

Lemma rerate_loop_keeps qw aw t4 t3 t2 t1 cached :
  forall manager results w manager' results' w' filename' field,
    rerate_loop qw aw t4 t3 t2 t1 manager results w cached
      = (Ok (manager', results'), w') ->
    field <> "rating" -> field <> "processed_at" ->
    field_of (data manager') filename' field
      = field_of (data manager) filename' field.
Proof.
  induction cached as [|[filename scores] cached IH];
    intros manager results w manager' results' w' filename' field; simpl.
  - by intros [= <- _ _].
  - unfold rerate_entry.
    destruct (_ ← Py.subscript scores "rating"; _) as [[old total]|];
      [|done].
    destruct (update_file_rating manager filename _ w)
      as [[manager1|] w1] eqn:Hup; [|done].
    intros Hloop Hr Hp.
    rewrite (IH _ _ _ _ _ _ filename' field Hloop Hr Hp).
    by eapply update_file_rating_keeps.
Qed.

Section CachedTotal.
Context `{Hashlib} `{Json}.

(** C7, amended. The stored total is a cached value that nothing keeps in
    step with the weights. After an upsert the record holds the quality, the
    aesthetic and the total the caller passed, each rounded to two decimals;
    no weight enters. A quick re-rate leaves the stored quality, aesthetic
    and total of every record as the loaded ledger had them (it rewrites
    only [rating] and [processed_at]) and stores the new weights in the
    configuration. *)
Theorem cached_total_is_what_was_passed :
  (forall self filename file_path quality aesthetic total rating w fs,
      Py.dict_get (data self) "files" = Some (VDict fs) ->
      exists self',
        add_file_result self filename file_path quality aesthetic total
          rating w = (Ok self', (now w).2)
        /\ field_of (data self') filename "quality"
           = Some (VFloat (PyFloat.round2 quality))
        /\ field_of (data self') filename "aesthetic"
           = Some (VFloat (PyFloat.round2 aesthetic))
        /\ field_of (data self') filename "total"
           = Some (VFloat (PyFloat.round2 total)))
  /\ (forall dir t4 t3 t2 t1 qw aw w saved results w',
         quick_rerate_run dir (t4, t3, t2, t1) qw aw w
           = (Ok (saved, results), w') ->
         exists loaded w1,
           __init__ dir w = (Ok loaded, w1)
           /\ (forall filename field,
                  field <> "rating" -> field <> "processed_at" ->
                  field_of (data saved) filename field
                    = field_of (data loaded) filename field)
           /\ config_weight (data saved) "quality_weight" = Some qw
           /\ config_weight (data saved) "aesthetic_weight" = Some aw).
Proof.
  split.
  - intros self filename file_path quality aesthetic total rating w fs Hfs.
    eexists. split; [by apply add_file_result_ok|].
    unfold field_of, record_of. simpl.
    rewrite files_of_set_other by done.
    rewrite files_of_set_files, dict_get_set_eq. done.
  - intros dir t4 t3 t2 t1 qw aw w saved results w'.
    unfold quick_rerate_run.
    destruct (__init__ dir w) as [[loaded|] w1]; [|done].
    destruct (negb (is_completed loaded)); [done|].
    destruct (get_all_cached_scores loaded) as [cached|]; [|done].
    destruct (rerate_loop qw aw t4 t3 t2 t1 loaded [] w1 cached)
      as [[[manager' results']|] w2] eqn:Hloop; [|done].
    pose proof (save_data (set_config manager' [t4; t3; t2; t1] qw aw) w2)
      as Hsave.
    destruct (save _ w2) as [saved' w3]. simpl in Hsave.
    intros [= <- <- <-].
    exists loaded, w1. split; [done|]. split.
    + intros filename field Hr Hp.
      rewrite <- (rerate_loop_keeps _ _ _ _ _ _ _ _ _ _ _ _ _ filename
                    field Hloop Hr Hp).
      unfold field_of, record_of. rewrite Hsave.
      by rewrite !files_of_set_other by done.
    + unfold config_weight. rewrite Hsave.
      rewrite !dict_get_set_ne by done.
      by rewrite dict_get_set_eq.
Qed.

End CachedTotal.

(** C7, amended, on the upsert of [a.jpg] into the fresh ledger and on the
    quick re-rate of the completed ledger. *)
Lemma cached_total_is_what_was_passed_witness :
  Py.dict_get (data Demo.fresh) "files" = Some (VDict [])
  /\ Demo.rerate_halves Demo.completed_world
     = (Ok Demo.rerated, (Demo.rerate_halves Demo.completed_world).2)
  /\ (exists self',
         Demo.upsert_a Demo.fresh Demo.world0 = (Ok self', (now Demo.world0).2)
         /\ field_of (data self') "a.jpg" "total"
            = Some (VFloat (PyFloat.round2 Demo.total_80_02_70)))
  /\ config_weight (data Demo.rerated.1) "quality_weight"
     = Some (PyFloat.dec 5 1).
Proof.
  assert (Hfiles : Py.dict_get (data Demo.fresh) "files" = Some (VDict []))
    by reflexivity.
  assert (Hrun : Demo.rerate_halves Demo.completed_world
                 = (Ok Demo.rerated,
                    (Demo.rerate_halves Demo.completed_world).2))
    by reflexivity.
  split; [exact Hfiles|]. split; [exact Hrun|].
  destruct (@cached_total_is_what_was_passed Demo.demo_hashlib Demo.demo_json)
    as [Hupsert Hrerate].
  split.
  - destruct (Hupsert Demo.fresh "a.jpg" "/photos/a.jpg" Demo.q80_02 Demo.a70
                Demo.total_80_02_70 3 Demo.world0 [] Hfiles)
      as (self' & Hadd & _ & _ & Htotal).
    exists self'. split; [exact Hadd | exact Htotal].
  - destruct (Hrerate "/photos" _ _ _ _ _ _ Demo.completed_world
                Demo.rerated.1 Demo.rerated.2 _ Hrun)
      as (loaded & w1 & _ & _ & Hqw & _).
    exact Hqw.
Defined.

(** C7, as the specification states it, fails on both counts. The upsert of
    80.02 and 70.0 with their total under the ledger's weights, 80.02 * 0.4 +
    70.0 * 0.6, stores that total rounded to 74.01, which the stored scores
    and weights do not reproduce. The completed ledger, whose total 74 is
    what its weights 0.4 and 0.6 give, still stores 74 after a quick re-rate
    under the weights 0.5 and 0.5. *)
Lemma cached_total_counterexample :
  Demo.upsert_a Demo.fresh Demo.world0 = (Ok Demo.once.1, Demo.once.2)
  /\ total_rederivable (data Demo.once.1) = false
  /\ total_rederivable Demo.completed_doc = true
  /\ Demo.rerate_halves Demo.completed_world
     = (Ok Demo.rerated, (Demo.rerate_halves Demo.completed_world).2)
  /\ total_rederivable (data Demo.rerated.1) = false.
Proof.
  split; [reflexivity|]. split; [by vm_compute|]. split; [by vm_compute|].
  split; [reflexivity|]. by vm_compute.
Qed.

(* ===================================================================== *)
(** ** C8 and C10: the migration of list-shaped ledgers *)
(* ===================================================================== *)

Lemma dict_mem_keys (d : dict) k :
  Py.dict_mem k d = true <-> k ∈ Py.dict_keys d.
Proof.
  unfold Py.dict_mem. rewrite list_elem_of_In.
  pose proof (dict_get_None d k) as Hn.
  destruct (Py.dict_get d k); split; try done.
  - intros _. destruct (decide (k ∈ Py.dict_keys d)) as [Hin|Hnin].
    + by apply list_elem_of_In.
    + exfalso. rewrite list_elem_of_In in Hnin.
      apply Hn in Hnin. done.
  - intros Hin. by apply Hn in Hin.
Qed.

Lemma dict_keys_set (d : dict) k v :
  Py.dict_keys (Py.dict_set d k v)
  = if Py.dict_mem k d then Py.dict_keys d else Py.dict_keys d ++ [k].
Proof.
  unfold Py.dict_mem.
  induction d as [|[k0 v0] d IH]; simpl; [done|].
  destruct (String.eqb k k0) eqn:E; simpl; [done|].
  rewrite IH. by destruct (Py.dict_get d k).
Qed.

Lemma dict_set_length (d : dict) k v :
  length (Py.dict_set d k v)
  = if Py.dict_mem k d then length d else S (length d).
Proof.
  rewrite <- !(length_map fst). fold (Py.dict_keys (Py.dict_set d k v)).
  rewrite dict_keys_set. fold (Py.dict_keys d).
  destruct (Py.dict_mem k d); [done|]. rewrite length_app. simpl. lia.
Qed.

Lemma dict_set_NoDup (d : dict) k v :
  NoDup (Py.dict_keys d) -> NoDup (Py.dict_keys (Py.dict_set d k v)).
Proof.
  intros Hnd. rewrite dict_keys_set.
  destruct (Py.dict_mem k d) eqn:E; [done|].
  apply NoDup_app. split; [done|]. split; [|apply NoDup_singleton].
  intros x Hx ->%list_elem_of_singleton.
  apply dict_mem_keys in Hx. congruence.
Qed.

Lemma dict_set_Forall (Q : value -> Prop) (d : dict) k v :
  Forall (fun kv => Q kv.2) d -> Q v ->
  Forall (fun kv => Q kv.2) (Py.dict_set d k v).
Proof.
  intros Hd Hv. induction d as [|[k0 v0] d IH]; simpl.
  - by constructor.
  - inversion Hd; subst.
    destruct (String.eqb k k0); constructor; auto.
Qed.

Lemma migrate_entry_ok created acc file_info :
  legacy_entry_ok file_info = true ->
  exists acc',
    migrate_entry created acc file_info = Ok acc'
    /\ match entry_name file_info with
       | Some s => exists record,
                     acc' = Py.dict_set acc s record /\ migrated_record record
       | None => acc' = acc
       end.
Proof.
  unfold legacy_entry_ok, migrate_entry, entry_name.
  destruct file_info as [| | | | | |fi]; try done. simpl.
  destruct (Py.dict_get_default fi "filename" (VStr "")) as [| | | |s| |];
    simpl; unfold_bind; simpl.
  - eauto.
  - destruct b; [done|]. eauto.
  - destruct (n =? 0); [|done]. eauto.
  - destruct (PyFloat.is_zero x); [|done]. eauto.
  - destruct (String.eqb s ""); simpl; [eauto|].
    destruct (Py.dict_get_default fi "scores" (VDict [])); try done.
    simpl. intros _. eexists. split; [done|].
    eexists. split; [done|]. eexists. split; done.
  - destruct l; [|done]. eauto.
  - destruct d; [|done]. eauto.
Qed.

Lemma migrate_entries_ok created l :
  forall acc,
    forallb legacy_entry_ok l = true ->
    Forall (fun kv => migrated_record kv.2) acc ->
    NoDup (Py.dict_keys acc) ->
    exists new_files,
      for_each (migrate_entry created) acc l = Ok new_files
      /\ Forall (fun kv => migrated_record kv.2) new_files
      /\ NoDup (Py.dict_keys new_files)
      /\ (forall name, name ∈ Py.dict_keys new_files <->
                       name ∈ Py.dict_keys acc \/ name ∈ migrated_names l)
      /\ (NoDup (Py.dict_keys acc ++ migrated_names l) ->
          length new_files = (length acc + length (migrated_names l))%nat).
Proof.
  induction l as [|file_info l IH]; intros acc Hok Hacc Hnd; simpl.
  - exists acc. split; [done|]. split; [done|]. split; [done|]. split.
    + intros name. split; [by left|].
      intros [?|Hin]; [done|]. by apply elem_of_nil in Hin.
    + intros _. unfold migrated_names. simpl. lia.
  - simpl in Hok. apply andb_true_iff in Hok as [Hentry Hrest].
    destruct (migrate_entry_ok created acc file_info Hentry)
      as (acc' & -> & Hacc').
    unfold migrated_names. simpl. fold (migrated_names l).
    destruct (entry_name file_info) as [s|].
    + destruct Hacc' as (record & -> & Hrecord).
      destruct (IH (Py.dict_set acc s record) Hrest) as
        (new_files & Hloop & Hall & Hnd' & Hkeys & Hlen).
      { by apply dict_set_Forall. }
      { by apply dict_set_NoDup. }
      exists new_files. split; [done|]. split; [done|]. split; [done|].
      split.
      * intros name. rewrite Hkeys, dict_keys_set, elem_of_cons.
        destruct (Py.dict_mem s acc) eqn:E.
        -- apply dict_mem_keys in E. split; [tauto|].
           intros [?|[->|?]]; tauto.
        -- rewrite elem_of_app, list_elem_of_singleton. tauto.
      * intros Hnd2. rewrite Hlen.
        -- rewrite dict_set_length.
           destruct (Py.dict_mem s acc) eqn:E; [|simpl; lia].
           apply dict_mem_keys in E.
           apply NoDup_app in Hnd2 as (_ & Hdisj & _).
           exfalso. apply (Hdisj s E). by left.
        -- rewrite dict_keys_set.
           destruct (Py.dict_mem s acc) eqn:E.
           ++ apply dict_mem_keys in E.
              apply NoDup_app in Hnd2 as (_ & Hdisj & _).
              exfalso. apply (Hdisj s E). by left.
           ++ rewrite <- app_assoc. done.
    + subst acc'. destruct (IH acc Hrest Hacc Hnd) as
        (new_files & Hloop & Hall & Hnd' & Hkeys & Hlen).
      exists new_files. done.
Qed.

Lemma get_set_if_absent_ne (d : dict) k k' v :
  k <> k' -> Py.dict_get (set_if_absent d k v) k' = Py.dict_get d k'.
Proof.
  intros Hne. unfold set_if_absent.
  destruct (Py.dict_mem k d); [done|]. by apply dict_get_set_ne.
Qed.

Lemma get_set_if_absent_eq (d : dict) k v :
  Py.dict_get (set_if_absent d k v) k
  = Some (match Py.dict_get d k with Some x => x | None => v end).
Proof.
  unfold set_if_absent, Py.dict_mem.
  destruct (Py.dict_get d k) eqn:E; [done|]. apply dict_get_set_eq.
Qed.

Lemma migrate_config_ok (d : dict) :
  Py.dict_mem "config" d
    || is_dict (Py.dict_get_default d "settings" (VDict [])) = true ->
  exists d',
    migrate_config d = Ok d'
    /\ forall k, k <> "config" -> Py.dict_get d' k = Py.dict_get d k.
Proof.
  unfold migrate_config. destruct (Py.dict_mem "config" d); simpl.
  - intros _. by exists d.
  - destruct (Py.dict_get_default d "settings" (VDict [])); try done.
    intros _. unfold_bind. simpl. eexists. split; [done|].
    intros k Hk. by apply dict_get_set_ne.
Qed.

Lemma migrate_total_files_ok (d new_files : dict) :
  Py.dict_mem "total_files" d
    || is_dict (Py.dict_get_default d "statistics" (VDict [])) = true ->
  exists d',
    migrate_total_files d new_files = Ok d'
    /\ forall k, k <> "total_files" -> Py.dict_get d' k = Py.dict_get d k.
Proof.
  unfold migrate_total_files. destruct (Py.dict_mem "total_files" d); simpl.
  - intros _. by exists d.
  - destruct (Py.dict_get_default d "statistics" (VDict [])); try done.
    intros _. unfold_bind. simpl. eexists. split; [done|].
    intros k Hk. by apply dict_get_set_ne.
Qed.

(** A key that the fields assigned before [config] leave alone. *)
Lemma migrate_fields_prefix_get (d new_files : dict) k :
  k <> "files" -> k <> "processed_files" -> k <> "version" ->
  k <> "status" -> k <> "created_at" -> k <> "updated_at" ->
  forall v1 v2,
    Py.dict_get
      (set_if_absent
         (set_if_absent
            (set_if_absent
               (set_if_absent
                  (Py.dict_set (Py.dict_set d "files" (VDict new_files))
                     "processed_files" (VInt (Py.len new_files)))
                  "version" (VStr MANIFEST_VERSION))
               "status" (VStr "completed"))
            "created_at" v1)
         "updated_at" v2) k
    = Py.dict_get d k.
Proof.
  intros. rewrite !get_set_if_absent_ne by done.
  by rewrite !dict_get_set_ne by done.
Qed.

Lemma migrate_fields_ok (d new_files : dict) :
  Py.dict_mem "config" d
    || is_dict (Py.dict_get_default d "settings" (VDict [])) = true ->
  Py.dict_mem "total_files" d
    || is_dict (Py.dict_get_default d "statistics" (VDict [])) = true ->
  exists d',
    migrate_fields d new_files = Ok d'
    /\ Py.dict_get d' "files" = Some (VDict new_files)
    /\ Py.dict_get d' "processed_files" = Some (VInt (Py.len new_files))
    /\ Py.dict_get d' "status"
       = Some (match Py.dict_get d "status" with
               | Some s => s
               | None => VStr "completed"
               end).
Proof.
  intros Hconfig Hstats. unfold migrate_fields.
  set (d1 := Py.dict_set (Py.dict_set d "files" (VDict new_files))
               "processed_files" (VInt (Py.len new_files))).
  set (d2 := set_if_absent d1 "version" (VStr MANIFEST_VERSION)).
  set (d3 := set_if_absent d2 "status" (VStr "completed")).
  set (d4 := set_if_absent d3 "created_at" _).
  set (d5 := set_if_absent d4 "updated_at" _).
  assert (Hpre : forall k,
             k <> "files" -> k <> "processed_files" -> k <> "version" ->
             k <> "status" -> k <> "created_at" -> k <> "updated_at" ->
             Py.dict_get d5 k = Py.dict_get d k).
  { intros. by apply migrate_fields_prefix_get. }
  destruct (migrate_config_ok d5) as (d6 & Hd6 & Hget6).
  { unfold Py.dict_mem, Py.dict_get_default in *.
    by rewrite !Hpre by done. }
  destruct (migrate_total_files_ok d6 new_files) as (d7 & Hd7 & Hget7).
  { unfold Py.dict_mem, Py.dict_get_default in *.
    rewrite !Hget6 by done. by rewrite !Hpre by done. }
  exists d7. unfold_bind. rewrite Hd6. split; [done|].
  rewrite !Hget7, !Hget6 by done. unfold d5, d4, d3, d2, d1.
  split; [|split].
  - rewrite !get_set_if_absent_ne by done.
    rewrite dict_get_set_ne by done. apply dict_get_set_eq.
  - rewrite !get_set_if_absent_ne by done. apply dict_get_set_eq.
  - rewrite !get_set_if_absent_ne by done.
    rewrite get_set_if_absent_eq.
    rewrite get_set_if_absent_ne by done.
    by rewrite !dict_get_set_ne by done.
Qed.

Lemma migrate_config_keeps (d d' : dict) k :
  migrate_config d = Ok d' -> k <> "config" ->
  Py.dict_get d' k = Py.dict_get d k.
Proof.
  unfold migrate_config. destruct (Py.dict_mem "config" d).
  - by intros [= <-].
  - destruct (Py.dict_get_default d "settings" (VDict [])); try done.
    unfold_bind. simpl. intros [= <-] Hk. by apply dict_get_set_ne.
Qed.

Lemma migrate_total_files_keeps (d d' new_files : dict) k :
  migrate_total_files d new_files = Ok d' -> k <> "total_files" ->
  Py.dict_get d' k = Py.dict_get d k.
Proof.
  unfold migrate_total_files. destruct (Py.dict_mem "total_files" d).
  - by intros [= <-].
  - destruct (Py.dict_get_default d "statistics" (VDict [])); try done.
    unfold_bind. simpl. intros [= <-] Hk. by apply dict_get_set_ne.
Qed.

Lemma migrate_fields_files (d d' new_files : dict) :
  migrate_fields d new_files = Ok d' ->
  Py.dict_get d' "files" = Some (VDict new_files).
Proof.
  unfold migrate_fields. unfold_bind.
  destruct (migrate_config _) as [d1|] eqn:E1; [|done].
  intros E2.
  rewrite (migrate_total_files_keeps _ _ _ "files" E2) by done.
  rewrite (migrate_config_keeps _ _ "files" E1) by done.
  rewrite !get_set_if_absent_ne by done.
  rewrite dict_get_set_ne by done. apply dict_get_set_eq.
Qed.

Lemma for_each_app {S A : Type} (body : S -> A -> result S) (s : S)
    (l1 l2 : list A) :
  for_each body s (l1 ++ l2)
  = match for_each body s l1 with
    | Ok s' => for_each body s' l2
    | Raise e => Raise e
    end.
Proof.
  revert s. induction l1 as [|x l1 IH]; intros s; simpl; [done|].
  destruct (body s x); [apply IH|done].
Qed.

(** The record the migration makes of an entry that has a filename. *)
Lemma migrate_entry_record created acc fi name :
  legacy_entry_ok (VDict fi) = true ->
  entry_name (VDict fi) = Some name ->
  exists scores,
    Py.dict_get_default fi "scores" (VDict []) = VDict scores
    /\ migrate_entry created acc (VDict fi)
       = Ok (Py.dict_set acc name
               (VDict (converted_record created fi scores))).
Proof.
  unfold legacy_entry_ok, migrate_entry, entry_name. simpl.
  destruct (Py.dict_get_default fi "filename" (VStr "")) as [| | | |s| |];
    try done.
  destruct (String.eqb s "") eqn:E; [done|]. intros Hok [= <-].
  simpl in *. rewrite E in *. simpl in *.
  destruct (Py.dict_get_default fi "scores" (VDict []))
    as [| | | | | |scores]; try done.
  by exists scores.
Qed.

(** The entries that follow do not touch the record of another name. *)
Lemma migrate_entries_keep created l :
  forall acc new_files name,
    forallb legacy_entry_ok l = true ->
    for_each (migrate_entry created) acc l = Ok new_files ->
    name ∉ migrated_names l ->
    Py.dict_get new_files name = Py.dict_get acc name.
Proof.
  induction l as [|file_info l IH]; intros acc new_files name Hok Hloop Hname;
    simpl in *; [by injection Hloop as <-|].
  apply andb_true_iff in Hok as [Hentry Hrest].
  destruct (migrate_entry_ok created acc file_info Hentry)
    as (acc' & Hstep & Hacc').
  rewrite Hstep in Hloop.
  unfold migrated_names in Hname. simpl in Hname.
  fold (migrated_names l) in Hname.
  destruct (entry_name file_info) as [s|].
  - destruct Hacc' as (record & -> & _).
    apply not_elem_of_cons in Hname as [Hne Hname].
    rewrite (IH _ _ name Hrest Hloop Hname). by apply dict_get_set_ne.
  - subst acc'. by apply (IH _ _ name Hrest Hloop).
Qed.

(** The record of a name is made of the last entry that bears it. *)
Lemma migrate_entries_last created before fi after acc new_files name :
  forallb legacy_entry_ok (before ++ VDict fi :: after) = true ->
  for_each (migrate_entry created) acc (before ++ VDict fi :: after)
    = Ok new_files ->
  entry_name (VDict fi) = Some name ->
  name ∉ migrated_names after ->
  exists scores,
    Py.dict_get_default fi "scores" (VDict []) = VDict scores
    /\ Py.dict_get new_files name
       = Some (VDict (converted_record created fi scores)).
Proof.
  intros Hok Hloop Hname Hafter.
  rewrite forallb_app in Hok. apply andb_true_iff in Hok as [_ Hok].
  simpl in Hok. apply andb_true_iff in Hok as [Hentry Hrest].
  rewrite for_each_app in Hloop.
  destruct (for_each (migrate_entry created) acc before) as [acc1|];
    [|done].
  simpl in Hloop.
  destruct (migrate_entry_record created acc1 fi name Hentry Hname)
    as (scores & Hscores & Hstep).
  rewrite Hstep in Hloop. exists scores. split; [done|].
  rewrite (migrate_entries_keep _ _ _ _ name Hrest Hloop Hafter).
  apply dict_get_set_eq.
Qed.

(** An entry that is not an object stops the migration. *)
Lemma migrate_entries_raise created good bad rest :
  forallb legacy_entry_ok good = true ->
  is_dict bad = false ->
  for_each (migrate_entry created) [] (good ++ bad :: rest)
  = Raise AttributeError.
Proof.
  intros Hgood Hbad. rewrite for_each_app.
  destruct (migrate_entries_ok created good [] Hgood (Forall_nil_2 _)
              NoDup_nil_2) as (acc & -> & _).
  simpl. unfold migrate_entry. by destruct bad.
Qed.

Section Migration.
Context `{Hashlib} `{Json}.

(** On a list-shaped ledger that it can read, the migration succeeds: it
    builds the mapping, fills in the fields and saves. *)
Lemma migrate_old_format_ok self w l :
  Py.dict_get (data self) "files" = Some (VList l) ->
  legacy_ok (data self) = true ->
  exists new_files d',
    _migrate_old_format self w
      = (Ok (save (with_data self d') w).1, (save (with_data self d') w).2)
    /\ Forall (fun kv => migrated_record kv.2) new_files
    /\ NoDup (Py.dict_keys new_files)
    /\ (forall name, name ∈ Py.dict_keys new_files <->
                     name ∈ migrated_names l)
    /\ (NoDup (migrated_names l) ->
        length new_files = length (migrated_names l))
    /\ Py.dict_get d' "files" = Some (VDict new_files)
    /\ Py.dict_get d' "processed_files" = Some (VInt (Py.len new_files))
    /\ Py.dict_get d' "status"
       = Some (match Py.dict_get (data self) "status" with
               | Some s => s
               | None => VStr "completed"
               end).
Proof.
  intros Hfiles Hok. unfold legacy_ok in Hok. rewrite Hfiles in Hok.
  apply andb_true_iff in Hok as [Hok Hstats].
  apply andb_true_iff in Hok as [Hentries Hconfig].
  destruct (migrate_entries_ok
              (Py.dict_get_default (data self) "created" (VStr "")) l []
              Hentries (Forall_nil_2 _) (NoDup_nil_2))
    as (new_files & Hloop & Hall & Hnd & Hkeys & Hlen).
  destruct (migrate_fields_ok (data self) new_files Hconfig Hstats)
    as (d' & Hfields & Hf & Hp & Hs).
  exists new_files, d'.
  split.
  { unfold _migrate_old_format, Py.dict_get_default at 1.
    rewrite Hfiles, Hloop, Hfields. by destruct (save _ w). }
  split; [done|]. split; [done|]. split.
  { intros name. rewrite Hkeys. split; [|by right].
    intros [Hin|?]; [|done]. by apply elem_of_nil in Hin. }
  split; [|done].
  intros Hnames. by rewrite Hlen.
Qed.

(** The mapping a successful migration leaves is the one its loop built. *)
Lemma migrate_old_format_loop self w l self' w' new_files :
  Py.dict_get (data self) "files" = Some (VList l) ->
  _migrate_old_format self w = (Ok self', w') ->
  Py.dict_get (data self') "files" = Some (VDict new_files) ->
  for_each
    (migrate_entry (Py.dict_get_default (data self) "created" (VStr "")))
    [] l = Ok new_files.
Proof.
  intros Hfiles. unfold _migrate_old_format, Py.dict_get_default at 1.
  rewrite Hfiles.
  destruct (for_each _ [] l) as [nf|] eqn:Hloop; [|done].
  destruct (migrate_fields (data self) nf) as [d|] eqn:Hfields; [|done].
  pose proof (save_data (with_data self d) w) as Hdata.
  destruct (save (with_data self d) w) as [saved w1]. simpl in Hdata.
  intros [= <- <-] Hnew. rewrite Hdata, dict_get_set_ne in Hnew by done.
  apply migrate_fields_files in Hfields. congruence.
Qed.

Lemma migrated_ledger_ok (d new_files : dict) :
  Py.dict_get d "files" = Some (VDict new_files) ->
  Forall (fun kv => migrated_record kv.2) new_files ->
  ledger_ok d = true.
Proof.
  intros Hf Hall. unfold ledger_ok. rewrite Hf.
  apply forallb_forall. intros kv Hin.
  rewrite Forall_forall in Hall.
  apply list_elem_of_In in Hin.
  destruct (Hall kv Hin) as (r & -> & _). done.
Qed.

(** C8. When the persisted ledger is list-shaped (and its entries can be
    read), [load] succeeds and leaves a ledger whose [files] is a mapping
    with unique keys, keyed by the filenames of the entries that have one;
    [processed_files] is the size of that mapping, which is the number of
    migrated entries when their filenames differ; the status is [completed]
    when the legacy document had none, and kept otherwise; and the migrated
    ledger is saved at once: unless the operating system refuses the write,
    the ledger file holds the document [load] returns. The record of a
    filename is the conversion of the last entry that bears it: no
    fingerprint, the quality, aesthetic and total of the entry's scores and
    the entry's rating (0 for a missing one), processed at the time the
    legacy ledger was created. *)
Theorem load_migrates_list_ledger self w content d l :
  open_read w (manifest_path self) = Some content ->
  json_loads content = Some (VDict d) ->
  Py.dict_get d "files" = Some (VList l) ->
  legacy_ok d = true ->
  exists self' w' new_files,
    load self w = (Ok (true, self'), w')
    /\ Py.dict_get (data self') "files" = Some (VDict new_files)
    /\ NoDup (Py.dict_keys new_files)
    /\ (forall name, name ∈ Py.dict_keys new_files <->
                     name ∈ migrated_names l)
    /\ Py.dict_get (data self') "processed_files"
       = Some (VInt (Z.of_nat (length new_files)))
    /\ (NoDup (migrated_names l) ->
        length new_files = length (migrated_names l))
    /\ Py.dict_get (data self') "status"
       = Some (match Py.dict_get d "status" with
               | Some s => s
               | None => VStr "completed"
               end)
    /\ files w'
       = (if write_denied w (manifest_path self) then files w
          else <[manifest_path self := json_dumps (data self')]> (files w))
    /\ (forall before fi after name,
           l = before ++ VDict fi :: after ->
           entry_name (VDict fi) = Some name ->
           name ∉ migrated_names after ->
           exists scores,
             Py.dict_get_default fi "scores" (VDict []) = VDict scores
             /\ Py.dict_get new_files name
                = Some (VDict (converted_record
                                 (Py.dict_get_default d "created" (VStr ""))
                                 fi scores))).
Proof.
  intros Hread Hloads Hfiles Hok.
  destruct (migrate_old_format_ok (with_data self d) w l Hfiles Hok)
    as (new_files & d' & Hmig & _ & Hnd & Hkeys & Hlen & Hf & Hp & Hs).
  assert (Hrecords : forall before fi after name,
             l = before ++ VDict fi :: after ->
             entry_name (VDict fi) = Some name ->
             name ∉ migrated_names after ->
             exists scores,
               Py.dict_get_default fi "scores" (VDict []) = VDict scores
               /\ Py.dict_get new_files name
                  = Some (VDict (converted_record
                                   (Py.dict_get_default d "created"
                                      (VStr ""))
                                   fi scores))).
  { intros before fi after name Hl Hname Hafter.
    assert (Hloop := migrate_old_format_loop (with_data self d) w l _ _
                       new_files Hfiles Hmig).
    rewrite save_data in Hloop. simpl in Hloop.
    rewrite dict_get_set_ne in Hloop by done. specialize (Hloop Hf).
    unfold legacy_ok in Hok. simpl in Hfiles. rewrite Hfiles in Hok.
    apply andb_true_iff in Hok as [Hok _].
    apply andb_true_iff in Hok as [Hentries _].
    subst l.
    by apply (migrate_entries_last _ before fi after [] new_files name). }
  exists (save (with_data self d') w).1, (save (with_data self d') w).2,
         new_files.
  split.
  { unfold load. by rewrite Hread, Hloads, Hmig. }
  rewrite save_files, save_data. simpl.
  rewrite !dict_get_set_ne by done.
  repeat (split; [done|]). done.
Qed.

(** C10. After the migration of a list-shaped ledger, the files the ledger
    tracks are exactly the legacy entries that have a filename, and every
    one of their records has the empty fingerprint; so [is_file_processed]
    answers [False] for every filename and path, and the pending
    computation returns every path it is given, although the status of the
    migrated ledger is [completed] when the legacy document had none. *)
Theorem migrated_ledger_is_all_pending self w l :
  Py.dict_get (data self) "files" = Some (VList l) ->
  legacy_ok (data self) = true ->
  exists self' w',
    _migrate_old_format self w = (Ok self', w')
    /\ (forall filename,
           filename ∈ migrated_names l
           <-> exists record,
                 record_of (data self') filename = Some record
                 /\ fingerprint_of record = VStr "")
    /\ (forall filename record,
           record_of (data self') filename = Some record ->
           fingerprint_of record = VStr "")
    /\ (forall filename file_path w2,
           is_file_processed self' filename file_path w2 = Ok false)
    /\ (forall all_files w2,
           get_pending_files self' all_files w2 = Ok all_files)
    /\ (Py.dict_get (data self) "status" = None ->
        is_completed self' = true).
Proof.
  intros Hfiles Hok.
  destruct (migrate_old_format_ok self w l Hfiles Hok)
    as (new_files & d' & Hmig & Hall & _ & Hkeys & _ & Hf & _ & Hs).
  pose proof (save_data (with_data self d') w) as Hself. simpl in Hself.
  set (self' := (save (with_data self d') w).1) in *.
  assert (Hf' : Py.dict_get (data self') "files" = Some (VDict new_files)).
  { rewrite Hself. by rewrite dict_get_set_ne. }
  assert (Hempty : forall filename record,
             record_of (data self') filename = Some record ->
             fingerprint_of record = VStr "").
  { intros filename record. unfold record_of, files_of. rewrite Hf'.
    intros Hin%dict_get_In%list_elem_of_In.
    rewrite Forall_forall in Hall.
    destruct (Hall _ Hin) as (r & Hr & Hhash). simpl in Hr. subst record.
    simpl. unfold Py.dict_get_default. by rewrite Hhash. }
  assert (Hledger : ledger_ok (data self') = true).
  { by eapply migrated_ledger_ok. }
  assert (Hpending : forall filename file_path w2,
             pending_as self' w2 filename file_path = true).
  { intros. unfold pending_as.
    destruct (record_of (data self') filename) as [record|] eqn:E; [|done].
    rewrite (Hempty _ _ E). simpl. apply orb_true_r. }
  exists self', (save (with_data self d') w).2.
  split; [done|]. split.
  { intros filename. rewrite <- Hkeys, <- dict_mem_keys.
    unfold Py.dict_mem. split.
    - destruct (Py.dict_get new_files filename) as [record|] eqn:E; [|done].
      intros _. exists record.
      assert (Hrec : record_of (data self') filename = Some record).
      { unfold record_of, files_of. by rewrite Hf'. }
      split; [exact Hrec|]. by apply (Hempty filename).
    - intros (record & Hrec & _). unfold record_of, files_of in Hrec.
      rewrite Hf' in Hrec. by rewrite Hrec. }
  split; [done|]. split.
  { intros. rewrite is_file_processed_spec by done. by rewrite Hpending. }
  split.
  { intros all_files w2. unfold get_pending_files.
    rewrite get_pending_files_acc by done. simpl.
    f_equal. induction all_files as [|p all_files IH]; simpl; [done|].
    unfold pending_spec at 1. rewrite Hpending. by rewrite IH. }
  intros Hnone. unfold is_completed, status, Py.dict_get_default.
  rewrite Hself. rewrite dict_get_set_ne by done.
  rewrite Hs, Hnone. done.
Qed.

End Migration.

(** C8 on the list-shaped ledger of three entries: the record of [a.jpg]
    is the conversion of its entry. *)
Lemma load_migrates_list_ledger_witness :
  open_read Demo.legacy_world (manifest_path Demo.fresh)
    = Some Demo.legacy_bytes
  /\ @json_loads Demo.demo_json Demo.legacy_bytes
     = Some (VDict Demo.legacy_doc)
  /\ Py.dict_get Demo.legacy_doc "files" = Some (VList Demo.legacy_entries)
  /\ legacy_ok Demo.legacy_doc = true
  /\ exists self' w',
       @load Demo.demo_json Demo.fresh Demo.legacy_world
         = (Ok (true, self'), w')
       /\ Py.dict_get (data self') "processed_files" = Some (VInt 3)
       /\ Py.dict_get (data self') "status" = Some (VStr "completed")
       /\ record_of (data self') "a.jpg"
          = Some (VDict [ ("hash", VStr "");
                          ("quality", VInt 80);
                          ("aesthetic", VInt 70);
                          ("total", VInt 74);
                          ("rating", VInt 3);
                          ("processed_at", VStr "2023-05-01T10:00:00") ]).
Proof.
  assert (Hread : open_read Demo.legacy_world (manifest_path Demo.fresh)
                  = Some Demo.legacy_bytes) by (by vm_compute).
  assert (Hloads : @json_loads Demo.demo_json Demo.legacy_bytes
                   = Some (VDict Demo.legacy_doc)) by reflexivity.
  assert (Hfiles : Py.dict_get Demo.legacy_doc "files"
                   = Some (VList Demo.legacy_entries)) by reflexivity.
  assert (Hok : legacy_ok Demo.legacy_doc = true) by reflexivity.
  repeat (split; [done|]).
  destruct (@load_migrates_list_ledger Demo.demo_json Demo.fresh
              Demo.legacy_world Demo.legacy_bytes Demo.legacy_doc
              Demo.legacy_entries Hread Hloads Hfiles Hok)
    as (self' & w' & new_files & Hload & Hmapping & _ & _ & Hcount & Hlen
        & Hstatus & _ & Hrecords).
  exists self', w'. split; [exact Hload|].
  split; [|split; [exact Hstatus|]].
  - rewrite Hcount, Hlen; [reflexivity|].
    apply (bool_decide_unpack _). by vm_compute.
  - unfold record_of, files_of. rewrite Hmapping.
    destruct (Hrecords []
                [ ("filename", VStr "a.jpg");
                  ("scores", VDict [ ("quality", VInt 80);
                                     ("aesthetic", VInt 70);
                                     ("total", VInt 74) ]);
                  ("rating", VInt 3) ]
                [ Demo.legacy_entry "b.jpg" 60 50 54 0;
                  Demo.legacy_entry "c.jpg" 90 85 87 4 ]
                "a.jpg")
      as (scores & Hscores & Hrecord).
    + reflexivity.
    + reflexivity.
    + apply (bool_decide_unpack _). vm_compute. exact I.
    + rewrite Hrecord. injection Hscores as <-. reflexivity.
Defined.

(** C10 on the same ledger: [a.jpg], which is on the disk, is tracked and
    still pending. *)
Lemma migrated_ledger_is_all_pending_witness :
  Py.dict_get (data (with_data Demo.fresh Demo.legacy_doc)) "files"
    = Some (VList Demo.legacy_entries)
  /\ legacy_ok (data (with_data Demo.fresh Demo.legacy_doc)) = true
  /\ exists self' w',
       @_migrate_old_format Demo.demo_json
         (with_data Demo.fresh Demo.legacy_doc) Demo.legacy_world
         = (Ok self', w')
       /\ (exists record,
             record_of (data self') "a.jpg" = Some record
             /\ fingerprint_of record = VStr "")
       /\ @is_file_processed Demo.demo_hashlib self' "a.jpg" "/photos/a.jpg"
            Demo.legacy_world = Ok false
       /\ @get_pending_files Demo.demo_hashlib self'
            ["/photos/a.jpg"; "/photos/b.jpg"; "/photos/c.jpg"]
            Demo.legacy_world
          = Ok ["/photos/a.jpg"; "/photos/b.jpg"; "/photos/c.jpg"]
       /\ is_completed self' = true.
Proof.
  assert (Hfiles : Py.dict_get (data (with_data Demo.fresh Demo.legacy_doc))
                     "files" = Some (VList Demo.legacy_entries))
    by reflexivity.
  assert (Hok : legacy_ok (data (with_data Demo.fresh Demo.legacy_doc))
                = true) by reflexivity.
  split; [exact Hfiles|]. split; [exact Hok|].
  destruct (@migrated_ledger_is_all_pending Demo.demo_hashlib Demo.demo_json
              (with_data Demo.fresh Demo.legacy_doc) Demo.legacy_world
              Demo.legacy_entries Hfiles Hok)
    as (self' & w' & Hmig & Htracked & _ & Hprocessed & Hpending
        & Hcompleted).
  exists self', w'. split; [exact Hmig|].
  split.
  { apply Htracked. apply (bool_decide_unpack _). vm_compute. exact I. }
  split; [apply Hprocessed|]. split; [apply Hpending|].
  apply Hcompleted. reflexivity.
Defined.

(* ===================================================================== *)
(** ** C9: restoring the files of the rating folders *)
(* ===================================================================== *)

Module RestoreFacts.
Import Restore.

Lemma star_dirs_NoDup : NoDup star_dirs.
Proof. apply (bool_decide_unpack _). by vm_compute. Qed.

Lemma restore_dir_listing o st b :
  restore_dir o st b = foldl (restore_file o b) st (listing st.2 b).
Proof.
  unfold restore_dir, listing, dir_of.
  by destruct (st.2 !! b) as [[]|].
Qed.

Lemma foldl_step_tagged o b l st :
  foldl (restore_file o b) st l = foldl (step o) st (map (pair b) l).
Proof.
  revert st. induction l as [|f l IH]; intros st; simpl; [done|]. apply IH.
Qed.

(** One step either leaves the tree alone or moves one file up, to a name
    that was free. *)
Lemma step_tree o res t bf :
  (step o (res, t) bf).2 = t
  \/ exists content,
       bf.2.2 = CFile content /\ t !! bf.2.1 = None
       /\ move_fails o bf.1 bf.2.1 = false
       /\ (step o (res, t) bf).2 = move_up bf.1 bf.2.1 content t.
Proof.
  unfold step, restore_file. destruct bf as [b [name c]]. simpl.
  destruct c as [content|]; [|by left].
  destruct (t !! name) eqn:E; [by left|].
  destruct (move_fails o b name) eqn:F; [by left|].
  right. by exists content.
Qed.

Lemma dir_of_move_up b name content t b' :
  t !! name = None -> b' <> b ->
  dir_of (move_up b name content t) b' = dir_of t b'.
Proof.
  intros Hfree Hne. unfold dir_of, move_up.
  destruct (decide (name = b')) as [->|Hn].
  - by rewrite lookup_insert_eq, Hfree.
  - rewrite lookup_insert_ne by done. by rewrite lookup_alter_ne.
Qed.

(** Working through one folder leaves the listings of the others alone. *)
Lemma steps_keep_other_dirs o b l :
  forall st b', b' <> b ->
    dir_of (foldl (step o) st (map (pair b) l)).2 b' = dir_of st.2 b'.
Proof.
  induction l as [|f l IH]; intros [res t] b' Hne; simpl; [done|].
  rewrite IH by done.
  destruct (step_tree o res t (b, f)) as [->|(c & _ & Hfree & _ & ->)];
    [done|].
  by apply dir_of_move_up.
Qed.

Lemma foldl_restore_dir_flat o bs :
  NoDup bs ->
  forall st,
    foldl (restore_dir o) st bs
    = foldl (step o) st
        (concat (map (fun b => map (pair b) (listing st.2 b)) bs)).
Proof.
  induction bs as [|b bs IH]; intros Hnd st; simpl; [done|].
  apply NoDup_cons in Hnd as [Hb Hnd].
  rewrite foldl_app, restore_dir_listing, foldl_step_tagged.
  rewrite IH by done. f_equal. f_equal.
  apply map_ext_in. intros b' Hin%list_elem_of_In.
  unfold listing. rewrite steps_keep_other_dirs; [done|].
  intros ->. done.
Qed.

Lemma move_phase_flat o t :
  move_phase o t
  = foldl (step o) ({| moved := 0; failed := 0; already_in_place := 0 |}, t)
      (work t).
Proof.
  unfold move_phase, work.
  by rewrite (foldl_restore_dir_flat o star_dirs star_dirs_NoDup).
Qed.

Lemma exists_at_move_up b name content t k :
  exists_at (move_up b name content t) k
  = if decide (k = name) then true else exists_at t k.
Proof.
  unfold exists_at, move_up. destruct (decide (k = name)) as [->|Hne].
  - by rewrite lookup_insert_eq.
  - rewrite lookup_insert_ne by done.
    rewrite lookup_alter. destruct (decide (b = k)); [|done].
    subst. by destruct (t !! k).
Qed.

(** The tree only grows at the top level, and its top-level files stay. *)
Lemma steps_keep_top o l :
  forall st k,
    (exists_at st.2 k = true ->
     exists_at (foldl (step o) st l).2 k = true)
    /\ (forall c0, st.2 !! k = Some (TFile c0) ->
                   (foldl (step o) st l).2 !! k = Some (TFile c0)).
Proof.
  induction l as [|bf l IH]; intros [res t] k; simpl; [done|].
  destruct (IH (step o (res, t) bf) k) as [IH1 IH2].
  destruct (step_tree o res t bf) as [Hsame|(c & _ & Hfree & _ & Hmove)].
  - rewrite Hsame in IH1, IH2. done.
  - rewrite Hmove in IH1, IH2. split.
    + intros Hk. apply IH1. rewrite exists_at_move_up.
      by destruct (decide _).
    + intros c0 Hk. apply IH2. unfold move_up.
      rewrite lookup_insert_ne
        by (intros Heq; rewrite Heq in Hfree; congruence).
      rewrite lookup_alter.
      destruct (decide (bf.1 = k)) as [Heq|]; [|done].
      by rewrite Heq, Hk.
Qed.






(** The second loop looks at each rating folder once. *)
Lemma remove_if_empty_lookup o t b k :
  remove_if_empty o t b !! k
  = if decide (k = b) then
      match t !! b with
      | Some (TDir children) =>
          match map_to_list children with
          | [] => if rmdir_fails o b then t !! b else None
          | _ :: _ => t !! b
          end
      | other => other
      end
    else t !! k.
Proof.
  unfold remove_if_empty.
  destruct (decide (k = b)) as [->|Hne].
  - destruct (t !! b) as [[|children]|] eqn:E; try done.
    destruct (map_to_list children); [|done].
    destruct (rmdir_fails o b); [done|]. apply lookup_delete_eq.
  - destruct (t !! b) as [[|children]|] eqn:E; try done.
    destruct (map_to_list children); [|done].
    destruct (rmdir_fails o b); [done|]. by apply lookup_delete_ne.
Qed.

Lemma cleanup_lookup o bs :
  NoDup bs ->
  forall t k,
    foldl (remove_if_empty o) t bs !! k
    = if decide (k ∈ bs) then remove_if_empty o t k !! k else t !! k.
Proof.
  induction bs as [|b bs IH]; intros Hnd t k; simpl.
  { destruct (decide (k ∈ [])) as [Hin|]; [|done]. by apply elem_of_nil in Hin. }
  apply NoDup_cons in Hnd as [Hb Hnd]. rewrite IH by done.
  destruct (decide (k ∈ bs)) as [Hin|Hnin].
  - assert (Hne : k <> b) by (intros ->; done).
    destruct (decide (k ∈ b :: bs)) as [_|Hn]; [|set_solver].
    rewrite !remove_if_empty_lookup.
    rewrite !(decide_True (P := k = k)) by done.
    by rewrite !(decide_False (P := k = b)) by done.
  - destruct (decide (k ∈ b :: bs)) as [Hin|Hn].
    + apply elem_of_cons in Hin as [->|?]; done.
    + rewrite remove_if_empty_lookup. rewrite decide_False; [done|].
      set_solver.
Qed.

Lemma restore_files_proj o t :
  (restore_files o t).1 = (move_phase o t).1
  /\ (restore_files o t).2
     = foldl (remove_if_empty o) (move_phase o t).2 star_dirs.
Proof. unfold restore_files. by destruct (move_phase o t). Qed.

Lemma cleanup_keeps o t k e :
  t !! k = Some e ->
  match e with
  | TFile _ => True
  | TDir children => children <> ∅
  end ->
  foldl (remove_if_empty o) t star_dirs !! k = Some e.
Proof.
  intros Hk He. rewrite (cleanup_lookup o star_dirs star_dirs_NoDup).
  destruct (decide (k ∈ star_dirs)); [|done].
  rewrite remove_if_empty_lookup, decide_True by done. rewrite Hk.
  destruct e as [|children]; [done|].
  destruct (map_to_list children) eqn:E; [|done].
  by apply map_to_list_empty_iff in E.
Qed.


End RestoreFacts.


(* ===================================================================== *)
(** ** Beyond the claims: loading, saving and the life cycle *)
(* ===================================================================== *)

Section Persistence.
Context `{Json}.

Lemma init_new_manifest_fields self w :
  let fresh := (_init_new_manifest self w).1 in
  directory fresh = directory self
  /\ status fresh = VStr "new"
  /\ files_of (data fresh) = []
  /\ processed_count fresh = VInt 0
  /\ total_count fresh = VInt 0
  /\ files (_init_new_manifest self w).2 = files w.
Proof. done. Qed.

(** X1. What [load] does with a ledger file it cannot use. When the file
    cannot be opened, or [json.load] raises [JSONDecodeError], [load] does
    not raise: it answers [False] and leaves a fresh, empty ledger with the
    status [new], and it does not touch the disk. Any other exception of
    [json.load] ([UnicodeDecodeError] when the file is not UTF-8, for
    instance) is not handled: it comes out of [load] and of the constructor,
    and nothing has changed. *)
Theorem load_handles_decode_and_io_errors_only self w :
  (open_read w (manifest_path self) = None
   \/ (exists content,
          open_read w (manifest_path self) = Some content
          /\ json_loads content = None
          /\ json_raises content = None) ->
   exists fresh w',
     load self w = (Ok (false, fresh), w')
     /\ status fresh = VStr "new"
     /\ is_completed fresh = false
     /\ files_of (data fresh) = []
     /\ processed_count fresh = VInt 0
     /\ files w' = files w)
  /\ (forall content e,
        open_read w (manifest_path self) = Some content ->
        json_loads content = None ->
        json_raises content = Some e ->
        load self w = (Raise e, w)
        /\ __init__ (directory self) w = (Raise e, w)).
Proof.
  split.
  - intros Hbad.
    exists (_init_new_manifest self w).1, (_init_new_manifest self w).2.
    split; [|done].
    unfold load. destruct Hbad as [->|(content & -> & -> & ->)];
      by destruct (_init_new_manifest self w).
  - intros content e Hread Hloads Hraises.
    assert (Hload : forall self0, manifest_path self0 = manifest_path self ->
              load self0 w = (Raise e, w)).
    { intros self0 Hpath. unfold load.
      by rewrite Hpath, Hread, Hloads, Hraises. }
    split; [by apply Hload|].
    unfold __init__. rewrite Hload by done.
    change (manifest_path {| directory := directory self; data := [] |})
      with (manifest_path self).
    unfold path_exists. unfold open_read in Hread.
    destruct (read_denied w (manifest_path self)); [done|].
    by rewrite Hread.
Qed.

Lemma load_current self w content d :
  open_read w (manifest_path self) = Some content ->
  json_loads content = Some (VDict d) ->
  (forall l, Py.dict_get d "files" <> Some (VList l)) ->
  load self w = (Ok (true, with_data self d), w).
Proof.
  intros Hread Hloads Hfiles. unfold load, _migrate_old_format.
  rewrite Hread, Hloads. simpl. unfold Py.dict_get_default.
  destruct (Py.dict_get d "files") as [v|] eqn:E; [|done].
  destruct v; try done. by destruct (Hfiles l).
Qed.

(** X2. Loading a ledger whose [files] is not a list takes the parsed
    document as it is: nothing is migrated, nothing is written, and the
    clock is not read; the constructor then holds that document, and what it
    reports as status and counts is what the document says. *)
Theorem load_keeps_current_ledger self w content d :
  open_read w (manifest_path self) = Some content ->
  json_loads content = Some (VDict d) ->
  (forall l, Py.dict_get d "files" <> Some (VList l)) ->
  load self w = (Ok (true, with_data self d), w)
  /\ __init__ (directory self) w = (Ok (with_data self d), w)
  /\ status (with_data self d) = Py.dict_get_default d "status" (VStr "new")
  /\ processed_count (with_data self d)
     = Py.dict_get_default d "processed_files" (VInt 0).
Proof.
  intros Hread Hloads Hfiles.
  split; [by apply (load_current self w content d)|].
  split; [|done].
  unfold __init__.
  change (manifest_path {| directory := directory self; data := [] |})
    with (manifest_path self).
  assert (Hexists : path_exists w (manifest_path self) = true).
  { unfold path_exists. unfold open_read in Hread.
    destruct (read_denied w (manifest_path self)); [done|].
    by rewrite Hread. }
  rewrite Hexists.
  by rewrite (load_current _ w content d).
Qed.

Lemma save_world self w :
  write_denied w (manifest_path self) = false ->
  (save self w).2
  = with_files (now w).2
      (<[manifest_path self := json_dumps (data (save self w).1)]> (files w)).
Proof.
  intros Hw. rewrite save_data. unfold save, save_ops. simpl.
  rewrite manifest_path_with_data, Hw. simpl.
  unfold with_files. simpl. by rewrite alter_insert_eq.
Qed.

Lemma reopen_after_save self w :
  write_denied w (manifest_path self) = false ->
  read_denied w (manifest_path self) = false ->
  json_loads (json_dumps (data (save self w).1))
    = Some (VDict (data (save self w).1)) ->
  (forall l, Py.dict_get (data self) "files" <> Some (VList l)) ->
  __init__ (directory self) (save self w).2
  = (Ok (save self w).1, (save self w).2).
Proof.
  intros Hw Hr Hcodec Hfiles.
  set (self1 := (save self w).1) in *. set (w1 := (save self w).2).
  assert (Hdisk : files w1 !! manifest_path self
                  = Some (json_dumps (data self1))).
  { unfold w1. rewrite save_world by done. simpl. apply lookup_insert_eq. }
  assert (Hdenied : read_denied w1 = read_denied w).
  { unfold w1. by rewrite save_world. }
  assert (Hself : self1 = with_data self (data self1)).
  { unfold self1. by rewrite save_self. }
  unfold __init__.
  change (manifest_path {| directory := directory self; data := [] |})
    with (manifest_path self).
  unfold path_exists. rewrite Hdisk.
  rewrite (load_current _ w1 (json_dumps (data self1)) (data self1)).
  - by rewrite Hself at 2.
  - unfold open_read.
    change (manifest_path {| directory := directory self; data := [] |})
      with (manifest_path self).
    by rewrite Hdenied, Hr, Hdisk.
  - done.
  - intros l. unfold self1. rewrite save_data.
    rewrite dict_get_set_ne by done. apply Hfiles.
Qed.

(** X4. What [save] has written, the constructor reads back: when the
    operating system lets the ledger file be written and read, the JSON
    codec reads its own output, and [files] is not a list, a manager built
    on the directory after a [save] holds exactly the saved document, and
    building it changes nothing; that document is the one the manager held,
    with [updated_at] set to the time of the [save]. *)
Theorem save_then_reopen self w :
  write_denied w (manifest_path self) = false ->
  read_denied w (manifest_path self) = false ->
  json_loads (json_dumps (data (save self w).1))
    = Some (VDict (data (save self w).1)) ->
  (forall l, Py.dict_get (data self) "files" <> Some (VList l)) ->
  __init__ (directory self) (save self w).2
  = (Ok (save self w).1, (save self w).2)
  /\ updated_at (save self w).1 = VStr (clock w (ticks w))
  /\ (forall k, k <> "updated_at" ->
        Py.dict_get (data (save self w).1) k = Py.dict_get (data self) k)
  /\ has_manifest (directory self) (save self w).2 = true.
Proof.
  intros Hw Hr Hcodec Hfiles.
  split; [by apply reopen_after_save|].
  split.
  { unfold updated_at, Py.dict_get_default. rewrite save_data.
    by rewrite dict_get_set_eq. }
  split.
  { intros k Hk. rewrite save_data. by apply dict_get_set_ne. }
  unfold has_manifest, path_exists.
  change (directory self +:+ "/" +:+ MANIFEST_FILENAME)
    with (manifest_path self).
  rewrite save_world by done. simpl. by rewrite lookup_insert_eq.
Qed.

End Persistence.

Section LifeCycle.
Context `{Json}.

(** X3. Migrating is done once: whenever the migration of a list-shaped
    ledger succeeds, the ledger it leaves is no longer list-shaped, and
    migrating it again returns it as it is, without saving and without
    reading the clock. *)
Theorem migration_is_idempotent self w l self' w' :
  Py.dict_get (data self) "files" = Some (VList l) ->
  _migrate_old_format self w = (Ok self', w') ->
  (exists new_files, Py.dict_get (data self') "files" = Some (VDict new_files))
  /\ forall w2, _migrate_old_format self' w2 = (Ok self', w2).
Proof.
  intros Hfiles. unfold _migrate_old_format at 1.
  unfold Py.dict_get_default at 1. rewrite Hfiles.
  destruct (for_each _ [] l) as [new_files|]; [|done].
  destruct (migrate_fields (data self) new_files) as [d|] eqn:Hfields;
    [|done].
  pose proof (save_data (with_data self d) w) as Hdata.
  destruct (save (with_data self d) w) as [saved w1]. simpl in Hdata.
  intros [= <- <-].
  assert (Hnew : Py.dict_get (data saved) "files" = Some (VDict new_files)).
  { rewrite Hdata, dict_get_set_ne by done.
    by apply migrate_fields_files in Hfields. }
  split; [by exists new_files|].
  intros w2. unfold _migrate_old_format, Py.dict_get_default.
  by rewrite Hnew.
Qed.

Lemma status_after_save self s w :
  status (save (set_status self s) w).1 = VStr s.
Proof.
  unfold status, Py.dict_get_default. rewrite save_data. simpl.
  rewrite dict_get_set_ne by done. by rewrite dict_get_set_eq.
Qed.

(** X5. A batch that was started and not completed stays resumable: after
    [start_processing] (the ledger file writable and readable, the codec
    reading its own output), a manager built later on the directory is in
    progress and not completed, and a quick re-rate of the directory is
    refused with [ValueError] and changes nothing. *)
Theorem started_batch_is_not_rerated self w :
  write_denied w (manifest_path self) = false ->
  read_denied w (manifest_path self) = false ->
  json_loads (json_dumps (data (start_processing self w).1))
    = Some (VDict (data (start_processing self w).1)) ->
  (forall l, Py.dict_get (data self) "files" <> Some (VList l)) ->
  let reopened := (start_processing self w).1 in
  let w1 := (start_processing self w).2 in
  __init__ (directory self) w1 = (Ok reopened, w1)
  /\ is_in_progress reopened = true
  /\ is_completed reopened = false
  /\ forall new_thresholds qw aw,
       quick_rerate (directory self) new_thresholds qw aw w1
       = (Raise (ValueError "目录未完成处理，无法快速重评星"), w1).
Proof.
  intros Hw Hr Hcodec Hfiles reopened w1.
  assert (Hinit : __init__ (directory self) w1 = (Ok reopened, w1)).
  { apply (reopen_after_save (set_status self "in_progress") w); try done.
    intros l. simpl. rewrite dict_get_set_ne by done. apply Hfiles. }
  assert (Hstatus : status reopened = VStr "in_progress")
    by apply status_after_save.
  split; [done|].
  unfold is_in_progress, is_completed. rewrite Hstatus.
  split; [done|]. split; [done|].
  intros ths qw aw. unfold quick_rerate, quick_rerate_run.
  change (directory self) with (directory (set_status self "in_progress"))
    in Hinit.
  simpl in Hinit. rewrite Hinit. unfold is_completed. by rewrite Hstatus.
Qed.

(** X6. A completed batch is seen as completed by the next run: after
    [complete_processing] (same conditions), a manager built later on the
    directory is the one that was saved, and it is completed. *)
Theorem completed_batch_is_seen_completed self w :
  write_denied w (manifest_path self) = false ->
  read_denied w (manifest_path self) = false ->
  json_loads (json_dumps (data (complete_processing self w).1))
    = Some (VDict (data (complete_processing self w).1)) ->
  (forall l, Py.dict_get (data self) "files" <> Some (VList l)) ->
  let reopened := (complete_processing self w).1 in
  let w1 := (complete_processing self w).2 in
  __init__ (directory self) w1 = (Ok reopened, w1)
  /\ is_completed reopened = true
  /\ is_in_progress reopened = false
  /\ files_of (data reopened) = files_of (data self).
Proof.
  intros Hw Hr Hcodec Hfiles reopened w1.
  assert (Hinit : __init__ (directory self) w1 = (Ok reopened, w1)).
  { apply (reopen_after_save (set_status self "completed") w); try done.
    intros l. simpl. rewrite dict_get_set_ne by done. apply Hfiles. }
  assert (Hstatus : status reopened = VStr "completed")
    by apply status_after_save.
  split; [done|].
  unfold is_in_progress, is_completed. rewrite Hstatus.
  split; [done|]. split; [done|].
  unfold reopened, complete_processing. rewrite save_data. simpl.
  by rewrite !files_of_set_other by done.
Qed.

(** X7. [delete] on a directory that has a ledger file removes that file
    and nothing else, and resets the manager to a fresh empty ledger with
    the status [new]; on a directory that has none it does nothing at all,
    so whatever the manager holds in memory stays. *)
Theorem delete_resets_only_when_persisted self w :
  (path_exists w (manifest_path self) = true ->
   exists fresh w',
     ManifestManager_delete false self w = Some (fresh, w')
     /\ has_manifest (directory self) w' = false
     /\ status fresh = VStr "new"
     /\ files_of (data fresh) = []
     /\ processed_count fresh = VInt 0
     /\ forall p, p <> manifest_path self -> files w' !! p = files w !! p)
  /\ (path_exists w (manifest_path self) = false ->
      forall refused, ManifestManager_delete refused self w = Some (self, w)).
Proof.
  split.
  - intros Hex. unfold ManifestManager_delete. rewrite Hex.
    set (w0 := with_files w (delete (manifest_path self) (files w))).
    exists (_init_new_manifest self w0).1, (_init_new_manifest self w0).2.
    split; [by destruct (_init_new_manifest self w0)|].
    split; [|split; [done|split; [done|split; [done|]]]].
    + unfold has_manifest, path_exists. simpl.
      change (directory self +:+ "/" +:+ MANIFEST_FILENAME)
        with (manifest_path self).
      by rewrite lookup_delete_eq.
    + intros p Hp. simpl. by rewrite lookup_delete_ne.
  - intros Hno refused. unfold ManifestManager_delete. by rewrite Hno.
Qed.

End LifeCycle.

(** Concrete instances of the statements above. *)

Lemma load_handles_decode_and_io_errors_only_witness :
  (exists fresh w',
     @load Demo.demo_json Demo.fresh Demo.garbled_world
     = (Ok (false, fresh), w')
     /\ status fresh = VStr "new"
     /\ files w' = files Demo.garbled_world)
  /\ @__init__ Demo.demo_json "/photos" Demo.binary_world
     = (Raise UnicodeDecodeError, Demo.binary_world).
Proof.
  split.
  - destruct (@load_handles_decode_and_io_errors_only Demo.demo_json
                Demo.fresh Demo.garbled_world) as [Hfresh _].
    destruct Hfresh as (fresh & w' & Hload & Hstatus & _ & _ & _ & Hfiles).
    + right. exists (String.list_byte_of_string "{{").
      split; [vm_compute; reflexivity|]. split; reflexivity.
    + exists fresh, w'. split; [exact Hload|].
      split; [exact Hstatus | exact Hfiles].
  - destruct (@load_handles_decode_and_io_errors_only Demo.demo_json
                Demo.fresh Demo.binary_world) as [_ Hraise].
    destruct (Hraise [Byte.xff] UnicodeDecodeError) as [_ Hinit].
    + vm_compute. reflexivity.
    + reflexivity.
    + reflexivity.
    + exact Hinit.
Defined.

Lemma load_keeps_current_ledger_witness :
  @load Demo.demo_json Demo.fresh Demo.completed_world
  = (Ok (true, with_data Demo.fresh Demo.completed_doc),
     Demo.completed_world).
Proof.
  destruct (@load_keeps_current_ledger Demo.demo_json Demo.fresh
              Demo.completed_world Demo.completed_bytes Demo.completed_doc)
    as [Hload _].
  - vm_compute. reflexivity.
  - vm_compute. reflexivity.
  - intros l. vm_compute. discriminate.
  - exact Hload.
Defined.

Lemma migration_is_idempotent_witness :
  exists self' w',
    @_migrate_old_format Demo.demo_json
      (with_data Demo.fresh Demo.legacy_doc) Demo.legacy_world
    = (Ok self', w')
    /\ (exists new_files,
          Py.dict_get (data self') "files" = Some (VDict new_files))
    /\ forall w2, @_migrate_old_format Demo.demo_json self' w2
                  = (Ok self', w2).
Proof.
  assert (Hfiles : Py.dict_get (data (with_data Demo.fresh Demo.legacy_doc))
                     "files" = Some (VList Demo.legacy_entries))
    by reflexivity.
  assert (Hok : legacy_ok (data (with_data Demo.fresh Demo.legacy_doc))
                = true) by reflexivity.
  destruct (@migrate_old_format_ok Demo.demo_json _ Demo.legacy_world _
              Hfiles Hok) as (new_files & d' & Hmig & _).
  eexists _, _. split; [exact Hmig|].
  exact (@migration_is_idempotent Demo.demo_json _ Demo.legacy_world _ _ _
           Hfiles Hmig).
Defined.

Lemma save_then_reopen_witness :
  @__init__ (Memo.memo_json Memo.saved_doc) (directory Demo.fresh)
    (@save (Memo.memo_json Memo.saved_doc) Demo.fresh Demo.world0).2
  = (Ok (@save (Memo.memo_json Memo.saved_doc) Demo.fresh Demo.world0).1,
     (@save (Memo.memo_json Memo.saved_doc) Demo.fresh Demo.world0).2).
Proof.
  destruct (@save_then_reopen (Memo.memo_json Memo.saved_doc) Demo.fresh
              Demo.world0) as [Hreopen _].
  - reflexivity.
  - reflexivity.
  - vm_compute. reflexivity.
  - intros l. vm_compute. discriminate.
  - exact Hreopen.
Defined.

Lemma started_batch_is_not_rerated_witness :
  let J := Memo.memo_json Memo.in_progress_doc in
  let w1 := (@start_processing J Demo.fresh Demo.world0).2 in
  is_in_progress (@start_processing J Demo.fresh Demo.world0).1 = true
  /\ @quick_rerate J "/photos"
       (PyFloat.dec 850 1, PyFloat.dec 800 1, PyFloat.dec 750 1,
        PyFloat.dec 700 1) (PyFloat.dec 5 1) (PyFloat.dec 5 1) w1
     = (Raise (ValueError "目录未完成处理，无法快速重评星"), w1).
Proof.
  intros J w1.
  destruct (@started_batch_is_not_rerated J Demo.fresh Demo.world0)
    as (_ & Hprogress & _ & Hrefused).
  - reflexivity.
  - reflexivity.
  - vm_compute. reflexivity.
  - intros l. vm_compute. discriminate.
  - split; [exact Hprogress|]. apply Hrefused.
Defined.

Lemma completed_batch_is_seen_completed_witness :
  let J := Memo.memo_json Memo.completed_doc in
  @__init__ J "/photos" (@complete_processing J Demo.fresh Demo.world0).2
  = (Ok (@complete_processing J Demo.fresh Demo.world0).1,
     (@complete_processing J Demo.fresh Demo.world0).2)
  /\ is_completed (@complete_processing J Demo.fresh Demo.world0).1 = true.
Proof.
  intros J.
  destruct (@completed_batch_is_seen_completed J Demo.fresh Demo.world0)
    as (Hinit & Hcompleted & _).
  - reflexivity.
  - reflexivity.
  - vm_compute. reflexivity.
  - intros l. vm_compute. discriminate.
  - split; [exact Hinit | exact Hcompleted].
Defined.

Lemma delete_resets_only_when_persisted_witness :
  (exists fresh w',
     ManifestManager_delete false Demo.fresh Demo.persisted
     = Some (fresh, w')
     /\ has_manifest "/photos" w' = false
     /\ files w' !! "/photos/a.jpg" = Some Demo.photo)
  /\ ManifestManager_delete true Demo.once.1 Demo.demo_world
     = Some (Demo.once.1, Demo.demo_world).
Proof.
  split.
  - destruct (delete_resets_only_when_persisted Demo.fresh Demo.persisted)
      as [Hyes _].
    destruct Hyes as (fresh & w' & Hdelete & Hgone & _ & _ & _ & Hothers);
      [vm_compute; reflexivity|].
    exists fresh, w'. split; [exact Hdelete|]. split; [exact Hgone|].
    rewrite Hothers; [vm_compute; reflexivity | discriminate].
  - destruct (delete_resets_only_when_persisted Demo.once.1 Demo.demo_world)
      as [_ Hno].
    apply Hno. vm_compute. reflexivity.
Defined.

(* ===================================================================== *)
(** ** Beyond the claims: recording results and reading them back *)
(* ===================================================================== *)

Section Recording.
Context `{Hashlib}.

(** [is_file_processed] on a ledger whose [files] is a mapping: it looks at
    the record of the filename and at nothing else. *)
Lemma is_file_processed_unfold self filename file_path w fs :
  Py.dict_get (data self) "files" = Some (VDict fs) ->
  is_file_processed self filename file_path w
  = match Py.dict_get fs filename with
    | None => Ok false
    | Some file_info =>
        stored_hash ← Py.get file_info "hash" (VStr "");
        if negb (Py.truthy stored_hash) then Ok false
        else Ok (Py.eq_str stored_hash (calculate_file_hash file_path w))
    end.
Proof.
  intros Hf. unfold is_file_processed, Py.dict_get_default. rewrite Hf.
  unfold_bind. simpl. unfold Py.dict_mem. rewrite Hf.
  unfold Py.subscript. by destruct (Py.dict_get fs filename).
Qed.

Lemma get_file_scores_unfold self filename fs :
  Py.dict_get (data self) "files" = Some (VDict fs) ->
  get_file_scores self filename
  = match Py.dict_get fs filename with
    | None => Ok None
    | Some file_info =>
        quality ← Py.get file_info "quality" (VInt 0);
        aesthetic ← Py.get file_info "aesthetic" (VInt 0);
        total ← Py.get file_info "total" (VInt 0);
        rating ← Py.get file_info "rating" (VInt 0);
        Ok (Some [ ("quality", quality);
                   ("aesthetic", aesthetic);
                   ("total", total);
                   ("rating", rating) ])
    end.
Proof.
  intros Hf. unfold get_file_scores, Py.dict_get_default. rewrite Hf.
  unfold_bind. simpl. unfold Py.dict_mem. rewrite Hf.
  unfold Py.subscript. by destruct (Py.dict_get fs filename).
Qed.

Lemma add_file_result_files self filename file_path quality aesthetic total
    rating w fs :
  Py.dict_get (data self) "files" = Some (VDict fs) ->
  exists self',
    add_file_result self filename file_path quality aesthetic total rating w
      = (Ok self', (now w).2)
    /\ Py.dict_get (data self') "files"
       = Some (VDict (Py.dict_set fs filename
                        (VDict (stored_record file_path quality aesthetic
                                  total rating w (clock w (ticks w))))))
    /\ Py.dict_get (data self') "processed_files"
       = Some (VInt (Py.len (Py.dict_set fs filename
                        (VDict (stored_record file_path quality aesthetic
                                  total rating w (clock w (ticks w)))))))
    /\ forall k, k <> "files" -> k <> "processed_files" ->
                 Py.dict_get (data self') k = Py.dict_get (data self) k.
Proof.
  intros Hf. eexists. split; [by apply add_file_result_ok|]. simpl.
  split; [|split].
  - rewrite dict_get_set_ne by done. apply dict_get_set_eq.
  - apply dict_get_set_eq.
  - intros k Hk1 Hk2. by rewrite !dict_get_set_ne.
Qed.

(** X8. The bookkeeping of an upsert. On a ledger whose [files] is a
    mapping, [add_file_result] succeeds without touching the disk and leaves
    [processed_files] equal to the number of records. A filename that was
    not tracked is appended after the others and the count grows by one; a
    tracked one keeps its place and the count stays. The records of the
    other filenames and the other fields of the ledger are untouched. *)
Theorem add_file_result_bookkeeping self filename file_path quality
    aesthetic total rating w fs :
  Py.dict_get (data self) "files" = Some (VDict fs) ->
  exists self',
    add_file_result self filename file_path quality aesthetic total rating w
      = (Ok self', (now w).2)
    /\ files (now w).2 = files w
    /\ processed_count self' = VInt (Py.len (files_of (data self')))
    /\ Py.dict_keys (files_of (data self'))
       = (if Py.dict_mem filename fs then Py.dict_keys fs
          else Py.dict_keys fs ++ [filename])
    /\ Py.len (files_of (data self'))
       = (if Py.dict_mem filename fs then Py.len fs else Py.len fs + 1)
    /\ (NoDup (Py.dict_keys fs) ->
        NoDup (Py.dict_keys (files_of (data self'))))
    /\ (forall other, other <> filename ->
          record_of (data self') other = record_of (data self) other)
    /\ (forall k, k <> "files" -> k <> "processed_files" ->
          Py.dict_get (data self') k = Py.dict_get (data self) k).
Proof.
  intros Hf.
  destruct (add_file_result_files self filename file_path quality aesthetic
              total rating w fs Hf) as (self' & Hadd & Hf' & Hp' & Hrest).
  exists self'. split; [exact Hadd|]. split; [done|].
  unfold processed_count, Py.dict_get_default, record_of, files_of.
  rewrite Hf', Hp', Hf.
  split; [done|]. split; [apply dict_keys_set|].
  split.
  { unfold Py.len. rewrite dict_set_length.
    destruct (Py.dict_mem filename fs); lia. }
  split; [apply dict_set_NoDup|].
  split; [|exact Hrest].
  intros other Hne. by apply dict_get_set_ne.
Qed.

(** X9. A ledger document without a [files] field cannot record anything:
    every file is reported as not processed, and [add_file_result] raises
    [KeyError] (after the clock has been read). When [files] is there but is
    not a mapping, [add_file_result] raises [TypeError]. *)
Theorem add_file_result_needs_files_mapping self filename file_path quality
    aesthetic total rating w :
  (Py.dict_get (data self) "files" = None ->
   is_file_processed self filename file_path w = Ok false
   /\ add_file_result self filename file_path quality aesthetic total
        rating w = (Raise KeyError, (now w).2))
  /\ (forall v, Py.dict_get (data self) "files" = Some v ->
        is_dict v = false ->
        add_file_result self filename file_path quality aesthetic total
          rating w = (Raise TypeError, (now w).2)).
Proof.
  split.
  - intros Hf. split.
    + unfold is_file_processed, Py.dict_get_default. by rewrite Hf.
    + unfold add_file_result. simpl. by rewrite Hf.
  - intros v Hf Hv. unfold add_file_result. simpl. rewrite Hf.
    by destruct v.
Qed.

(** X10. What an upsert buys. After [add_file_result] has recorded a file,
    [is_file_processed] answers, in any later state of the disk, whether
    the fingerprint taken at the upsert was not empty and is the fingerprint
    the path has now. So a file recorded while it could not be read is never
    reported as processed. The answer for the other filenames is what it was
    before the upsert. *)
Theorem upsert_then_is_file_processed self filename file_path quality
    aesthetic total rating w fs :
  Py.dict_get (data self) "files" = Some (VDict fs) ->
  exists self',
    add_file_result self filename file_path quality aesthetic total rating w
      = (Ok self', (now w).2)
    /\ (forall path' w',
          is_file_processed self' filename path' w'
          = Ok (negb (String.eqb (calculate_file_hash file_path w) "")
                && String.eqb (calculate_file_hash file_path w)
                     (calculate_file_hash path' w')))
    /\ (open_read w file_path = None ->
        forall path' w', is_file_processed self' filename path' w' = Ok false)
    /\ (forall other path' w', other <> filename ->
          is_file_processed self' other path' w'
          = is_file_processed self other path' w').
Proof.
  intros Hf.
  destruct (add_file_result_files self filename file_path quality aesthetic
              total rating w fs Hf) as (self' & Hadd & Hf' & _).
  exists self'. split; [exact Hadd|].
  assert (Hown : forall path' w',
            is_file_processed self' filename path' w'
            = Ok (negb (String.eqb (calculate_file_hash file_path w) "")
                  && String.eqb (calculate_file_hash file_path w)
                       (calculate_file_hash path' w'))).
  { intros path' w'.
    rewrite (is_file_processed_unfold _ _ _ _ _ Hf'), dict_get_set_eq.
    simpl. by destruct (String.eqb (calculate_file_hash file_path w) ""). }
  split; [exact Hown|]. split.
  - intros Hread path' w'. rewrite Hown. unfold calculate_file_hash at 1.
    by rewrite Hread.
  - intros other path' w' Hne.
    rewrite (is_file_processed_unfold _ _ _ _ _ Hf'),
      (is_file_processed_unfold _ _ _ _ _ Hf).
    by rewrite dict_get_set_ne.
Qed.

(** X11. Scores are read back as they were recorded. After an upsert,
    [get_file_scores] returns for the filename the quality, aesthetic and
    total that were passed, rounded to two decimals, and the rating, and for
    any other filename what it returned before; for a filename the ledger
    does not track it returns [None]. *)
Theorem get_file_scores_after_upsert self filename file_path quality
    aesthetic total rating w fs :
  Py.dict_get (data self) "files" = Some (VDict fs) ->
  exists self',
    add_file_result self filename file_path quality aesthetic total rating w
      = (Ok self', (now w).2)
    /\ get_file_scores self' filename
       = Ok (Some [ ("quality", VFloat (PyFloat.round2 quality));
                    ("aesthetic", VFloat (PyFloat.round2 aesthetic));
                    ("total", VFloat (PyFloat.round2 total));
                    ("rating", VInt rating) ])
    /\ (forall other, other <> filename ->
          get_file_scores self' other = get_file_scores self other)
    /\ (forall other, Py.dict_mem other fs = false ->
          get_file_scores self other = Ok None).
Proof.
  intros Hf.
  destruct (add_file_result_files self filename file_path quality aesthetic
              total rating w fs Hf) as (self' & Hadd & Hf' & _).
  exists self'. split; [exact Hadd|]. split; [|split].
  - by rewrite (get_file_scores_unfold _ _ _ Hf'), dict_get_set_eq.
  - intros other Hne.
    rewrite (get_file_scores_unfold _ _ _ Hf'),
      (get_file_scores_unfold _ _ _ Hf).
    by rewrite dict_get_set_ne.
  - intros other Hmem. rewrite (get_file_scores_unfold _ _ _ Hf).
    unfold Py.dict_mem in Hmem. by destruct (Py.dict_get fs other).
Qed.

(** X12. Re-rating a file does not make it pending, nor processed: when
    [update_file_rating] succeeds, [is_file_processed] answers for every
    filename and every state of the disk what it answered before, and
    [processed_files] and the list of filenames are unchanged. For a
    filename the ledger does not track, nothing changes at all and the clock
    is not read. *)
Theorem update_file_rating_keeps_fingerprints self filename new_rating w
    self' w' :
  update_file_rating self filename new_rating w = (Ok self', w') ->
  (forall name path w2,
      is_file_processed self' name path w2
      = is_file_processed self name path w2)
  /\ processed_count self' = processed_count self
  /\ Py.dict_keys (files_of (data self'))
     = Py.dict_keys (files_of (data self))
  /\ files w' = files w
  /\ (record_of (data self) filename = None -> self' = self /\ w' = w).
Proof.
  intros Hup.
  destruct (update_file_rating_ok _ _ _ _ _ _ Hup)
    as [[-> ->]|(fs & r & Hfs & Hrec & -> & ->)]; [done|].
  set (r' := Py.dict_set (Py.dict_set r "rating" (VInt new_rating))
               "processed_at" (VStr (clock w (ticks w)))).
  assert (Hfs' : Py.dict_get
                   (Py.dict_set (data self) "files"
                      (VDict (Py.dict_set fs filename (VDict r'))))
                   "files"
                 = Some (VDict (Py.dict_set fs filename (VDict r'))))
    by apply dict_get_set_eq.
  split; [|split; [|split; [|split]]].
  - intros name path w2.
    rewrite (is_file_processed_unfold _ _ _ _ _ Hfs).
    rewrite (is_file_processed_unfold
               (with_data self _) _ _ _ _ Hfs').
    destruct (decide (name = filename)) as [->|Hne].
    + rewrite dict_get_set_eq, Hrec. simpl.
      unfold Py.dict_get_default, r'. by rewrite !dict_get_set_ne by done.
    + by rewrite dict_get_set_ne.
  - unfold processed_count, Py.dict_get_default. simpl.
    by rewrite dict_get_set_ne.
  - simpl. rewrite files_of_set_files. unfold files_of. rewrite Hfs.
    rewrite dict_keys_set. unfold Py.dict_mem. by rewrite Hrec.
  - done.
  - unfold record_of, files_of. rewrite Hfs, Hrec. done.
Qed.

End Recording.

Lemma add_file_result_bookkeeping_witness :
  exists self',
    Demo.upsert_a Demo.fresh Demo.world0 = (Ok self', (now Demo.world0).2)
    /\ processed_count self' = VInt 1
    /\ Py.dict_keys (files_of (data self')) = ["a.jpg"].
Proof.
  destruct (@add_file_result_bookkeeping Demo.demo_hashlib Demo.fresh "a.jpg"
              "/photos/a.jpg" Demo.q80_02 Demo.a70 Demo.total_80_02_70 3
              Demo.world0 [] eq_refl)
    as (self' & Hadd & _ & Hcount & Hkeys & Hlen & _).
  exists self'. split; [exact Hadd|]. split; [|exact Hkeys].
  rewrite Hcount, Hlen. reflexivity.
Defined.

Lemma add_file_result_needs_files_mapping_witness :
  @add_file_result Demo.demo_hashlib {| directory := "/photos"; data := [] |}
    "a.jpg" "/photos/a.jpg" Demo.q80_02 Demo.a70 Demo.total_80_02_70 3
    Demo.world0 = (Raise KeyError, (now Demo.world0).2)
  /\ @add_file_result Demo.demo_hashlib
       {| directory := "/photos"; data := Demo.legacy_doc |}
       "a.jpg" "/photos/a.jpg" Demo.q80_02 Demo.a70 Demo.total_80_02_70 3
       Demo.world0 = (Raise TypeError, (now Demo.world0).2).
Proof.
  split.
  - destruct (@add_file_result_needs_files_mapping Demo.demo_hashlib
                {| directory := "/photos"; data := [] |}
                "a.jpg" "/photos/a.jpg" Demo.q80_02 Demo.a70
                Demo.total_80_02_70 3 Demo.world0) as [Hmissing _].
    apply Hmissing. reflexivity.
  - destruct (@add_file_result_needs_files_mapping Demo.demo_hashlib
                {| directory := "/photos"; data := Demo.legacy_doc |}
                "a.jpg" "/photos/a.jpg" Demo.q80_02 Demo.a70
                Demo.total_80_02_70 3 Demo.world0) as [_ Hother].
    apply (Hother (VList Demo.legacy_entries)); reflexivity.
Defined.

Lemma upsert_then_is_file_processed_witness :
  exists self',
    Demo.upsert_a Demo.fresh Demo.world0 = (Ok self', (now Demo.world0).2)
    /\ @is_file_processed Demo.demo_hashlib self' "a.jpg" "/photos/a.jpg"
         (now Demo.world0).2 = Ok true
    /\ @is_file_processed Demo.demo_hashlib self' "b.jpg" "/photos/b.jpg"
         (now Demo.world0).2 = Ok false.
Proof.
  destruct (@upsert_then_is_file_processed Demo.demo_hashlib Demo.fresh
              "a.jpg" "/photos/a.jpg" Demo.q80_02 Demo.a70
              Demo.total_80_02_70 3 Demo.world0 [] eq_refl)
    as (self' & Hadd & Hown & _ & Hothers).
  exists self'. split; [exact Hadd|]. split.
  - rewrite Hown. vm_compute. reflexivity.
  - rewrite Hothers by discriminate. vm_compute. reflexivity.
Defined.

Lemma get_file_scores_after_upsert_witness :
  exists self',
    Demo.upsert_a Demo.fresh Demo.world0 = (Ok self', (now Demo.world0).2)
    /\ get_file_scores self' "a.jpg"
       = Ok (Some [ ("quality", VFloat (PyFloat.round2 Demo.q80_02));
                    ("aesthetic", VFloat (PyFloat.round2 Demo.a70));
                    ("total",
                     VFloat (PyFloat.round2 Demo.total_80_02_70));
                    ("rating", VInt 3) ])
    /\ get_file_scores self' "b.jpg" = Ok None.
Proof.
  destruct (@get_file_scores_after_upsert Demo.demo_hashlib Demo.fresh
              "a.jpg" "/photos/a.jpg" Demo.q80_02 Demo.a70
              Demo.total_80_02_70 3 Demo.world0 [] eq_refl)
    as (self' & Hadd & Hown & Hothers & Hnone).
  exists self'. split; [exact Hadd|]. split; [exact Hown|].
  rewrite Hothers by discriminate. apply Hnone. reflexivity.
Defined.

Lemma update_file_rating_keeps_fingerprints_witness :
  let r := update_file_rating Demo.once.1 "a.jpg" 4 Demo.once.2 in
  r = (Ok (Demo.after r).1, (Demo.after r).2)
  /\ field_of (data (Demo.after r).1) "a.jpg" "rating" = Some (VInt 4)
  /\ @is_file_processed Demo.demo_hashlib (Demo.after r).1 "a.jpg"
       "/photos/a.jpg" Demo.once.2 = Ok true.
Proof.
  intros r.
  assert (Hup : r = (Ok (Demo.after r).1, (Demo.after r).2))
    by reflexivity.
  split; [exact Hup|]. split; [vm_compute; reflexivity|].
  destruct (@update_file_rating_keeps_fingerprints Demo.demo_hashlib
              Demo.once.1 "a.jpg" 4 Demo.once.2 _ _ Hup) as [Hsame _].
  rewrite Hsame. vm_compute. reflexivity.
Defined.

(* ===================================================================== *)
(** ** Beyond the claims: the cached scores and the quick re-rate *)
(* ===================================================================== *)

Lemma dict_set_fresh (d : dict) k v :
  Py.dict_get d k = None -> Py.dict_set d k v = d ++ [(k, v)].
Proof.
  induction d as [|[k0 v0] d IH]; simpl; [done|].
  destruct (String.eqb k k0); [done|]. intros Hg. by rewrite IH.
Qed.

Lemma dict_get_app_fresh (d : dict) k v k' :
  Py.dict_get d k' = None ->
  Py.dict_get (d ++ [(k, v)]) k' = if String.eqb k' k then Some v else None.
Proof.
  induction d as [|[k0 v0] d IH]; simpl; [done|].
  destruct (String.eqb k' k0); [done|]. apply IH.
Qed.

Lemma cached_scores_loop (fs acc : dict) :
  forallb (fun kv => is_dict kv.2) fs = true ->
  NoDup (Py.dict_keys acc ++ Py.dict_keys fs) ->
  for_each
    (fun acc '(filename, info) =>
       quality ← Py.get info "quality" (VInt 0);
       aesthetic ← Py.get info "aesthetic" (VInt 0);
       total ← Py.get info "total" (VInt 0);
       rating ← Py.get info "rating" (VInt 0);
       Ok (Py.dict_set acc filename
             (VDict [ ("quality", quality);
                      ("aesthetic", aesthetic);
                      ("total", total);
                      ("rating", rating) ])))
    acc fs
  = Ok (acc ++ map (fun kv => (kv.1, VDict (scores_of kv.2))) fs).
Proof.
  revert acc. induction fs as [|[filename info] fs IH]; intros acc Hok Hnd.
  - simpl. by rewrite app_nil_r.
  - simpl in Hok. apply andb_true_iff in Hok as [Hinfo Hok].
    destruct info; try done. simpl.
    assert (Hfresh : Py.dict_get acc filename = None).
    { apply dict_get_None. intros Hin.
      apply NoDup_app in Hnd as (_ & Hdisj & _).
      apply (Hdisj filename); [by apply list_elem_of_In|]. simpl. left. }
    rewrite (dict_set_fresh _ _ _ Hfresh).
    rewrite IH; [by rewrite <- app_assoc|done|].
    unfold Py.dict_keys in *. rewrite map_app. simpl.
    by rewrite <- app_assoc.
Qed.

(** X13. The two readers of the cached scores agree. On a ledger whose
    records are mappings, [get_all_cached_scores] returns one entry per
    record, in the order of the ledger, holding the record's quality,
    aesthetic, total and rating (0 for a field the record lacks), and
    [get_file_scores] returns for a filename exactly the entry
    [get_all_cached_scores] has for it, and [None] when it has none. *)
Theorem cached_scores_agree self :
  ledger_ok (data self) = true ->
  NoDup (Py.dict_keys (files_of (data self))) ->
  get_all_cached_scores self
    = Ok (map (fun kv => (kv.1, VDict (scores_of kv.2)))
            (files_of (data self)))
  /\ forall filename,
       get_file_scores self filename
       = Ok (scores_of <$> record_of (data self) filename).
Proof.
  intros Hok Hnd. unfold ledger_ok in Hok.
  unfold get_all_cached_scores, record_of, files_of, Py.dict_get_default in *.
  destruct (Py.dict_get (data self) "files") as [v|] eqn:Hf.
  - destruct v as [| | | | | |fs]; try done. split.
    + by rewrite cached_scores_loop.
    + intros filename. rewrite (get_file_scores_unfold _ _ _ Hf).
      destruct (Py.dict_get fs filename) as [info|] eqn:Hinfo; [|done].
      apply dict_get_In in Hinfo. rewrite forallb_forall in Hok.
      specialize (Hok _ Hinfo). simpl in Hok. by destruct info.
  - split; [done|]. intros filename.
    unfold get_file_scores, Py.dict_get_default. by rewrite Hf.
Qed.

Lemma update_file_rating_tracked self filename new_rating w fs r :
  Py.dict_get (data self) "files" = Some (VDict fs) ->
  Py.dict_get fs filename = Some (VDict r) ->
  update_file_rating self filename new_rating w
  = (Ok (with_data self
           (Py.dict_set (data self) "files"
              (VDict (Py.dict_set fs filename
                 (VDict (Py.dict_set
                           (Py.dict_set r "rating" (VInt new_rating))
                           "processed_at" (VStr (clock w (ticks w))))))))),
     (now w).2).
Proof.
  intros Hf Hr. unfold update_file_rating, Py.dict_get_default.
  rewrite Hf. simpl. unfold Py.dict_mem. rewrite Hr.
  unfold_bind. simpl. rewrite Hf. simpl. by rewrite Hr.
Qed.

Lemma float_scores_total info q a qw aw :
  float_scores info = Some (q, a) ->
  is_dict info = true
  /\ rerate_total (VDict (scores_of info)) qw aw
     = Ok (PyFloat.add (PyFloat.mul q qw) (PyFloat.mul a aw)).
Proof.
  unfold float_scores. destruct info as [| | | | | |r]; try done.
  destruct (Py.dict_get r "quality") as [[]|] eqn:Hq; try done.
  destruct (Py.dict_get r "aesthetic") as [[]|] eqn:Ha; try done.
  intros [= <- <-]. split; [done|].
  unfold rerate_total, scores_of, Py.dict_get_default. rewrite Hq, Ha. done.
Qed.

Section Rerating.
Context `{Json}.
Variables (qw aw t4 t3 t2 t1 : float).

(** The changelist entry of a record, and the rating it is given. *)
Let rerated (q a : float) : Z :=
  new_rating_of (PyFloat.add (PyFloat.mul q qw) (PyFloat.mul a aw))
    t4 t3 t2 t1.

Let reported (kv : string * value) (entry : value) : Prop :=
  exists q a,
    float_scores kv.2 = Some (q, a)
    /\ entry =
       VDict [ ("filename", VStr kv.1);
               ("old_rating",
                Py.dict_get_default (scores_of kv.2) "rating" (VInt 0));
               ("new_rating", VInt (rerated q a));
               ("total",
                VFloat (PyFloat.round2
                          (PyFloat.add (PyFloat.mul q qw)
                             (PyFloat.mul a aw))));
               ("changed",
                VBool (negb (Py.eq_int
                               (Py.dict_get_default (scores_of kv.2)
                                  "rating" (VInt 0))
                               (rerated q a)))) ].

Let rated (d : dict) (kv : string * value) : Prop :=
  exists q a,
    float_scores kv.2 = Some (q, a)
    /\ field_of d kv.1 "rating" = Some (VInt (rerated q a)).

Lemma rerate_loop_ok (todo : dict) :
  forall manager results w cur,
    Py.dict_get (data manager) "files" = Some (VDict cur) ->
    Forall (fun kv => is_Some (float_scores kv.2)) todo ->
    Forall (fun kv => exists r, Py.dict_get cur kv.1 = Some (VDict r)) todo ->
    exists manager' added w',
      rerate_loop qw aw t4 t3 t2 t1 manager results w
        (map (fun kv => (kv.1, VDict (scores_of kv.2))) todo)
      = (Ok (manager', results ++ added), w')
      /\ Forall2 reported todo added
      /\ (NoDup (Py.dict_keys todo) -> Forall (rated (data manager')) todo)
      /\ (forall name, name ∉ Py.dict_keys todo ->
            record_of (data manager') name = record_of (data manager) name)
      /\ Py.dict_keys (files_of (data manager')) = Py.dict_keys cur
      /\ directory manager' = directory manager
      /\ (forall k, k <> "files" ->
            Py.dict_get (data manager') k = Py.dict_get (data manager) k)
      /\ files w' = files w
      /\ write_denied w' = write_denied w.
Proof.
  induction todo as [|[filename info] todo IH];
    intros manager results w cur Hcur Hscores Htracked.
  - exists manager, [], w. simpl. rewrite app_nil_r.
    unfold files_of. rewrite Hcur.
    repeat split; try done; constructor.
  - inversion Hscores as [|? ? [[q a] Hqa] Hscores']; subst.
    inversion Htracked as [|? ? [r Hr] Htracked']; subst. simpl in *.
    destruct (float_scores_total info q a qw aw Hqa) as [Hdict Htotal].
    unfold rerate_entry. unfold_bind.
    assert (Hold : Py.subscript (VDict (scores_of info)) "rating"
                   = Ok (Py.dict_get_default (scores_of info) "rating"
                           (VInt 0))).
    { destruct info; try done. }
    rewrite Hold, Htotal.
    rewrite (update_file_rating_tracked _ _ _ _ _ _ Hcur Hr).
    set (r' := Py.dict_set (Py.dict_set r "rating" (VInt _)) _ _).
    set (cur1 := Py.dict_set cur filename (VDict r')).
    set (manager1 := with_data manager _).
    assert (Hcur1 : Py.dict_get (data manager1) "files" = Some (VDict cur1))
      by apply dict_get_set_eq.
    assert (Htracked1 : Forall (fun kv => exists r,
                          Py.dict_get cur1 kv.1 = Some (VDict r)) todo).
    { eapply Forall_impl; [exact Htracked'|]. intros kv [r0 Hr0].
      unfold cur1. destruct (decide (kv.1 = filename)) as [->|Hne].
      - rewrite dict_get_set_eq. eauto.
      - rewrite dict_get_set_ne by done. eauto. }
    match goal with
    | |- context [rerate_loop _ _ _ _ _ _ manager1 ?res _ _] =>
        destruct (IH manager1 res (now w).2 cur1 Hcur1 Hscores' Htracked1)
          as (manager' & added & w' & Hloop & Hrep & Hrated & Hframe & Hkeys
              & Hdir & Hrest & Hfiles & Hdenied)
    end.
    eexists manager', (_ :: added), w'.
    split; [rewrite Hloop; by rewrite <- app_assoc|].
    split; [constructor; [by exists q, a|exact Hrep]|].
    split; [|split; [|split; [|split; [|split; [|split]]]]].
    + intros Hnd. apply NoDup_cons in Hnd as [Hnotin Hnd].
      constructor; [|by apply Hrated].
      exists q, a. split; [done|]. unfold field_of. simpl.
      rewrite (Hframe filename Hnotin).
      unfold record_of. simpl. rewrite files_of_set_files. unfold cur1.
      rewrite dict_get_set_eq. unfold r'.
      rewrite dict_get_set_ne by done. apply dict_get_set_eq.
    + intros name Hname. apply not_elem_of_cons in Hname as [Hne Hname].
      rewrite (Hframe name Hname).
      unfold record_of. simpl. rewrite files_of_set_files. unfold cur1.
      rewrite dict_get_set_ne by done. unfold files_of. by rewrite Hcur.
    + rewrite Hkeys. unfold cur1. rewrite dict_keys_set.
      unfold Py.dict_mem. by rewrite Hr.
    + done.
    + intros k Hk. rewrite (Hrest k Hk). simpl. by apply dict_get_set_ne.
    + done.
    + done.
Qed.

(** X14. What a quick re-rate returns and leaves. On a completed ledger
    whose records hold their quality and aesthetic as floats,
    [quick_rerate] succeeds. The changelist has one entry per record, in the
    order of the ledger; the entry of a record names it, gives the rating
    that was stored (0 if none), the bucket of
    [quality * qw + aesthetic * aw] as the new rating, that total rounded
    to two decimals, and whether the two ratings differ. In the ledger it
    saves, every record holds the new rating that was reported for it, the
    filenames are the same, the status is still [completed], and the
    configuration holds the new thresholds and weights; when the ledger file
    can be written, it then holds that ledger. *)
Theorem quick_rerate_changelist dir w manager w1 fs :
  __init__ dir w = (Ok manager, w1) ->
  is_completed manager = true ->
  Py.dict_get (data manager) "files" = Some (VDict fs) ->
  NoDup (Py.dict_keys fs) ->
  Forall (fun kv => is_Some (float_scores kv.2)) fs ->
  exists saved results w',
    quick_rerate_run dir (t4, t3, t2, t1) qw aw w = (Ok (saved, results), w')
    /\ quick_rerate dir (t4, t3, t2, t1) qw aw w = (Ok results, w')
    /\ Forall2 reported fs results
    /\ Forall (rated (data saved)) fs
    /\ Py.dict_keys (files_of (data saved)) = Py.dict_keys fs
    /\ is_completed saved = true
    /\ config saved
       = VDict [ ("thresholds", VList [VFloat t4; VFloat t3; VFloat t2;
                                       VFloat t1]);
                 ("quality_weight", VFloat qw);
                 ("aesthetic_weight", VFloat aw) ]
    /\ (write_denied w1 (manifest_path manager) = false ->
        files w' !! manifest_path manager = Some (json_dumps (data saved))).
Proof.
  intros Hinit Hcompleted Hf Hnd Hscores.
  assert (Hdicts : forallb (fun kv => is_dict kv.2) fs = true).
  { apply forallb_forall. intros kv Hin. rewrite Forall_forall in Hscores.
    apply list_elem_of_In in Hin. destruct (Hscores kv Hin) as [[q a] Hqa].
    by destruct (float_scores_total _ _ _ qw aw Hqa). }
  assert (Htracked : Forall (fun kv => exists r,
                        Py.dict_get fs kv.1 = Some (VDict r)) fs).
  { apply Forall_forall. intros kv Hin.
    destruct (Py.dict_get fs kv.1) as [v|] eqn:Hget.
    - apply dict_get_In in Hget. rewrite forallb_forall in Hdicts.
      specialize (Hdicts _ Hget). simpl in Hdicts. destruct v; try done.
      eauto.
    - apply dict_get_None in Hget. destruct Hget.
      apply list_elem_of_In, list_elem_of_fmap. by exists kv. }
  destruct (rerate_loop_ok fs manager [] w1 fs Hf Hscores Htracked)
    as (manager' & added & w2 & Hloop & Hrep & Hrated & _ & Hkeys & Hdir
        & Hrest & Hfiles & Hdenied).
  specialize (Hrated Hnd). simpl in Hloop.
  set (configured := set_config manager' [t4; t3; t2; t1] qw aw).
  pose proof (save_data configured w2) as Hdata.
  assert (Hrun : quick_rerate_run dir (t4, t3, t2, t1) qw aw w
                 = (Ok ((save configured w2).1, added),
                    (save configured w2).2)).
  { unfold quick_rerate_run. rewrite Hinit, Hcompleted. simpl.
    unfold get_all_cached_scores, Py.dict_get_default. rewrite Hf.
    rewrite cached_scores_loop by done. simpl. rewrite Hloop.
    fold configured. by destruct (save configured w2). }
  exists (save configured w2).1, added, (save configured w2).2.
  split; [exact Hrun|].
  split; [unfold quick_rerate; by rewrite Hrun|].
  split; [exact Hrep|].
  split.
  { eapply Forall_impl; [exact Hrated|]. intros kv (q & a & Hqa & Hfield).
    exists q, a. split; [done|]. rewrite <- Hfield.
    unfold field_of, record_of. rewrite Hdata. simpl.
    by rewrite !files_of_set_other by done. }
  split.
  { rewrite Hdata. simpl. by rewrite !files_of_set_other by done. }
  split.
  { unfold is_completed, status, Py.dict_get_default in *.
    rewrite Hdata. simpl. rewrite !dict_get_set_ne by done.
    by rewrite Hrest. }
  split.
  { unfold config, Py.dict_get_default. rewrite Hdata. simpl.
    rewrite dict_get_set_ne by done. by rewrite dict_get_set_eq. }
  intros Hw.
  assert (Hpath : manifest_path configured = manifest_path manager).
  { unfold manifest_path. simpl. by rewrite Hdir. }
  rewrite save_world by (by rewrite Hpath, Hdenied).
  simpl. rewrite Hpath. apply lookup_insert_eq.
Qed.

End Rerating.

Lemma cached_scores_agree_witness :
  get_all_cached_scores Demo.once.1
  = Ok [ ("a.jpg",
          VDict [ ("quality", VFloat (PyFloat.round2 Demo.q80_02));
                  ("aesthetic", VFloat (PyFloat.round2 Demo.a70));
                  ("total", VFloat (PyFloat.round2 Demo.total_80_02_70));
                  ("rating", VInt 3) ]) ]
  /\ get_file_scores Demo.once.1 "b.jpg" = Ok None.
Proof.
  destruct (cached_scores_agree Demo.once.1) as [Hall Hone].
  - reflexivity.
  - apply (bool_decide_unpack _). vm_compute. exact I.
  - split; [rewrite Hall; reflexivity|]. rewrite Hone. reflexivity.
Defined.

Lemma quick_rerate_changelist_witness :
  exists results w',
    @quick_rerate Demo.demo_json "/photos"
      (PyFloat.dec 850 1, PyFloat.dec 800 1, PyFloat.dec 750 1,
       PyFloat.dec 700 1)
      (PyFloat.dec 5 1) (PyFloat.dec 5 1) Demo.completed_world
    = (Ok results, w')
    /\ length results = 1%nat.
Proof.
  destruct (@quick_rerate_changelist Demo.demo_json
              (PyFloat.dec 5 1) (PyFloat.dec 5 1)
              (PyFloat.dec 850 1) (PyFloat.dec 800 1) (PyFloat.dec 750 1)
              (PyFloat.dec 700 1)
              "/photos" Demo.completed_world
              (with_data Demo.fresh Demo.completed_doc) Demo.completed_world
              (files_of Demo.completed_doc))
    as (saved & results & w' & _ & Hquick & Hreported & _).
  - vm_compute. reflexivity.
  - reflexivity.
  - reflexivity.
  - apply (bool_decide_unpack _). vm_compute. exact I.
  - constructor; [|constructor]. vm_compute. eexists. reflexivity.
  - exists results, w'. split; [exact Hquick|].
    apply Forall2_length in Hreported. rewrite <- Hreported. reflexivity.
Defined.

(* ===================================================================== *)
(** ** Beyond the claims: the buckets of the quick re-rate *)
(* ===================================================================== *)

Ltac fold_pos_compare :=
  repeat match goal with
  | |- context [Pos.compare_cont Eq ?a ?b] =>
      change (Pos.compare_cont Eq a b) with (Pos.compare a b)
  end.

(** [<=] on floats is transitive (no NaN satisfies it). *)
Lemma SFleb_trans (x y z : float) :
  SFleb x y = true -> SFleb y z = true -> SFleb x z = true.
Proof.
  unfold SFleb, SFcompare.
  destruct x as [sx|sx| |sx mx ex], y as [sy|sy| |sy my ey],
    z as [sz|sz| |sz mz ez]; try done;
    try (destruct sx; try done); try (destruct sy; try done);
    try (destruct sz; try done).
  - fold_pos_compare.
    destruct (Z.compare_spec ex ey), (Z.compare_spec ey ez),
      (Z.compare_spec ex ez); try done; try lia; subst;
      destruct (Pos.compare_spec mx my), (Pos.compare_spec my mz),
        (Pos.compare_spec mx mz); try done; lia.
  - fold_pos_compare.
    destruct (Z.compare_spec ex ey), (Z.compare_spec ey ez),
      (Z.compare_spec ex ez); try done; try lia; subst;
      destruct (Pos.compare_spec mx my), (Pos.compare_spec my mz),
        (Pos.compare_spec mx mz); try done; lia.
Qed.

(** X15. More score never gives fewer stars: for any thresholds,
    descending or not, the rating the quick re-rate assigns is monotone in
    the total. *)
Theorem new_rating_of_monotone (total total' t4 t3 t2 t1 : float) :
  PyFloat.ge total' total = true ->
  new_rating_of total t4 t3 t2 t1 <= new_rating_of total' t4 t3 t2 t1.
Proof.
  intros Hle. unfold new_rating_of, PyFloat.ge in *.
  assert (Hup : forall t, SFleb t total = true -> SFleb t total' = true)
    by (intros t Ht; by apply (SFleb_trans t total total')).
  destruct (SFleb t4 total) eqn:E4; [by rewrite (Hup _ E4)|].
  destruct (SFleb t3 total) eqn:E3.
  { rewrite (Hup _ E3). destruct (SFleb t4 total'); lia. }
  destruct (SFleb t2 total) eqn:E2.
  { rewrite (Hup _ E2).
    destruct (SFleb t4 total'), (SFleb t3 total'); lia. }
  destruct (SFleb t1 total) eqn:E1.
  { rewrite (Hup _ E1).
    destruct (SFleb t4 total'), (SFleb t3 total'), (SFleb t2 total'); lia. }
  destruct (SFleb t4 total'), (SFleb t3 total'), (SFleb t2 total'),
    (SFleb t1 total'); lia.
Qed.

(** X16. With descending thresholds the buckets are bands: a file gets at
    least [k] stars exactly when its total reaches the threshold of [k]. *)
Theorem new_rating_of_bands (total t4 t3 t2 t1 : float) (k : Z) :
  PyFloat.ge t4 t3 = true -> PyFloat.ge t3 t2 = true ->
  PyFloat.ge t2 t1 = true ->
  1 <= k <= 4 ->
  (k <= new_rating_of total t4 t3 t2 t1
   <-> PyFloat.ge total (threshold_of t4 t3 t2 t1 k) = true).
Proof.
  unfold new_rating_of, threshold_of, PyFloat.ge.
  intros H43 H32 H21 Hk.
  assert (H42 : SFleb t2 t4 = true) by by apply (SFleb_trans t2 t3 t4).
  assert (H41 : SFleb t1 t4 = true) by by apply (SFleb_trans t1 t2 t4).
  assert (H31 : SFleb t1 t3 = true) by by apply (SFleb_trans t1 t2 t3).
  assert (Hk' : k = 1 \/ k = 2 \/ k = 3 \/ k = 4) by lia.
  destruct (SFleb t4 total) eqn:E4.
  { pose proof (SFleb_trans _ _ _ H43 E4) as E3.
    pose proof (SFleb_trans _ _ _ H42 E4) as E2.
    pose proof (SFleb_trans _ _ _ H41 E4) as E1.
    destruct Hk' as [-> | [-> | [-> | ->]]]; simpl; split; intros;
      first [done | lia | congruence]. }
  destruct (SFleb t3 total) eqn:E3.
  { pose proof (SFleb_trans _ _ _ H32 E3) as E2.
    pose proof (SFleb_trans _ _ _ H31 E3) as E1.
    destruct Hk' as [-> | [-> | [-> | ->]]]; simpl; split; intros;
      first [done | lia | congruence]. }
  destruct (SFleb t2 total) eqn:E2.
  { pose proof (SFleb_trans _ _ _ H21 E2) as E1.
    destruct Hk' as [-> | [-> | [-> | ->]]]; simpl; split; intros;
      first [done | lia | congruence]. }
  destruct (SFleb t1 total) eqn:E1;
    destruct Hk' as [-> | [-> | [-> | ->]]]; simpl; split; intros;
      first [done | lia | congruence].
Qed.

Lemma new_rating_of_monotone_witness :
  new_rating_of (PyFloat.dec 740 1) (PyFloat.dec 780 1) (PyFloat.dec 720 1)
    (PyFloat.dec 660 1) (PyFloat.dec 580 1)
  <= new_rating_of (PyFloat.dec 785 1) (PyFloat.dec 780 1)
       (PyFloat.dec 720 1) (PyFloat.dec 660 1) (PyFloat.dec 580 1).
Proof.
  apply new_rating_of_monotone. vm_compute. reflexivity.
Defined.

Lemma new_rating_of_bands_witness :
  3 <= new_rating_of (PyFloat.dec 740 1) (PyFloat.dec 780 1)
         (PyFloat.dec 720 1) (PyFloat.dec 660 1) (PyFloat.dec 580 1)
  <-> PyFloat.ge (PyFloat.dec 740 1) (PyFloat.dec 720 1) = true.
Proof.
  apply (new_rating_of_bands (PyFloat.dec 740 1) (PyFloat.dec 780 1)
           (PyFloat.dec 720 1) (PyFloat.dec 660 1) (PyFloat.dec 580 1) 3);
    try (vm_compute; reflexivity).
  lia.
Defined.

(* ===================================================================== *)
(** ** Beyond the claims: what the fingerprint sees *)
(* ===================================================================== *)

Lemma hash_input_head_tail (head mid tail : bytes) :
  length head = CHUNK -> length tail = CHUNK ->
  hash_input (head ++ mid ++ tail) = head ++ tail.
Proof.
  intros Hhead Htail. rewrite hash_input_closed_form.
  rewrite !length_app, Hhead, Htail.
  destruct (Z.of_nat _ <=? 65536) eqn:E.
  { apply Z.leb_le in E. unfold CHUNK in E. lia. }
  rewrite (take_app_length' head) by done. f_equal.
  rewrite app_assoc. apply drop_app_length'.
  rewrite length_app, Hhead. lia.
Qed.

Section FingerprintFacts.
Context `{Hashlib}.

(** X17. The fingerprint does not see the middle of a large file: two
    files that share their first 64 KiB and their last 64 KiB have the same
    fingerprint, whatever lies between and whatever their sizes. *)
Theorem fingerprint_ignores_the_middle (head mid mid' tail : bytes)
    path w path' w' :
  length head = CHUNK -> length tail = CHUNK ->
  open_read w path = Some (head ++ mid ++ tail) ->
  open_read w' path' = Some (head ++ mid' ++ tail) ->
  calculate_file_hash path w = calculate_file_hash path' w'
  /\ calculate_file_hash path w = md5_hexdigest (head ++ tail).
Proof.
  intros Hhead Htail Hread Hread'. unfold calculate_file_hash.
  rewrite Hread, Hread'. by rewrite !hash_input_head_tail.
Qed.

(** X18. Hence an edit in the middle of a processed file goes unnoticed:
    once [add_file_result] has recorded a large file (with a fingerprint
    that is not empty), [is_file_processed] keeps answering [True] after
    the bytes between its first and last 64 KiB have been replaced, and
    [get_pending_files] does not list it. *)
Theorem edit_in_the_middle_goes_unnoticed self fs (head mid mid' tail : bytes)
    path quality aesthetic total rating w w' :
  Py.dict_get (data self) "files" = Some (VDict fs) ->
  length head = CHUNK -> length tail = CHUNK ->
  open_read w path = Some (head ++ mid ++ tail) ->
  open_read w' path = Some (head ++ mid' ++ tail) ->
  md5_hexdigest (head ++ tail) <> "" ->
  exists self',
    add_file_result self (Py.basename path) path quality aesthetic total
      rating w = (Ok self', (now w).2)
    /\ is_file_processed self' (Py.basename path) path w' = Ok true
    /\ get_pending_files self' [path] w' = Ok [].
Proof.
  intros Hf Hhead Htail Hread Hread' Hdigest.
  destruct (add_file_result_files self (Py.basename path) path quality
              aesthetic total rating w fs Hf)
    as (self' & Hadd & Hf' & _).
  exists self'. split; [exact Hadd|].
  assert (Hprocessed :
            is_file_processed self' (Py.basename path) path w' = Ok true).
  { rewrite (is_file_processed_unfold _ _ _ _ _ Hf'), dict_get_set_eq.
    assert (Hhash : calculate_file_hash path w
                    = md5_hexdigest (head ++ tail)).
    { unfold calculate_file_hash. rewrite Hread.
      by rewrite hash_input_head_tail. }
    assert (Hhash' : calculate_file_hash path w'
                     = md5_hexdigest (head ++ tail)).
    { unfold calculate_file_hash. rewrite Hread'.
      by rewrite hash_input_head_tail. }
    unfold stored_record. rewrite Hhash, Hhash'. unfold_bind. simpl.
    apply String.eqb_neq in Hdigest. rewrite Hdigest. simpl.
    by rewrite String.eqb_refl. }
  split; [exact Hprocessed|].
  unfold get_pending_files. simpl. by rewrite Hprocessed.
Qed.

End FingerprintFacts.

(** X19. The hasher is fed twice the first [min(64 KiB, size)] bytes' worth
    and never more than 128 KiB, and on files of at most 64 KiB what it is
    fed determines the content. *)
Theorem hash_input_bounded (content content' : bytes) :
  length (hash_input content) = (2 * Nat.min CHUNK (length content))%nat
  /\ (length (hash_input content) <= 2 * CHUNK)%nat
  /\ ((length content <= CHUNK)%nat -> (length content' <= CHUNK)%nat ->
      hash_input content = hash_input content' -> content = content').
Proof.
  assert (Hlen : length (hash_input content)
                 = (2 * Nat.min CHUNK (length content))%nat).
  { rewrite hash_input_closed_form.
    destruct (Z.of_nat (length content) <=? 65536) eqn:E.
    - apply Z.leb_le in E. rewrite length_app. unfold CHUNK. lia.
    - apply Z.leb_gt in E.
      rewrite length_app, length_take, length_drop. unfold CHUNK. lia. }
  split; [exact Hlen|]. split; [lia|].
  intros Hs Hs' Heq. rewrite !hash_input_closed_form in Heq.
  assert ((Z.of_nat (length content) <=? 65536) = true) as E
    by (apply Z.leb_le; unfold CHUNK in Hs; lia).
  assert ((Z.of_nat (length content') <=? 65536) = true) as E'
    by (apply Z.leb_le; unfold CHUNK in Hs'; lia).
  rewrite E, E' in Heq.
  assert (Hl : length content = length content').
  { apply (f_equal length) in Heq. rewrite !length_app in Heq. lia. }
  by apply app_inj_1 in Heq as [? _].
Qed.

Lemma fingerprint_ignores_the_middle_witness :
  @calculate_file_hash Demo.demo_hashlib "/photos/big.jpg"
    (BigFile.world_with [Byte.x01; Byte.x02; Byte.x03])
  = @calculate_file_hash Demo.demo_hashlib "/photos/big.jpg"
      (BigFile.world_with [Byte.x09]).
Proof.
  apply (@fingerprint_ignores_the_middle Demo.demo_hashlib
           BigFile.head [Byte.x01; Byte.x02; Byte.x03] [Byte.x09]
           BigFile.tail).
  - apply length_replicate.
  - apply length_replicate.
  - reflexivity.
  - reflexivity.
Defined.

Lemma edit_in_the_middle_goes_unnoticed_witness :
  exists self',
    BigFile.upsert_big [Byte.x01; Byte.x02; Byte.x03]
    = (Ok self', (now (BigFile.world_with [Byte.x01; Byte.x02; Byte.x03])).2)
    /\ @get_pending_files Demo.demo_hashlib self' ["/photos/big.jpg"]
         (BigFile.world_with [Byte.x09]) = Ok [].
Proof.
  destruct (@edit_in_the_middle_goes_unnoticed Demo.demo_hashlib Demo.fresh
              [] BigFile.head [Byte.x01; Byte.x02; Byte.x03] [Byte.x09]
              BigFile.tail "/photos/big.jpg" Demo.q80_02 Demo.a70
              Demo.total_80_02_70 3
              (BigFile.world_with [Byte.x01; Byte.x02; Byte.x03])
              (BigFile.world_with [Byte.x09]))
    as (self' & Hadd & _ & Hpending).
  - reflexivity.
  - apply length_replicate.
  - apply length_replicate.
  - reflexivity.
  - reflexivity.
  - change ("md5:" +:+ String.string_of_list_byte
                         (BigFile.head ++ BigFile.tail) <> "").
    discriminate.
  - exists self'. split; [exact Hadd | exact Hpending].
Defined.

Lemma hash_input_bounded_witness :
  (length (hash_input Demo.photo) <= 2 * CHUNK)%nat
  /\ (hash_input Demo.photo = hash_input Demo.photo
      -> Demo.photo = Demo.photo).
Proof.
  destruct (hash_input_bounded Demo.photo Demo.photo) as (_ & Hle & Hinj).
  split; [exact Hle|].
  apply Hinj; change (length Demo.photo) with 4%nat; unfold CHUNK; lia.
Defined.

(* ===================================================================== *)
(** ** Beyond the claims: the summary *)
(* ===================================================================== *)

Lemma hist_set_int_keys h n c :
  int_keys h -> int_keys (hist_set h (VInt n) c).
Proof.
  unfold int_keys. induction 1 as [|[k c'] h [m Hk] Hh IH]; simpl.
  - repeat constructor. by exists n.
  - simpl in Hk. subst k. simpl.
    destruct (m =? n); constructor; simpl; eauto.
Qed.

Lemma hist_get_set_int h n c k :
  int_keys h ->
  hist_get (hist_set h (VInt n) c) (VInt k)
  = if n =? k then c else hist_get h (VInt k).
Proof.
  unfold int_keys. induction 1 as [|[k' c'] h [m Hk] Hh IH]; simpl.
  - done.
  - simpl in Hk. subst k'. simpl.
    destruct (m =? n) eqn:Emn; simpl.
    + apply Z.eqb_eq in Emn. subst m. by destruct (n =? k).
    + rewrite IH. destruct (m =? k) eqn:Emk; [|done].
      apply Z.eqb_eq in Emk. subst m. by rewrite Z.eqb_sym, Emn.
Qed.

Lemma hist_total_set h k :
  hist_total (hist_set h k (hist_get h k + 1)) = hist_total h + 1.
Proof.
  unfold hist_total. induction h as [|[k' c'] h IH]; simpl; [lia|].
  destruct (key_eqb k' k); simpl; lia.
Qed.

Lemma hist_set_keys_prefix h k c :
  exists more, map fst (hist_set h k c) = map fst h ++ more.
Proof.
  induction h as [|[k' c'] h [more IH]]; simpl.
  - by exists [k].
  - destruct (key_eqb k' k); simpl.
    + exists []. by rewrite app_nil_r.
    + exists more. by rewrite IH.
Qed.

Lemma count_ratings_ok (fs : dict) :
  forall h,
    int_keys h ->
    Forall (fun kv => is_Some (int_rating kv.2)) fs ->
    exists h',
      for_each count_rating h (map snd fs) = Ok h'
      /\ int_keys h'
      /\ (forall k,
            hist_get h' (VInt k)
            = hist_get h (VInt k)
              + Z.of_nat (length (List.filter
                   (fun kv => bool_decide (int_rating kv.2 = Some k)) fs)))
      /\ hist_total h' = hist_total h + Z.of_nat (length fs)
      /\ exists more, map fst h' = map fst h ++ more.
Proof.
  induction fs as [|[filename info] fs IH]; intros h Hh Hfs.
  - exists h. simpl. split; [done|]. split; [done|].
    split; [intros; lia|]. split; [lia|]. exists []. by rewrite app_nil_r.
  - inversion Hfs as [|? ? [n Hn] Hfs']; subst. simpl in Hn.
    assert (Hstep : count_rating h info
                    = Ok (hist_set h (VInt n) (hist_get h (VInt n) + 1))).
    { unfold count_rating, int_rating in *.
      destruct info as [| | | | | |r]; try done. simpl.
      by destruct (Py.dict_get_default r "rating" (VInt 0));
        try done; injection Hn as ->. }
    simpl. rewrite Hstep.
    destruct (IH _ (hist_set_int_keys h n (hist_get h (VInt n) + 1) Hh)
                Hfs')
      as (h' & Hloop & Hh' & Hcount & Htotal & more & Hkeys).
    exists h'. split; [done|]. split; [done|].
    split; [|split].
    + intros k. rewrite Hcount, hist_get_set_int by done. rewrite Hn.
      destruct (n =? k) eqn:E.
      * apply Z.eqb_eq in E. subst k.
        rewrite bool_decide_eq_true_2 by done. simpl. lia.
      * apply Z.eqb_neq in E.
        rewrite bool_decide_eq_false_2 by congruence. done.
    + rewrite Htotal, hist_total_set. simpl length. lia.
    + destruct (hist_set_keys_prefix h (VInt n) (hist_get h (VInt n) + 1))
        as [more' Hmore].
      exists (more' ++ more). by rewrite Hkeys, Hmore, app_assoc.
Qed.

(** X20. The histogram of [get_summary] counts every record once, under
    its rating. On a ledger whose records hold an int rating (or none, which
    counts as 0) and whose configuration is a mapping, [get_summary]
    succeeds; the count it gives for a rating is the number of records with
    that rating, whether or not the rating is one of 0..5; the counts add up
    to the number of records; the buckets 0..5 come first and are there even
    when they are empty; the other fields are the ledger's own. *)
Theorem get_summary_counts self fs :
  Py.dict_get (data self) "files" = Some (VDict fs) ->
  Forall (fun kv => is_Some (int_rating kv.2)) fs ->
  is_dict (config self) = true ->
  exists s,
    get_summary self = Ok s
    /\ (forall k,
          hist_get (summary_by_rating s) (VInt k)
          = Z.of_nat (length (List.filter
               (fun kv => bool_decide (int_rating kv.2 = Some k)) fs)))
    /\ hist_total (summary_by_rating s) = Py.len fs
    /\ take 6 (map fst (summary_by_rating s))
       = [VInt 0; VInt 1; VInt 2; VInt 3; VInt 4; VInt 5]
    /\ summary_status s = status self
    /\ summary_processed_files s = processed_count self
    /\ summary_total_files s = total_count self
    /\ Py.get (config self) "thresholds" (VList [])
       = Ok (summary_thresholds s).
Proof.
  intros Hf Hfs Hconfig.
  set (h0 := [ (VInt 0, 0); (VInt 1, 0); (VInt 2, 0);
               (VInt 3, 0); (VInt 4, 0); (VInt 5, 0) ] : histogram).
  assert (Hh0 : int_keys h0) by (repeat constructor; simpl; eauto).
  destruct (count_ratings_ok fs h0 Hh0 Hfs)
    as (h' & Hloop & _ & Hcount & Htotal & more & Hkeys).
  destruct (config self) as [| | | | | |c] eqn:Hc; try done.
  eexists. split.
  { unfold get_summary, Py.dict_get_default. rewrite Hf.
    fold h0. rewrite Hloop. unfold_bind. rewrite Hc. simpl. reflexivity. }
  simpl. split.
  { intros k. rewrite Hcount.
    assert (hist_get h0 (VInt k) = 0) as ->; [|lia].
    unfold h0. cbn [hist_get key_eqb].
    repeat match goal with
           | |- context [?a =? k] => destruct (a =? k)
           end; done. }
  split; [rewrite Htotal; unfold Py.len; by simpl|].
  split; [by rewrite Hkeys|]. done.
Qed.

(** X21. The summary shows what the setters stored: after [set_config] and
    [set_total_files], the summary of the ledger reports those thresholds
    and that total, and the histogram is the one it was. *)
Theorem get_summary_after_setters self thresholds qw aw count s :
  get_summary self = Ok s ->
  exists s',
    get_summary (set_total_files (set_config self thresholds qw aw) count)
      = Ok s'
    /\ summary_thresholds s' = VList (map VFloat thresholds)
    /\ summary_total_files s' = VInt count
    /\ summary_by_rating s' = summary_by_rating s
    /\ summary_status s' = summary_status s
    /\ summary_processed_files s' = summary_processed_files s.
Proof.
  unfold get_summary, Py.dict_get_default. simpl.
  rewrite !dict_get_set_ne by done.
  destruct (Py.dict_get (data self) "files") as [v|].
  - destruct v as [| | | | | |fs]; try done.
    destruct (for_each count_rating _ (map snd fs)) as [h|]; [|done].
    unfold_bind.
    destruct (Py.get (config self) "thresholds" (VList [])) as [ths|];
      [|done].
    intros [= <-]. eexists. split.
    { unfold config, Py.dict_get_default. simpl.
      rewrite dict_get_set_ne by done. rewrite dict_get_set_eq. simpl.
      reflexivity. }
    simpl. unfold status, total_count, processed_count, Py.dict_get_default.
    simpl. rewrite dict_get_set_eq.
    by rewrite !dict_get_set_ne by done.
  - simpl. unfold_bind.
    destruct (Py.get (config self) "thresholds" (VList [])) as [ths|];
      [|done].
    intros [= <-]. eexists. split.
    { unfold config, Py.dict_get_default. simpl.
      rewrite dict_get_set_ne by done. rewrite dict_get_set_eq. simpl.
      reflexivity. }
    simpl. unfold status, total_count, processed_count, Py.dict_get_default.
    simpl. rewrite dict_get_set_eq.
    by rewrite !dict_get_set_ne by done.
Qed.

Lemma get_summary_counts_witness :
  exists s,
    get_summary Demo.once.1 = Ok s
    /\ hist_get (summary_by_rating s) (VInt 3) = 1
    /\ hist_get (summary_by_rating s) (VInt 5) = 0.
Proof.
  destruct (get_summary_counts Demo.once.1 (files_of (data Demo.once.1)))
    as (s & Hs & Hcount & _).
  - reflexivity.
  - constructor; [|constructor]. vm_compute. eexists. reflexivity.
  - reflexivity.
  - exists s. split; [exact Hs|].
    split; rewrite Hcount; vm_compute; reflexivity.
Defined.

Lemma get_summary_after_setters_witness :
  exists s',
    get_summary
      (set_total_files
         (set_config Demo.once.1 [PyFloat.dec 850 1; PyFloat.dec 800 1]
            (PyFloat.dec 5 1) (PyFloat.dec 5 1)) 7) = Ok s'
    /\ summary_total_files s' = VInt 7.
Proof.
  destruct (get_summary Demo.once.1) as [s|e] eqn:Hs;
    [|vm_compute in Hs; discriminate].
  destruct (get_summary_after_setters Demo.once.1
              [PyFloat.dec 850 1; PyFloat.dec 800 1]
              (PyFloat.dec 5 1) (PyFloat.dec 5 1) 7 s Hs)
    as (s' & Hs' & _ & Htotal & _).
  exists s'. split; [exact Hs' | exact Htotal].
Defined.

(* ===================================================================== *)
(** ** Beyond the claims: what [restore_files] keeps and moves *)
(* ===================================================================== *)

Module RestoreMore.
Import Restore.

Lemma work_entry t b children bf :
  t !! b = Some (TDir children) ->
  In bf (work t) -> bf.1 = b ->
  children !! bf.2.1 = Some bf.2.2.
Proof.
  intros Hb Hin Heq. unfold work in Hin.
  apply in_concat in Hin as (l & Hl & Hin).
  apply in_map_iff in Hl as (b' & <- & _).
  apply in_map_iff in Hin as ([name c] & <- & Hin). simpl in *. subst b'.
  unfold listing, dir_of in Hin. rewrite Hb in Hin.
  apply list_elem_of_In in Hin. by apply elem_of_map_to_list in Hin.
Qed.

Lemma kept_move_up b2 n2 c2 t b name content :
  t !! n2 = None ->
  (b2 = b -> n2 = name -> c2 = content) ->
  kept t b name content ->
  kept (move_up b2 n2 c2 t) b name content.
Proof.
  intros Hfree Hsame [(ch & Hdir & Hchild)|Htop].
  - assert (Hb : b <> n2).
    { intros ->. unfold dir_of in Hdir. by rewrite Hfree in Hdir. }
    destruct (decide (b2 = b /\ n2 = name)) as [[-> ->]|Hother].
    + right. unfold move_up. rewrite (Hsame eq_refl eq_refl).
      apply lookup_insert_eq.
    + left. exists (if decide (b2 = b) then delete n2 ch else ch). split.
      * unfold dir_of, move_up in *.
        rewrite lookup_insert_ne by done. rewrite lookup_alter.
        destruct (decide (b2 = b)) as [->|]; [|done].
        destruct (t !! b) as [[]|]; simplify_eq. done.
      * destruct (decide (b2 = b)) as [Heq|]; [|done].
        rewrite lookup_delete_ne; [done|]. intros ->. by apply Hother.
  - right. unfold move_up.
    rewrite lookup_insert_ne
      by (intros Heq; rewrite Heq in Hfree; congruence).
    rewrite lookup_alter.
    destruct (decide (b2 = name)) as [Heq|]; [|done].
    by rewrite Heq, Htop.
Qed.

Lemma steps_lose_nothing o l b name content :
  forall st,
    (forall bf, In bf l -> bf.1 = b -> bf.2.1 = name ->
                bf.2.2 = CFile content) ->
    kept st.2 b name content ->
    kept (foldl (step o) st l).2 b name content.
Proof.
  induction l as [|bf l IH]; intros [res t] Hl Hkept; simpl in *; [done|].
  apply IH; [intros; apply Hl; auto|].
  destruct (RestoreFacts.step_tree o res t bf)
    as [->|(c2 & Hc2 & Hfree & _ & ->)]; [done|].
  apply kept_move_up; [done| |done].
  intros Hb Hn. specialize (Hl bf (or_introl eq_refl) Hb Hn). congruence.
Qed.

(** X22. [restore_files] loses no file, whatever the operating system
    refuses and whatever names collide: a file that was in a folder of the
    directory is afterwards still in that folder under its name, or at the
    top level under its name, with the content it had. *)
Theorem restore_files_loses_nothing o t b children name content :
  t !! b = Some (TDir children) ->
  children !! name = Some (CFile content) ->
  kept (restore_files o t).2 b name content.
Proof.
  intros Hb Hchild.
  destruct (RestoreFacts.restore_files_proj o t) as [_ ->].
  rewrite RestoreFacts.move_phase_flat.
  assert (Hkept : kept (foldl (step o)
                          ({| moved := 0; failed := 0;
                              already_in_place := 0 |}, t) (work t)).2
                    b name content).
  { apply steps_lose_nothing.
    - intros bf Hin Hb' Hn.
      pose proof (work_entry t b children bf Hb Hin Hb') as Hbf.
      rewrite Hn, Hchild in Hbf. congruence.
    - left. exists children. simpl. unfold dir_of. by rewrite Hb. }
  set (t1 := (foldl (step o)
                ({| moved := 0; failed := 0; already_in_place := 0 |}, t)
                (work t)).2) in *.
  destruct Hkept as [(ch & Hdir & Hch)|Htop].
  - left. exists ch. split; [|done]. unfold dir_of in *.
    destruct (t1 !! b) as [[|ch0]|] eqn:E; simplify_eq.
    rewrite (RestoreFacts.cleanup_keeps o _ b (TDir ch) E); [done|].
    intros ->. by rewrite lookup_empty in Hch.
  - right. by apply (RestoreFacts.cleanup_keeps o _ name (TFile content)).
Qed.

Lemma remove_if_empty_no_dir o t b :
  dir_of t b = None -> remove_if_empty o t b = t.
Proof.
  unfold dir_of, remove_if_empty. by destruct (t !! b) as [[]|].
Qed.

(** X23. On a directory that has no rating folder, [restore_files] does
    nothing: the three counts are zero and the directory is as it was. *)
Theorem restore_files_without_rating_folders o t :
  (forall b, b ∈ star_dirs -> dir_of t b = None) ->
  restore_files o t = (zero, t).
Proof.
  intros Hnone.
  assert (Hwork : work t = []).
  { unfold work. apply concat_nil_Forall, Forall_forall.
    intros l Hl. apply list_elem_of_fmap in Hl as (b & -> & Hb).
    unfold listing. by rewrite Hnone. }
  assert (Hclean : forall bs, (forall b, b ∈ bs -> b ∈ star_dirs) ->
            foldl (remove_if_empty o) t bs = t).
  { induction bs as [|b bs IH]; intros Hbs; simpl; [done|].
    rewrite remove_if_empty_no_dir by (apply Hnone, Hbs; left).
    apply IH. intros b' Hb'. apply Hbs. by right. }
  unfold restore_files. rewrite RestoreFacts.move_phase_flat, Hwork.
  cbn [foldl]. by rewrite Hclean.
Qed.

Lemma steps_move o l b name content :
  forall st,
    NoDup (found_in l).*2 ->
    In (b, (name, CFile content)) l ->
    st.2 !! name = None ->
    move_fails o b name = false ->
    (foldl (step o) st l).2 !! name = Some (TFile content).
Proof.
  induction l as [|bf l IH]; intros [res t] Hnd Hin Hfree Hok; simpl in *;
    [done|].
  destruct Hin as [->|Hin].
  - apply RestoreFacts.steps_keep_top. simpl.
    unfold step, restore_file. simpl. rewrite Hfree, Hok. simpl.
    unfold move_up. apply lookup_insert_eq.
  - assert (Hname : name ∈ (found_in l).*2).
    { apply list_elem_of_fmap. exists (b, name). split; [done|].
      unfold found_in. apply list_elem_of_fmap.
      exists (b, (name, CFile content)). split; [done|].
      apply list_elem_of_In, filter_In. by split. }
    assert (Hnd' : NoDup (found_in l).*2).
    { unfold found_in in *. simpl in Hnd.
      destruct (is_file bf.2.2); [|done]. simpl in Hnd.
      by apply NoDup_cons in Hnd as [_ ?]. }
    apply IH; try done.
    destruct (RestoreFacts.step_tree o res t bf)
      as [->|(c2 & Hc2 & Hfree2 & _ & ->)]; [done|].
    assert (Hne : bf.2.1 <> name).
    { intros Heq. unfold found_in in Hnd. simpl in Hnd.
      rewrite Hc2 in Hnd. simpl in Hnd.
      apply NoDup_cons in Hnd as [Hnot _]. apply Hnot. by rewrite Heq. }
    unfold move_up. rewrite lookup_insert_ne by done.
    rewrite lookup_alter. simpl in Hfree.
    destruct (decide (bf.1 = name)) as [Heq|]; [|done].
    by rewrite Heq, Hfree.
Qed.

(** X24. A file is moved to the top level with its content: when no two
    files found in the rating folders share a name, a file of a rating
    folder whose name is free at the top level and whose move the operating
    system does not refuse is afterwards the top-level file of that name. *)
Theorem restore_files_moves_to_top o t b children name content :
  b ∈ star_dirs ->
  t !! b = Some (TDir children) ->
  children !! name = Some (CFile content) ->
  exists_at t name = false ->
  move_fails o b name = false ->
  NoDup (files_found t).*2 ->
  (restore_files o t).2 !! name = Some (TFile content).
Proof.
  intros Hb Ht Hchild Hfree Hok Hnd.
  destruct (RestoreFacts.restore_files_proj o t) as [_ ->].
  rewrite RestoreFacts.move_phase_flat.
  apply (RestoreFacts.cleanup_keeps o _ name (TFile content)); [|done].
  apply (steps_move o (work t) b name content); try done.
  - unfold work. apply in_concat.
    exists (map (pair b) (listing t b)). split.
    + apply in_map_iff. exists b. split; [done|].
      by apply list_elem_of_In.
    + apply in_map_iff. exists (name, CFile content). split; [done|].
      unfold listing, dir_of. rewrite Ht.
      by apply list_elem_of_In, elem_of_map_to_list.
  - simpl. unfold exists_at in Hfree. by destruct (t !! name).
Qed.

End RestoreMore.

Lemma restore_files_loses_nothing_witness :
  Restore.kept
    (Restore.restore_files RestoreDemo.kind_os RestoreDemo.photos).2
    "3星" "b.jpg" (RestoreDemo.jpeg "B").
Proof.
  apply (RestoreMore.restore_files_loses_nothing RestoreDemo.kind_os
           RestoreDemo.photos "3星"
           {[ "a.jpg" := Restore.CFile (RestoreDemo.jpeg "A");
              "b.jpg" := Restore.CFile (RestoreDemo.jpeg "B") ]}).
  - vm_compute. reflexivity.
  - vm_compute. reflexivity.
Defined.

Lemma restore_files_without_rating_folders_witness :
  Restore.restore_files RestoreDemo.kind_os
    {[ "a.jpg" := Restore.TFile (RestoreDemo.jpeg "A") ]}
  = (Restore.zero, {[ "a.jpg" := Restore.TFile (RestoreDemo.jpeg "A") ]}).
Proof.
  apply RestoreMore.restore_files_without_rating_folders.
  intros b Hb. unfold Restore.star_dirs in Hb.
  repeat (apply elem_of_cons in Hb as [->|Hb]; [vm_compute; reflexivity|]).
  by apply elem_of_nil in Hb.
Defined.

Lemma restore_files_moves_to_top_witness :
  (Restore.restore_files RestoreDemo.kind_os RestoreDemo.photos).2 !! "b.jpg"
  = Some (Restore.TFile (RestoreDemo.jpeg "B")).
Proof.
  apply (RestoreMore.restore_files_moves_to_top RestoreDemo.kind_os
           RestoreDemo.photos "3星"
           {[ "a.jpg" := Restore.CFile (RestoreDemo.jpeg "A");
              "b.jpg" := Restore.CFile (RestoreDemo.jpeg "B") ]}).
  - apply (bool_decide_unpack _). vm_compute. exact I.
  - vm_compute. reflexivity.
  - vm_compute. reflexivity.
  - vm_compute. reflexivity.
  - reflexivity.
  - apply (bool_decide_unpack _). vm_compute. exact I.
Defined.

(* ===================================================================== *)
(** ** Beyond the claims: when the ledger file exists, and when loading
       fails *)
(* ===================================================================== *)

Section Existence.
Context `{Json}.

(** X25. The ledger file appears with the first successful [save] and not
    before. On a directory without a ledger file, [get_manifest] builds a
    fresh empty ledger and writes nothing, so [has_manifest] is still
    [False]; after a [save], [has_manifest] is [True] exactly when the
    operating system let the file be written; and when it did not, the next
    [get_manifest] starts again from a fresh empty ledger: what the manager
    held is lost without an error. *)
Theorem manifest_appears_with_first_save self w :
  has_manifest (directory self) w = false ->
  (exists fresh w1,
      get_manifest (directory self) w = (Ok fresh, w1)
      /\ files w1 = files w
      /\ has_manifest (directory self) w1 = false
      /\ status fresh = VStr "new"
      /\ files_of (data fresh) = [])
  /\ has_manifest (directory self) (save self w).2
     = negb (write_denied w (manifest_path self))
  /\ (write_denied w (manifest_path self) = true ->
      exists fresh w2,
        get_manifest (directory self) (save self w).2 = (Ok fresh, w2)
        /\ status fresh = VStr "new"
        /\ files_of (data fresh) = []).
Proof.
  intros Hno.
  assert (Hfresh : forall w0, has_manifest (directory self) w0 = false ->
            exists fresh w1,
              get_manifest (directory self) w0 = (Ok fresh, w1)
              /\ files w1 = files w0
              /\ has_manifest (directory self) w1 = false
              /\ status fresh = VStr "new"
              /\ files_of (data fresh) = []).
  { intros w0 Hno0. unfold get_manifest, __init__.
    change (manifest_path {| directory := directory self; data := [] |})
      with (directory self +:+ "/" +:+ MANIFEST_FILENAME).
    unfold has_manifest in Hno0. rewrite Hno0.
    eexists _, _. split; [reflexivity|]. done. }
  assert (Hsaved : has_manifest (directory self) (save self w).2
                   = negb (write_denied w (manifest_path self))).
  { unfold has_manifest, path_exists in *.
    change (directory self +:+ "/" +:+ MANIFEST_FILENAME)
      with (manifest_path self) in *.
    rewrite save_files.
    destruct (write_denied w (manifest_path self)); simpl; [done|].
    by rewrite lookup_insert_eq. }
  split; [by apply Hfresh|]. split; [exact Hsaved|].
  intros Hdenied. rewrite Hdenied in Hsaved.
  destruct (Hfresh _ Hsaved) as (fresh & w2 & Hget & _ & _ & Hs & Hf).
  by exists fresh, w2.
Qed.

(** X26. A ledger file of the wrong shape makes the constructor fail, and
    nothing has changed. When the file holds valid JSON that is not an
    object, [load] raises [AttributeError], which its handler does not
    catch. When it holds a list-shaped ledger one of whose entries is not an
    object (the entries before it being readable), the migration raises
    [AttributeError] at that entry, before anything is saved. In both cases
    the exception comes out of the constructor, the disk is as it was and
    the clock has not been read. *)
Theorem malformed_ledger_fails_without_writing self w content :
  open_read w (manifest_path self) = Some content ->
  (forall v,
      json_loads content = Some v -> is_dict v = false ->
      load self w = (Raise AttributeError, w)
      /\ __init__ (directory self) w = (Raise AttributeError, w))
  /\ (forall d good bad rest,
        json_loads content = Some (VDict d) ->
        Py.dict_get d "files" = Some (VList (good ++ bad :: rest)) ->
        forallb legacy_entry_ok good = true ->
        is_dict bad = false ->
        load self w = (Raise AttributeError, w)
        /\ __init__ (directory self) w = (Raise AttributeError, w)).
Proof.
  intros Hread.
  assert (Hinit : (forall self0, manifest_path self0 = manifest_path self ->
                     load self0 w = (Raise AttributeError, w)) ->
                  load self w = (Raise AttributeError, w)
                  /\ __init__ (directory self) w
                     = (Raise AttributeError, w)).
  { intros Hload. split; [by apply Hload|].
    unfold __init__. rewrite Hload by done.
    change (manifest_path {| directory := directory self; data := [] |})
      with (manifest_path self).
    unfold path_exists. unfold open_read in Hread.
    destruct (read_denied w (manifest_path self)); [done|].
    by rewrite Hread. }
  split.
  - intros v Hloads Hv. apply Hinit. intros self0 Hpath.
    unfold load. rewrite Hpath, Hread, Hloads. by destruct v.
  - intros d good bad rest Hloads Hfiles Hgood Hbad. apply Hinit.
    intros self0 Hpath. unfold load. rewrite Hpath, Hread, Hloads.
    unfold _migrate_old_format, Py.dict_get_default at 1. simpl.
    rewrite Hfiles. by rewrite migrate_entries_raise.
Qed.

End Existence.

Lemma manifest_appears_with_first_save_witness :
  has_manifest "/photos" Demo.world0 = false
  /\ has_manifest "/photos" (@save Demo.demo_json Demo.fresh Demo.world0).2
     = true.
Proof.
  assert (Hno : has_manifest (directory Demo.fresh) Demo.world0 = false)
    by reflexivity.
  split; [exact Hno|].
  destruct (@manifest_appears_with_first_save Demo.demo_json Demo.fresh
              Demo.world0 Hno) as (_ & Hsaved & _).
  exact Hsaved.
Defined.

Lemma malformed_ledger_fails_without_writing_witness :
  @__init__ Memo.array_json "/photos" Demo.persisted
  = (Raise AttributeError, Demo.persisted)
  /\ @__init__ (Memo.memo_json Memo.broken_legacy_doc) "/photos"
       Demo.persisted
     = (Raise AttributeError, Demo.persisted).
Proof.
  assert (Hread : open_read Demo.persisted (manifest_path Demo.fresh)
                  = Some Demo.doc_bytes) by (vm_compute; reflexivity).
  split.
  - destruct (@malformed_ledger_fails_without_writing Memo.array_json
                Demo.fresh Demo.persisted Demo.doc_bytes Hread)
      as [Hshape _].
    destruct (Hshape (VList [])) as [_ Hinit]; [reflexivity..|].
    exact Hinit.
  - destruct (@malformed_ledger_fails_without_writing
                (Memo.memo_json Memo.broken_legacy_doc)
                Demo.fresh Demo.persisted Demo.doc_bytes Hread)
      as [_ Hentries].
    destruct (Hentries Memo.broken_legacy_doc
                [Demo.legacy_entry "a.jpg" 80 70 74 3] (VStr "b.jpg") [])
      as [_ Hinit]; [reflexivity..|].
    exact Hinit.
Defined.

(* ===================================================================== *)
(** ** Beyond the claims: the scorer, the dialog and the quick re-rate *)
(* ===================================================================== *)

(** X27. The scorer and the quick re-rate give stars by the same rule:
    once [set_thresholds] has been called, [_map_to_rating] gives a total
    the rating [quick_rerate] gives it under the same thresholds, with an
    empty pick flag and an empty color label; and the thresholds the scorer
    starts with are the ones a fresh ledger records. *)
Theorem map_to_rating_is_the_rerate_rule (t4 t3 t2 t1 total : float)
    (globals : Scorer.thresholds) self w :
  Scorer._map_to_rating (Scorer.set_thresholds t4 t3 t2 t1 globals) total
  = (new_rating_of total t4 t3 t2 t1, "", "")
  /\ Py.get (config (_init_new_manifest self w).1) "thresholds" (VList [])
     = Ok (let '(d4, d3, d2, d1) := Scorer._thresholds in
           VList [VFloat d4; VFloat d3; VFloat d2; VFloat d1]).
Proof.
  split; [|done].
  unfold Scorer._map_to_rating, Scorer.set_thresholds, new_rating_of.
  by destruct (PyFloat.ge total t4), (PyFloat.ge total t3),
    (PyFloat.ge total t2), (PyFloat.ge total t1).
Qed.

Lemma new_rating_of_antitone (total t4 t3 t2 t1 s4 s3 s2 s1 : float) :
  PyFloat.ge s4 t4 = true -> PyFloat.ge s3 t3 = true ->
  PyFloat.ge s2 t2 = true -> PyFloat.ge s1 t1 = true ->
  new_rating_of total s4 s3 s2 s1 <= new_rating_of total t4 t3 t2 t1.
Proof.
  unfold new_rating_of, PyFloat.ge. intros H4 H3 H2 H1.
  assert (Hdown : forall s t, SFleb t s = true -> SFleb s total = true ->
                              SFleb t total = true)
    by (intros s t Hts Hs; by apply (SFleb_trans t s total)).
  destruct (SFleb s4 total) eqn:E4.
  { by rewrite (Hdown _ _ H4 E4). }
  destruct (SFleb s3 total) eqn:E3.
  { rewrite (Hdown _ _ H3 E3). destruct (SFleb t4 total); lia. }
  destruct (SFleb s2 total) eqn:E2.
  { rewrite (Hdown _ _ H2 E2).
    destruct (SFleb t4 total), (SFleb t3 total); lia. }
  destruct (SFleb s1 total) eqn:E1.
  { rewrite (Hdown _ _ H1 E1).
    destruct (SFleb t4 total), (SFleb t3 total), (SFleb t2 total); lia. }
  destruct (SFleb t4 total), (SFleb t3 total), (SFleb t2 total),
    (SFleb t1 total); lia.
Qed.

Lemma map_to_rating_rating (t4 t3 t2 t1 total : float) :
  (Scorer._map_to_rating (t4, t3, t2, t1) total).1.1
  = new_rating_of total t4 t3 t2 t1.
Proof.
  unfold Scorer._map_to_rating, new_rating_of.
  by destruct (PyFloat.ge total t4), (PyFloat.ge total t3),
    (PyFloat.ge total t2), (PyFloat.ge total t1).
Qed.

(** X28. Raising thresholds never gives more stars: when each threshold
    is at least what it was, the rating the quick re-rate assigns to a
    total is at most what it was. *)
Theorem raising_thresholds_never_adds_stars
    (total t4 t3 t2 t1 s4 s3 s2 s1 : float) :
  PyFloat.ge s4 t4 = true -> PyFloat.ge s3 t3 = true ->
  PyFloat.ge s2 t2 = true -> PyFloat.ge s1 t1 = true ->
  new_rating_of total s4 s3 s2 s1 <= new_rating_of total t4 t3 t2 t1
  /\ (Scorer._map_to_rating (s4, s3, s2, s1) total).1.1
     <= (Scorer._map_to_rating (t4, t3, t2, t1) total).1.1.
Proof.
  intros H4 H3 H2 H1.
  pose proof (new_rating_of_antitone total _ _ _ _ _ _ _ _ H4 H3 H2 H1)
    as Hle.
  split; [exact Hle|]. by rewrite !map_to_rating_rating.
Qed.

(** X29. The presets of the dialog are ordered: for every total, the
    strict preset gives at most the stars of the default one, which gives at
    most the stars of the lenient one; and an index that is none of 1, 2, 3,
    or a dialog without the combo box, hands over the current
    thresholds. *)
Theorem presets_are_ordered (current : Scorer.thresholds) (total : float) :
  let stars index :=
    (Scorer._map_to_rating
       (Dialog.get_selected_thresholds current (Some index)) total).1.1 in
  stars 2 <= stars 1 <= stars 3
  /\ (forall index, index <> 1 -> index <> 2 -> index <> 3 ->
        Dialog.get_selected_thresholds current (Some index) = current)
  /\ Dialog.get_selected_thresholds current None = current.
Proof.
  intros stars. split; [|split; [|done]].
  - unfold stars.
    change (Dialog.get_selected_thresholds current (Some 1))
      with (PyFloat.dec 780 1, PyFloat.dec 720 1, PyFloat.dec 660 1,
            PyFloat.dec 580 1).
    change (Dialog.get_selected_thresholds current (Some 2))
      with (PyFloat.dec 850 1, PyFloat.dec 800 1, PyFloat.dec 750 1,
            PyFloat.dec 700 1).
    change (Dialog.get_selected_thresholds current (Some 3))
      with (PyFloat.dec 700 1, PyFloat.dec 600 1, PyFloat.dec 500 1,
            PyFloat.dec 400 1).
    rewrite !map_to_rating_rating.
    split; apply new_rating_of_antitone; by vm_compute.
  - intros index H1 H2 H3. unfold Dialog.get_selected_thresholds.
    destruct (index =? 0); [done|].
    destruct (index =? 1) eqn:E1; [apply Z.eqb_eq in E1; lia|].
    destruct (index =? 2) eqn:E2; [apply Z.eqb_eq in E2; lia|].
    destruct (index =? 3) eqn:E3; [apply Z.eqb_eq in E3; lia|]. done.
Qed.

Lemma raising_thresholds_never_adds_stars_witness :
  new_rating_of (PyFloat.dec 740 1) (PyFloat.dec 850 1) (PyFloat.dec 800 1)
    (PyFloat.dec 750 1) (PyFloat.dec 700 1)
  <= new_rating_of (PyFloat.dec 740 1) (PyFloat.dec 780 1)
       (PyFloat.dec 720 1) (PyFloat.dec 660 1) (PyFloat.dec 580 1).
Proof.
  apply raising_thresholds_never_adds_stars; vm_compute; reflexivity.
Defined.

Lemma presets_are_ordered_witness :
  Dialog.get_selected_thresholds Scorer._thresholds (Some 7)
  = Scorer._thresholds.
Proof.
  destruct (presets_are_ordered Scorer._thresholds (PyFloat.dec 740 1))
    as (_ & Hother & _).
  apply Hother; lia.
Defined.
